(** * Panchang API server: caching, batch warming and tithi search

    A shallow embedding of [src/server.js] (the version with the in-memory
    caches): the two [Map] caches, [getCacheKey], [getPanchangData],
    [getDatesInCurrentYear], [String.prototype.padLeft] and the six Express
    routes.  The astronomical library ([MhahPanchang]) is an external
    collaborator and enters as two section variables, [calendar] and
    [sunTimer], each of which may throw. *)

From Stdlib Require Import ZArith List Lia Ascii String Sorting.Sorted.
From stdpp Require Import base option list sorting gmap strings pretty.

Local Open Scope string_scope.
Local Open Scope list_scope.

(** ** JavaScript values and string primitives *)

Module Js.

(** The values a parsed JSON body field or a query parameter can hold.
    [VNum n] is the number the integer numeral [n] denotes, that is the
    double nearest to [n]; [VNum 0] stands for both zeros, which the
    server cannot tell apart.  Numbers with a fractional part, arrays and
    objects are not modelled. *)
Inductive value : Type :=
| VUndefined
| VNull
| VBool (b : bool)
| VNum (n : Z)
| VStr (s : string).

(** [ToBoolean]: what [!v] negates. *)
Definition truthy (v : value) : bool :=
  match v with
  | VUndefined | VNull => false
  | VBool b => b
  | VNum n => negb (n =? 0)%Z
  | VStr s => negb (String.eqb s "")
  end.

(** [c.repeat(n)] for a one-character-or-more string [c]. *)
Fixpoint repeat_string (n : nat) (c : string) : string :=
  match n with
  | O => ""
  | S n' => c +:+ repeat_string n' c
  end.

(** The double nearest to the positive integer [n], ties going to the even
    significand; the integers below [2^53] are doubles themselves. *)
Definition round_to_double (n : Z) : Z :=
  let shift := (Z.log2 n + 1 - 53)%Z in
  if (shift <=? 0)%Z then n
  else
    let q := Z.shiftr n shift in
    let r := Z.land n (Z.ones shift) in
    let half := Z.shiftl 1 (shift - 1) in
    let q' := if (half <? r)%Z || ((r =? half)%Z && Z.odd q) then (q + 1)%Z else q in
    Z.shiftl q' shift.

(** Whether the decimal [v] reads back as the double [x >= 2^53]: it lies
    between the midpoints to the two neighbouring doubles, the midpoints
    themselves counting when the significand of [x] is even.  Compared in
    quarters, so that the midpoints are integers. *)
Definition reads_back_as (x v : Z) : bool :=
  let e := (Z.log2 x - 52)%Z in
  let m := Z.shiftr x e in
  let gap_above := Z.shiftl 4 e in
  let gap_below := if (m =? 2 ^ 52)%Z then Z.shiftl 2 e else gap_above in
  let lo := (4 * x - gap_below / 2)%Z in
  let hi := (4 * x + gap_above / 2)%Z in
  if Z.even m
  then (lo <=? 4 * v)%Z && (4 * v <=? hi)%Z
  else (lo <? 4 * v)%Z && (4 * v <? hi)%Z.

(** The decimal [s * 10^j] with [k] digits [s] that reads back as [x] and
    is closest to it, the even [s] on a tie, if there is one. *)
Definition digits_of_length (x : Z) (k : Z) : option (Z * Z) :=
  let j := (Z.of_nat (String.length (pretty x)) - k)%Z in
  if (j <? 0)%Z then None
  else
    let p := (10 ^ j)%Z in
    let below := (x / p)%Z in
    let above := (below + 1)%Z in
    let pick s := if (s =? 10 ^ k)%Z then (10 ^ (k - 1), j + 1)%Z else (s, j) in
    match reads_back_as x (below * p), reads_back_as x (above * p) with
    | true, true =>
        let d_below := (x - below * p)%Z in
        let d_above := (above * p - x)%Z in
        if (d_below <? d_above)%Z || ((d_below =? d_above)%Z && Z.even below)
        then Some (pick below) else Some (pick above)
    | true, false => Some (pick below)
    | false, true => Some (pick above)
    | false, false => None
    end.

(** The shortest such decimal, trying [k], [k + 1], ...; 17 digits
    identify any double. *)
Fixpoint shortest_digits (fuel : nat) (x : Z) (k : Z) : Z * Z :=
  match fuel with
  | O => (x, 0%Z)
  | S fuel' =>
      match digits_of_length x k with
      | Some sj => sj
      | None => shortest_digits fuel' x (k + 1)
      end
  end.

(** [Number::toString] of a positive double [x] that is an integer: the
    shortest digits that read back as [x], followed by zeros up to 21
    digits in all and in exponent form beyond; [Infinity] from [2^1024]. *)
Definition positive_to_string (x : Z) : string :=
  if (x <? 2 ^ 53)%Z then pretty x
  else if (2 ^ 1024 <=? x)%Z then "Infinity"
  else
    let '(s, j) := shortest_digits 17 x 1 in
    let digits := pretty s in
    let n := (Z.of_nat (String.length digits) + j)%Z in
    if (n <=? 21)%Z then digits +:+ repeat_string (Z.to_nat j) "0"
    else
      match digits with
      | String d EmptyString => String d ("e+" +:+ pretty (n - 1)%Z)
      | String d rest => String d ("." +:+ rest +:+ "e+" +:+ pretty (n - 1)%Z)
      | EmptyString => ""
      end.

(** [Number::toString] of the number the integer numeral [n] denotes. *)
Definition number_to_string (n : Z) : string :=
  match n with
  | Z0 => "0"
  | Zpos _ => positive_to_string (round_to_double n)
  | Zneg _ => "-" +:+ positive_to_string (round_to_double (- n))
  end.

(** [ToString], as applied by a template literal [`${v}`]. *)
Definition to_string (v : value) : string :=
  match v with
  | VUndefined => "undefined"
  | VNull => "null"
  | VBool true => "true"
  | VBool false => "false"
  | VNum n => number_to_string n
  | VStr s => s
  end.

(** [Array(length).join(character)]: [length] empty slots joined by
    [character], i.e. [length - 1] copies of it. *)
Definition array_join (length : nat) (character : string) : string :=
  repeat_string (length - 1) character.

(** [s.slice(-n)]: the last [n] characters; [slice(-0)] is [slice(0)],
    the whole string, and so is a window wider than the string. *)
Definition slice_last (n : nat) (s : string) : string :=
  match n with
  | O => s
  | _ => String.substring (String.length s - n) n s
  end.

(** [String.prototype.toLowerCase] on text of the ASCII range, where it
    changes the capitals [A] to [Z] and nothing else.  Characters beyond
    that range are left as they are here; what is proved about letter
    case is proved for ASCII text. *)
Definition lower_char (c : ascii) : ascii :=
  let n := nat_of_ascii c in
  if (65 <=? n)%nat && (n <=? 90)%nat then ascii_of_nat (n + 32) else c.

Fixpoint toLowerCase (s : string) : string :=
  match s with
  | EmptyString => EmptyString
  | String c s' => String (lower_char c) (toLowerCase s')
  end.

End Js.

(** [String.prototype.padLeft = function (length, character)
      { return (Array(length).join(character) + this).slice(-length); }] *)
Definition padLeft (this : string) (length : nat) (character : string) : string :=
  Js.slice_last length (Js.array_join length character +:+ this).

(** ** The calendar behind [new Date(year, month, 0).getDate()] *)

Module JsDate.

(** The [Date] constructor reads a year from 0 to 99 as 1900 + year. *)
Definition full_year (year : Z) : Z :=
  if (0 <=? year)%Z && (year <=? 99)%Z then (1900 + year)%Z else year.

Definition is_leap (y : Z) : bool :=
  ((y mod 4 =? 0)%Z && negb (y mod 100 =? 0)%Z) || (y mod 400 =? 0)%Z.

Definition days_of_month (leap : bool) (m : nat) : nat :=
  match m with
  | 2 => if leap then 29 else 28
  | 4 | 6 | 9 | 11 => 30
  | _ => 31
  end.

(** Length of month [m] (1 to 12) of the proleptic Gregorian year [y]. *)
Definition month_length (y : Z) (m : nat) : nat :=
  days_of_month (is_leap y) m.

(** [new Date(year, month, 0).getDate()] for [month] from 1 to 12: day 0
    of the month with index [month] is the last day of the month before,
    which is month [month] counted from 1.  This is for the years -271820
    to 275759, all of whose days a [Date] can hold, and for a local time
    that skips no calendar day; the two years at the ends of the range of
    [Date], in which some of these dates are invalid, are not modelled. *)
Definition last_day_of_month (year : Z) (month : nat) : nat :=
  month_length (full_year year) month.

End JsDate.

(** ** The [YYYY-MM-DD] format, as the specification words it: four digits
    of year, two of month, two of day, zero-padded, joined by dashes. *)

Module Iso.

Definition digit (n : N) : ascii := ascii_of_N (48 + n mod 10).

Definition two_digits (n : nat) : string :=
  let k := N.of_nat n in
  String (digit (k / 10)) (String (digit k) "").

Definition four_digits (y : Z) : string :=
  let k := Z.to_N y in
  String (digit (k / 1000)) (String (digit (k / 100))
    (String (digit (k / 10)) (String (digit k) ""))).

Definition month_day (m d : nat) : string :=
  two_digits m +:+ "-" +:+ two_digits d.

Definition date (y : Z) (m d : nat) : string :=
  four_digits y +:+ "-" +:+ month_day m d.

(** Every day of a year with the given leap status, January 1 first. *)
Definition month_days_of (leap : bool) : list string :=
  flat_map (fun m => map (month_day m) (seq 1 (JsDate.days_of_month leap m)))
    (seq 1 12).

(** Every calendar day of year [y] in calendar order. *)
Definition year (y : Z) : list string :=
  map (String.append (four_digits y +:+ "-")) (month_days_of (JsDate.is_leap y)).

End Iso.

(** ** Comparison that ignores letter case, as the specification words it *)

Module Letters.

Definition capitals : string := "ABCDEFGHIJKLMNOPQRSTUVWXYZ".
Definition smalls : string := "abcdefghijklmnopqrstuvwxyz".

(** Each capital letter with its small letter. *)
Definition cases : list (ascii * ascii) :=
  zip (list_ascii_of_string capitals) (list_ascii_of_string smalls).

(** The same character, or the same letter in the two cases. *)
Definition same_letter (c c' : ascii) : bool :=
  Ascii.eqb c c'
  || existsb (fun '(capital, small) =>
                Ascii.eqb c capital && Ascii.eqb c' small
                || Ascii.eqb c small && Ascii.eqb c' capital) cases.

(** Equality of two strings under case-insensitive comparison. *)
Fixpoint equal_ignoring_case (a b : string) : bool :=
  match a, b with
  | EmptyString, EmptyString => true
  | String c a', String c' b' => same_letter c c' && equal_ignoring_case a' b'
  | _, _ => false
  end.

(** Every character there is. *)
Definition all_ascii : list ascii := map ascii_of_nat (seq 0 256).

(** Text of the ASCII range. *)
Definition is_ascii (s : string) : bool :=
  forallb (fun c => (nat_of_ascii c <? 128)%nat) (list_ascii_of_string s).

End Letters.

(** ** [getDatesInCurrentYear]

    [currentYear] is the reading of [new Date().getFullYear()]; it is an
    input of the model. *)

Definition dateStr (currentYear : Z) (month day : nat) : string :=
  pretty currentYear +:+ "-" +:+ padLeft (pretty month) 2 "0"
    +:+ "-" +:+ padLeft (pretty day) 2 "0".

Definition getDatesInCurrentYear (currentYear : Z) : list string :=
  flat_map
    (fun month =>
       let daysInMonth := JsDate.last_day_of_month currentYear month in
       map (fun day => dateStr currentYear month day) (seq 1 daysInMonth))
    (seq 1 12).

Global Arguments getDatesInCurrentYear : simpl never.

(** ** Records exchanged with the astronomical library and with clients *)

(** The fields [getPanchangData] reads off [panchangObj.calendar(...)]:
    [result.Tithi.name_en_IN], ..., [result.Ritu.name_en_UK]. *)
Record CalendarResult : Type := {
  Tithi : string; Paksha : string; Nakshatra : string; Yoga : string;
  Karna : string; Masa : string; Raasi : string; Ritu : string }.

(** What [panchangObj.sunTimer(...)] returns. *)
Record SunTimes : Type := { sunRise : string; sunSet : string }.

(** The object literal [panchangData] built by [getPanchangData]. *)
Module PanchangData.
Record t : Type := {
  date : Js.value; latitude : Js.value; longitude : Js.value;
  tithi : string; paksha : string; nakshatra : string; yoga : string;
  karna : string; masa : string; raasi : string; ritu : string;
  sunrise : string; sunset : string }.
End PanchangData.

(** One element of [matchingDates]. *)
Module Match.
Record t : Type := {
  date : Js.value; tithi : string; paksha : string; nakshatra : string;
  sunrise : string; sunset : string }.
End Match.

(** The [result] object of the search route. *)
Module SearchResult.
Record t : Type := {
  tithi : Js.value; location : string; totalMatches : nat;
  dates : list Match.t }.
End SearchResult.

(** JSON bodies passed to [res.json]. *)
Inductive body : Type :=
| JError (error : string)
| JPanchang (r : PanchangData.t)
| JCacheYear (message : string) (totalDates : nat) (location : string)
| JSearch (r : SearchResult.t)
| JTithis (tithis : list string) (location note : string)
| JStats (panchangCacheSize tithiSearchCacheSize : nat) (message : string)
| JMessage (message : string).

(** Observable effects, in the order they happen. *)
Inductive event : Type :=
| CalendarCall (date lat lng : Js.value)
| SunTimerCall (date lat lng : Js.value)
| ConsoleError (msg : string)
| SetImmediate
| Response (status : nat) (b : body).

(** The closure [processBatch] with the variables it captures. *)
Record batch : Type := {
  dates : list string; lat : Js.value; lng : Js.value;
  currentBatch : nat; cachedCount : nat }.

(** Process state: the two module-level [Map]s, the queue filled by
    [setImmediate], and the trace of effects so far. *)
Record state : Type := {
  panchangCache : gmap string PanchangData.t;
  tithiSearchCache : gmap string SearchResult.t;
  immediates : list batch;
  trace : list event }.

Definition initial : state :=
  {| panchangCache := ∅; tithiSearchCache := ∅; immediates := []; trace := [] |}.

(** ** A state monad with exceptions

    [inl msg] is a thrown [Error] whose [message] is [msg]. *)

Definition M (A : Type) : Type := state -> (string + A) * state.

Definition ret {A} (a : A) : M A := fun s => (inr a, s).

Definition throw {A} (msg : string) : M A := fun s => (inl msg, s).

Definition bind {A B} (m : M A) (k : A -> M B) : M B :=
  fun s => match m s with
           | (inr a, s') => k a s'
           | (inl e, s') => (inl e, s')
           end.

Definition try_catch {A} (m : M A) (handler : string -> M A) : M A :=
  fun s => match m s with
           | (inr a, s') => (inr a, s')
           | (inl e, s') => handler e s'
           end.

Notation "'let!' x ':=' m 'in' k" := (bind m (fun x => k))
  (at level 10, x name, m at level 100, k at level 200).
Notation "m '>>' k" := (bind m (fun _ => k))
  (at level 100, k at level 200, right associativity).

Definition get_state : M state := fun s => (inr s, s).

(** The state after the effects [evs] have happened, in that order. *)
Definition log_events (evs : list event) (s : state) : state :=
  {| panchangCache := panchangCache s;
     tithiSearchCache := tithiSearchCache s;
     immediates := immediates s;
     trace := trace s ++ evs |}.

(** The state after [panchangCache.set(k, v)]. *)
Definition store_record (k : string) (v : PanchangData.t) (s : state) : state :=
  {| panchangCache := <[k := v]> (panchangCache s);
     tithiSearchCache := tithiSearchCache s;
     immediates := immediates s;
     trace := trace s |}.

Definition emit (e : event) : M unit := fun s => (inr tt, log_events [e] s).

Definition panchangCache_set (k : string) (v : PanchangData.t) : M unit :=
  fun s => (inr tt, store_record k v s).

Definition tithiSearchCache_set (k : string) (v : SearchResult.t) : M unit :=
  fun s => (inr tt, {| panchangCache := panchangCache s;
                       tithiSearchCache := <[k := v]> (tithiSearchCache s);
                       immediates := immediates s;
                       trace := trace s |}).

Definition caches_clear : M unit :=
  fun s => (inr tt, {| panchangCache := ∅;
                       tithiSearchCache := ∅;
                       immediates := immediates s;
                       trace := trace s |}).

(** [setImmediate(processBatch)]: the closure goes to the back of the queue. *)
Definition setImmediate (b : batch) : M unit :=
  fun s => (inr tt, {| panchangCache := panchangCache s;
                       tithiSearchCache := tithiSearchCache s;
                       immediates := immediates s ++ [b];
                       trace := trace s ++ [SetImmediate] |}).

Definition console_error (msg : string) : M unit := emit (ConsoleError msg).

(** [res.status(status).json(b)] *)
Definition res_json (status : nat) (b : body) : M unit := emit (Response status b).

(** [for (const x of xs) body], with the loop's local variable [acc]. *)
Fixpoint for_of {A B} (xs : list A) (body : A -> B -> M B) (acc : B) : M B :=
  match xs with
  | [] => ret acc
  | x :: xs' => let! acc' := body x acc in for_of xs' body acc'
  end.

(** [for (let i = start; i < start + count; i++) body]. *)
Fixpoint for_range {B} (count start : nat) (body : nat -> B -> M B) (acc : B) : M B :=
  match count with
  | O => ret acc
  | S count' => let! acc' := body start acc in for_range count' (S start) body acc'
  end.

(** ** Helpers of the server that need no collaborator *)

(** [`${date}_${lat}_${lng}`] *)
Definition getCacheKey (date lat lng : Js.value) : string :=
  Js.to_string date +:+ "_" +:+ Js.to_string lat +:+ "_" +:+ Js.to_string lng.

(** Whether the separator of the key template occurs in [s]. *)
Fixpoint contains_underscore (s : string) : bool :=
  match s with
  | EmptyString => false
  | String c s' => Ascii.eqb c "_" || contains_underscore s'
  end.

(** [`${tithi}_${lat}_${lng}`], the [searchKey] of the search route. *)
Definition searchKey_of (tithi lat lng : Js.value) : string :=
  Js.to_string tithi +:+ "_" +:+ Js.to_string lat +:+ "_" +:+ Js.to_string lng.

(** [`${lat}, ${lng}`] *)
Definition location_of (lat lng : Js.value) : string :=
  Js.to_string lat +:+ ", " +:+ Js.to_string lng.

(** [dates.filter((_, index) => index % 15 === 0)], from [index] on. *)
Fixpoint filter_index {A} (p : nat -> bool) (index : nat) (xs : list A) : list A :=
  match xs with
  | [] => []
  | x :: xs' =>
      if p index then x :: filter_index p (S index) xs'
      else filter_index p (S index) xs'
  end.

Definition sampleDates_of (dates : list string) : list string :=
  filter_index (fun index => (index mod 15 =? 0)%nat) 0 dates.

(** A [Set] of strings keeps its elements in insertion order. *)
Definition set_add (x : string) (xs : list string) : list string :=
  if existsb (String.eqb x) xs then xs else xs ++ [x].

(** [Array.prototype.sort()] without a comparator orders strings by their
    code units.  Equal strings are indistinguishable, so the outcome is the
    same for every sorting algorithm; merge sort stands for it. *)
Definition array_sort (xs : list string) : list string :=
  merge_sort String.le xs.

(** Strictly ascending order of strings by code units (JavaScript's [<]). *)
Definition string_lt (a b : string) : Prop := String.ltb a b = true.

#[local] Instance string_lt_dec : RelDecision string_lt.
Proof. intros a b. unfold string_lt. apply _. Defined.

(** The effects that happened between state [s] and a later state [s']. *)
Definition events_since (s s' : state) : list event :=
  drop (List.length (trace s)) (trace s').

(** Whether [res.json] happens before the astronomical library is first
    called, reading the trace from its start. *)
Fixpoint responds_before_computing (tr : list event) : bool :=
  match tr with
  | [] => false
  | Response _ _ :: _ => true
  | CalendarCall _ _ _ :: _ | SunTimerCall _ _ _ :: _ => false
  | _ :: tr' => responds_before_computing tr'
  end.

Definition is_calendar_call (e : event) : bool :=
  match e with
  | CalendarCall _ _ _ => true
  | _ => false
  end.

Definition count_calendar_calls (evs : list event) : nat :=
  List.length (List.filter is_calendar_call evs).

Definition is_response (e : event) : bool :=
  match e with
  | Response _ _ => true
  | _ => false
  end.

(** [tithi.toLowerCase()] on the query value: a method of strings only. *)
Definition call_toLowerCase (v : Js.value) : M string :=
  match v with
  | Js.VStr s => ret (Js.toLowerCase s)
  | _ => throw "tithi.toLowerCase is not a function"
  end.

(** ** The server, over an arbitrary astronomical library *)

Section Server.

(** [panchangObj.calendar(new Date(date), parseFloat(lat), parseFloat(lng))]
    followed by the reads of the eight [name_en_*] fields; [inl msg] when
    any of that throws. *)
Variable calendar : Js.value -> Js.value -> Js.value -> string + CalendarResult.

(** [panchangObj.sunTimer(new Date(date), parseFloat(lat), parseFloat(lng))]. *)
Variable sunTimer : Js.value -> Js.value -> Js.value -> string + SunTimes.

Definition call_calendar (date lat lng : Js.value) : M CalendarResult :=
  emit (CalendarCall date lat lng) >>
  match calendar date lat lng with
  | inl msg => throw msg
  | inr result => ret result
  end.

Definition call_sunTimer (date lat lng : Js.value) : M SunTimes :=
  emit (SunTimerCall date lat lng) >>
  match sunTimer date lat lng with
  | inl msg => throw msg
  | inr sun => ret sun
  end.

Definition getPanchangData (date lat lng : Js.value) : M PanchangData.t :=
  let cacheKey := getCacheKey date lat lng in
  let! s := get_state in
  match panchangCache s !! cacheKey with
  | Some cached => ret cached
  | None =>
      try_catch
        (let! result := call_calendar date lat lng in
         let! sun := call_sunTimer date lat lng in
         let panchangData :=
           {| PanchangData.date := date;
              PanchangData.latitude := lat;
              PanchangData.longitude := lng;
              PanchangData.tithi := Tithi result;
              PanchangData.paksha := Paksha result;
              PanchangData.nakshatra := Nakshatra result;
              PanchangData.yoga := Yoga result;
              PanchangData.karna := Karna result;
              PanchangData.masa := Masa result;
              PanchangData.raasi := Raasi result;
              PanchangData.ritu := Ritu result;
              PanchangData.sunrise := sunRise sun;
              PanchangData.sunset := sunSet sun |} in
         panchangCache_set cacheKey panchangData >>
         ret panchangData)
        (fun message => throw ("Failed to calculate panchang: " +:+ message))
  end.

(** What the two library calls of [getPanchangData] amount to. *)
Definition computed (date lat lng : Js.value) : string + PanchangData.t :=
  match calendar date lat lng with
  | inl msg => inl msg
  | inr result =>
      match sunTimer date lat lng with
      | inl msg => inl msg
      | inr sun =>
          inr {| PanchangData.date := date;
                 PanchangData.latitude := lat;
                 PanchangData.longitude := lng;
                 PanchangData.tithi := Tithi result;
                 PanchangData.paksha := Paksha result;
                 PanchangData.nakshatra := Nakshatra result;
                 PanchangData.yoga := Yoga result;
                 PanchangData.karna := Karna result;
                 PanchangData.masa := Masa result;
                 PanchangData.raasi := Raasi result;
                 PanchangData.ritu := Ritu result;
                 PanchangData.sunrise := sunRise sun;
                 PanchangData.sunset := sunSet sun |}
      end
  end.

(** The library calls a miss makes: [sunTimer] only once [calendar] has
    returned. *)
Definition computing_events (date lat lng : Js.value) : list event :=
  CalendarCall date lat lng ::
  match calendar date lat lng with
  | inl _ => []
  | inr _ => [SunTimerCall date lat lng]
  end.

(** The record [getPanchangData] returns from state [s], if it returns. *)
Definition record_at (s : state) (date lat lng : Js.value) : option PanchangData.t :=
  match fst (getPanchangData date lat lng s) with
  | inr r => Some r
  | inl _ => None
  end.

(** The state after one guarded call
    [try { getPanchangData(date, lat, lng) } catch (error)
         { console.error(`${prefix}${date}:`, error.message) }]. *)
Definition visit (prefix : string) (lat lng : Js.value) (s : state)
    (date : Js.value) : state :=
  match getPanchangData date lat lng s with
  | (inr _, s') => s'
  | (inl message, s') =>
      log_events [ConsoleError (prefix +:+ Js.to_string date +:+ ": " +:+ message)] s'
  end.

(** The state after such guarded calls for the dates [ds], in order. *)
Definition sweep (prefix : string) (lat lng : Js.value) (s : state)
    (ds : list string) : state :=
  foldl (fun s' d => visit prefix lat lng s' (Js.VStr d)) s ds.

(** The outermost [try { ... } catch (error) { console.error("Error:", error);
    res.status(500).json({ error: "Internal server error" }) }] of a route;
    what remains is the state the handler leaves behind. *)
Definition route (handler : M unit) : state -> state :=
  fun s =>
    snd (try_catch handler
           (fun message =>
              console_error ("Error: " +:+ message) >>
              res_json 500 (JError "Internal server error")) s).

(** [app.get("/panchang", ...)] *)
Definition get_panchang (date lat lng : Js.value) : state -> state :=
  route
    (if negb (Js.truthy date) || negb (Js.truthy lat) || negb (Js.truthy lng)
     then res_json 400 (JError "Missing date, lat or lng")
     else
       let! result := getPanchangData date lat lng in
       res_json 200 (JPanchang result)).

(** One turn of the [for] loop inside [processBatch]. *)
Definition processBatch_body (b : batch) (i : nat) (cachedCount : nat) : M nat :=
  let date := match dates b !! i with
              | Some d => Js.VStr d
              | None => Js.VUndefined
              end in
  let cacheKey := getCacheKey date (lat b) (lng b) in
  let! s := get_state in
  if negb (bool_decide (is_Some (panchangCache s !! cacheKey)))
  then
    try_catch
      (getPanchangData date (lat b) (lng b) >>
       ret (S cachedCount))
      (fun message =>
         console_error ("Error caching " +:+ Js.to_string date +:+ ": " +:+ message) >>
         ret cachedCount)
  else ret cachedCount.

Definition batchSize : nat := 50.

(** The closure [processBatch], run with its captured variables as they
    stand in [b]. *)
Definition processBatch (b : batch) : M unit :=
  let startIdx := currentBatch b * batchSize in
  let endIdx := Nat.min (startIdx + batchSize) (List.length (dates b)) in
  let! cachedCount' :=
    for_range (endIdx - startIdx) startIdx (processBatch_body b) (cachedCount b) in
  let b' := {| dates := dates b; lat := lat b; lng := lng b;
               currentBatch := S (currentBatch b);
               cachedCount := cachedCount' |} in
  if (endIdx <? List.length (dates b))%nat
  then setImmediate b'
  else ret tt.

(** [app.post("/cache-year", ...)] on a request whose body was parsed,
    from the values of its [lat] and [lng] properties on; [currentYear] is
    the clock's year when the request is handled. *)
Definition post_cache_year (currentYear : Z) (lat lng : Js.value) : state -> state :=
  route
    (if negb (Js.truthy lat) || negb (Js.truthy lng)
     then res_json 400 (JError "Missing lat or lng")
     else
       let dates := getDatesInCurrentYear currentYear in
       processBatch {| dates := dates; lat := lat; lng := lng;
                       currentBatch := 0; cachedCount := 0 |} >>
       res_json 200
         (JCacheYear "Year caching started" (List.length dates) (location_of lat lng))).

(** The same route on a request whose body was not parsed: [req.body] is
    [undefined], and [const { lat, lng } = req.body] throws a [TypeError]
    inside the route's [try]. *)
Definition post_cache_year_no_body : state -> state :=
  route
    (throw "Cannot destructure property 'lat' of 'req.body' as it is undefined.").

(** [app.post("/cache-year", ...)] from [req.body] on: [None] when no body
    was parsed, else the values of its [lat] and [lng] properties,
    [undefined] for one that is absent. *)
Definition post_cache_year_of_body (currentYear : Z)
    (body : option (Js.value * Js.value)) : state -> state :=
  match body with
  | Some (lat, lng) => post_cache_year currentYear lat lng
  | None => post_cache_year_no_body
  end.

(** The event loop takes the oldest [setImmediate] callback and runs it.
    [processBatch] catches what its body throws; an error escaping it
    would be an uncaught exception and is kept out of the state. *)
Definition run_immediate (s : state) : state :=
  match immediates s with
  | [] => s
  | b :: rest =>
      snd (processBatch b
             {| panchangCache := panchangCache s;
                tithiSearchCache := tithiSearchCache s;
                immediates := rest;
                trace := trace s |})
  end.

Fixpoint run_immediates (turns : nat) (s : state) : state :=
  match turns with
  | O => s
  | S turns' => run_immediates turns' (run_immediate s)
  end.

(** The object pushed on [matchingDates] for a matching record. *)
Definition matchingDate_of (panchangData : PanchangData.t) : Match.t :=
  {| Match.date := PanchangData.date panchangData;
     Match.tithi := PanchangData.tithi panchangData;
     Match.paksha := PanchangData.paksha panchangData;
     Match.nakshatra := PanchangData.nakshatra panchangData;
     Match.sunrise := PanchangData.sunrise panchangData;
     Match.sunset := PanchangData.sunset panchangData |}.

(** What a record contributes to [matchingDates] for the term [t]. *)
Definition matching (t : string) (record : option PanchangData.t) : list Match.t :=
  match record with
  | Some r =>
      if String.eqb (Js.toLowerCase (PanchangData.tithi r)) (Js.toLowerCase t)
      then [matchingDate_of r]
      else []
  | None => []
  end.

(** One turn of the [for ... of] loop of the search route. *)
Definition search_body (tithi lat lng : Js.value) (date : string)
    (matchingDates : list Match.t) : M (list Match.t) :=
  try_catch
    (let! panchangData := getPanchangData (Js.VStr date) lat lng in
     if negb (String.eqb (PanchangData.tithi panchangData) "")
     then
       let! term := call_toLowerCase tithi in
       if String.eqb (Js.toLowerCase (PanchangData.tithi panchangData)) term
       then ret (matchingDates ++ [matchingDate_of panchangData])
       else ret matchingDates
     else ret matchingDates)
    (fun message =>
       console_error ("Error processing " +:+ date +:+ ": " +:+ message) >>
       ret matchingDates).

(** [app.get("/search-tithi", ...)] *)
Definition get_search_tithi (currentYear : Z) (tithi lat lng : Js.value)
    : state -> state :=
  route
    (if negb (Js.truthy tithi) || negb (Js.truthy lat) || negb (Js.truthy lng)
     then res_json 400 (JError "Missing tithi, lat or lng")
     else
       let searchKey := searchKey_of tithi lat lng in
       let! s := get_state in
       match tithiSearchCache s !! searchKey with
       | Some cached => res_json 200 (JSearch cached)
       | None =>
           let dates := getDatesInCurrentYear currentYear in
           let! matchingDates := for_of dates (search_body tithi lat lng) [] in
           let result :=
             {| SearchResult.tithi := tithi;
                SearchResult.location := location_of lat lng;
                SearchResult.totalMatches := List.length matchingDates;
                SearchResult.dates := matchingDates |} in
           tithiSearchCache_set searchKey result >>
           res_json 200 (JSearch result)
       end).

(** What a record adds to the [Set] [tithis]. *)
Definition collect_tithi (record : option PanchangData.t) (tithis : list string)
    : list string :=
  match record with
  | Some r =>
      if negb (String.eqb (PanchangData.tithi r) "")
      then set_add (PanchangData.tithi r) tithis
      else tithis
  | None => tithis
  end.

(** One turn of the [for ... of] loop of the suggestion route. *)
Definition tithis_body (lat lng : Js.value) (date : string)
    (tithis : list string) : M (list string) :=
  try_catch
    (let! panchangData := getPanchangData (Js.VStr date) lat lng in
     if negb (String.eqb (PanchangData.tithi panchangData) "")
     then ret (set_add (PanchangData.tithi panchangData) tithis)
     else ret tithis)
    (fun message =>
       console_error ("Error processing " +:+ date +:+ ": " +:+ message) >>
       ret tithis).

(** [app.get("/tithis", ...)] *)
Definition get_tithis (currentYear : Z) (lat lng : Js.value) : state -> state :=
  route
    (if negb (Js.truthy lat) || negb (Js.truthy lng)
     then res_json 400 (JError "Missing lat or lng")
     else
       let dates := getDatesInCurrentYear currentYear in
       let sampleDates := sampleDates_of dates in
       let! tithis := for_of sampleDates (tithis_body lat lng) [] in
       res_json 200
         (JTithis (array_sort tithis) (location_of lat lng)
            "Based on sample dates from current year")).

(** [app.get("/cache-stats", ...)] *)
Definition get_cache_stats : state -> state :=
  fun s =>
    snd (res_json 200
           (JStats (size (panchangCache s)) (size (tithiSearchCache s))
              "Cache statistics") s).

(** [app.delete("/cache", ...)] *)
Definition delete_cache : state -> state :=
  fun s =>
    snd ((caches_clear >> res_json 200 (JMessage "Cache cleared successfully")) s).

End Server.

(** ** The earlier server and the dispatch of requests *)

(** The requests the application answers, each with the clock's year where
    the route reads it ([PostCacheYearNoBody] is a [POST /cache-year] whose
    body was not parsed), and a turn of the event loop that runs the oldest
    [setImmediate] callback. *)
Inductive request : Type :=
| GetPanchang (date lat lng : Js.value)
| PostCacheYear (currentYear : Z) (lat lng : Js.value)
| PostCacheYearNoBody
| GetSearchTithi (currentYear : Z) (tithi lat lng : Js.value)
| GetTithis (currentYear : Z) (lat lng : Js.value)
| GetCacheStats
| DeleteCache
| Immediate.

Definition is_delete (req : request) : bool :=
  match req with
  | DeleteCache => true
  | _ => false
  end.

Section Dispatch.

Variable calendar : Js.value -> Js.value -> Js.value -> string + CalendarResult.
Variable sunTimer : Js.value -> Js.value -> Js.value -> string + SunTimes.

(** [app.get("/panchang", ...)] of the server without caches (the first
    [server.js]): both library calls on every request. *)
Definition get_panchang_uncached (date lat lng : Js.value) : state -> state :=
  route
    (if negb (Js.truthy date) || negb (Js.truthy lat) || negb (Js.truthy lng)
     then res_json 400 (JError "Missing date, lat or lng")
     else
       let! result := call_calendar calendar date lat lng in
       let! sun := call_sunTimer sunTimer date lat lng in
       res_json 200
         (JPanchang
            {| PanchangData.date := date;
               PanchangData.latitude := lat;
               PanchangData.longitude := lng;
               PanchangData.tithi := Tithi result;
               PanchangData.paksha := Paksha result;
               PanchangData.nakshatra := Nakshatra result;
               PanchangData.yoga := Yoga result;
               PanchangData.karna := Karna result;
               PanchangData.masa := Masa result;
               PanchangData.raasi := Raasi result;
               PanchangData.ritu := Ritu result;
               PanchangData.sunrise := sunRise sun;
               PanchangData.sunset := sunSet sun |})).

(** The routes registered on [app], by request. *)
Definition handle (req : request) : state -> state :=
  match req with
  | GetPanchang date lat lng => get_panchang calendar sunTimer date lat lng
  | PostCacheYear y lat lng => post_cache_year calendar sunTimer y lat lng
  | PostCacheYearNoBody => post_cache_year_no_body
  | GetSearchTithi y tithi lat lng => get_search_tithi calendar sunTimer y tithi lat lng
  | GetTithis y lat lng => get_tithis calendar sunTimer y lat lng
  | GetCacheStats => get_cache_stats
  | DeleteCache => delete_cache
  | Immediate => run_immediate calendar sunTimer
  end.

(** The state after the requests [reqs], served one after the other. *)
Definition serve (reqs : list request) (s : state) : state :=
  foldl (fun s' req => handle req s') s reqs.

(** Every cached record is what the library returns for the date and the
    coordinates the record echoes, and sits under their key. *)
Definition coherent (s : state) : Prop :=
  forall k r,
    panchangCache s !! k = Some r ->
    k = getCacheKey (PanchangData.date r) (PanchangData.latitude r)
          (PanchangData.longitude r)
    /\ computed calendar sunTimer (PanchangData.date r) (PanchangData.latitude r)
         (PanchangData.longitude r) = inr r.

End Dispatch.

(** Every cached search result counts its matches rightly and, for a string
    term, holds only entries whose tithi is the term up to letter case. *)
Definition search_results_sound (s : state) : Prop :=
  forall k r,
    tithiSearchCache s !! k = Some r ->
    SearchResult.totalMatches r = List.length (SearchResult.dates r)
    /\ forall t m, SearchResult.tithi r = Js.VStr t ->
                   m ∈ SearchResult.dates r ->
                   Js.toLowerCase (Match.tithi m) = Js.toLowerCase t.

(** [s'] comes after [s] with no response written in between. *)
Definition extends_quietly (s s' : state) : Prop :=
  exists evs, trace s' = trace s ++ evs
              /\ Forall (fun e => is_response e = false) evs.

(** Between [s] and [s'] exactly one response was written, as the last
    effect. *)
Definition responds_once (status : nat) (b : body) (s s' : state) : Prop :=
  exists evs, trace s' = trace s ++ evs ++ [Response status b]
              /\ Forall (fun e => is_response e = false) evs.

(** [tithiSearchCache] is the same in [s'] as in [s]. *)
Definition same_search_cache (s s' : state) : Prop :=
  tithiSearchCache s' = tithiSearchCache s.

(** The queue of [setImmediate] callbacks is the same in [s'] as in [s]. *)
Definition same_queue (s s' : state) : Prop :=
  immediates s' = immediates s.

(** No entry of either cache was removed or replaced between [s] and [s']. *)
Definition caches_grow (s s' : state) : Prop :=
  (forall k r, panchangCache s !! k = Some r -> panchangCache s' !! k = Some r)
  /\ (forall k r, tithiSearchCache s !! k = Some r -> tithiSearchCache s' !! k = Some r).

(** ** A small astronomical library to run the server on

    Full moon on the 15th of every month, new moon on the 30th, one
    Ekadashi on 8 January 2024, and no ephemeris for the 31st. *)

Module Demo.

Definition result_of (t : string) : CalendarResult :=
  {| Tithi := t; Paksha := "Shukla"; Nakshatra := "Rohini"; Yoga := "Siddha";
     Karna := "Bava"; Masa := "Chaitra"; Raasi := "Aries"; Ritu := "Spring" |}.

Definition calendar (date lat lng : Js.value) : string + CalendarResult :=
  match date with
  | Js.VStr d =>
      if negb (String.length d =? 10)%nat then inl "Invalid time value"
      else if String.eqb d "2024-01-08" then inr (result_of "Ekadashi")
      else
        let day := String.substring 8 2 d in
        if String.eqb day "15" then inr (result_of "Purnima")
        else if String.eqb day "30" then inr (result_of "Amavasya")
        else if String.eqb day "31" then inl "no ephemeris"
        else inr (result_of "Pratipada")
  | _ => inl "Invalid time value"
  end.

Definition sunTimer (date lat lng : Js.value) : string + SunTimes :=
  inr {| sunRise := "06:12"; sunSet := "18:03" |}.

Definition bengaluru_lat : Js.value := Js.VStr "12.9716".
Definition bengaluru_lng : Js.value := Js.VStr "77.5946".

End Demo.

(** * Properties *)

(** ** Running the monad *)

Lemma log_events_nil s : log_events [] s = s.
Proof. destruct s; unfold log_events; simpl. by rewrite app_nil_r. Qed.

Lemma log_events_app evs1 evs2 s :
  log_events evs2 (log_events evs1 s) = log_events (evs1 ++ evs2) s.
Proof. unfold log_events; simpl. by rewrite app_assoc. Qed.

Lemma store_log_events k v evs s :
  store_record k v (log_events evs s) = log_events evs (store_record k v s).
Proof. reflexivity. Qed.

(** ** Numbers as text *)

Lemma round_to_double_small (n : Z) :
  (0 < n < 2 ^ 53)%Z -> Js.round_to_double n = n.
Proof.
  intros Hn. unfold Js.round_to_double.
  assert (Z.log2 n < 53)%Z by (apply Z.log2_lt_pow2; lia).
  destruct (Z.leb_spec (Z.log2 n + 1 - 53) 0); [done|lia].
Qed.

(** Below [2^53] in magnitude a number prints as its decimal numeral. *)
Lemma number_to_string_small (n : Z) :
  (Z.abs n < 2 ^ 53)%Z -> Js.number_to_string n = pretty n.
Proof.
  intros Hn. destruct n as [|p|p]; [done| |].
  - unfold Js.number_to_string. rewrite round_to_double_small by lia.
    unfold Js.positive_to_string.
    destruct (Z.ltb_spec (Z.pos p) (2 ^ 53)); [done|lia].
  - unfold Js.number_to_string. change (- Z.neg p)%Z with (Z.pos p).
    rewrite round_to_double_small by lia.
    unfold Js.positive_to_string.
    destruct (Z.ltb_spec (Z.pos p) (2 ^ 53)); [done|lia].
Qed.

(** Beyond that, the nearest double in its shortest digits. *)
Example number_to_string_samples :
  map Js.number_to_string
    [0; -7; 2 ^ 53 + 1; 2 ^ 64; 10 ^ 21; 2 ^ 70; 123456789012345678901;
     - 2 ^ 1024]%Z
  = ["0"; "-7"; "9007199254740992"; "18446744073709552000"; "1e+21";
     "1.1805916207174113e+21"; "123456789012345680000"; "-Infinity"].
Proof. vm_compute. reflexivity. Qed.

(** ** Keys *)

Lemma append_cons c (s t : string) : String c s +:+ t = String c (s +:+ t).
Proof. reflexivity. Qed.

Lemma append_empty (t : string) : "" +:+ t = t.
Proof. reflexivity. Qed.

Lemma length_append (s t : string) :
  String.length (s +:+ t) = (String.length s + String.length t)%nat.
Proof.
  induction s as [|c s IH]; [done|].
  rewrite append_cons. simpl. by rewrite IH.
Qed.

Lemma append_inv_head (p x y : string) : p +:+ x = p +:+ y -> x = y.
Proof. apply (inj (String.app p)). Qed.

Lemma append_inv_tail (x y q : string) : x +:+ q = y +:+ q -> x = y.
Proof.
  intros H.
  assert (Hlen : String.length x = String.length y).
  { apply (f_equal String.length) in H. rewrite !length_append in H. lia. }
  revert y H Hlen. induction x as [|c x IH]; intros [|d y]; try done.
  rewrite !append_cons. intros [= -> H] [= Hlen]. f_equal. by apply IH.
Qed.

(** The text before the first separator determines how a key splits. *)
Lemma append_underscore_inj (a1 a2 b1 b2 : string) :
  contains_underscore a1 = false -> contains_underscore a2 = false ->
  a1 +:+ "_" +:+ b1 = a2 +:+ "_" +:+ b2 -> a1 = a2 /\ b1 = b2.
Proof.
  revert a2. induction a1 as [|c a1 IH]; intros [|d a2];
    rewrite ?append_cons, ?append_empty; simpl.
  - intros _ _ [= ->]. done.
  - intros _ Hd [= <- _]. done.
  - intros Hc _ [= -> _]. done.
  - intros Hc Hd [= -> H].
    apply orb_false_elim in Hc as [_ Hc]. apply orb_false_elim in Hd as [_ Hd].
    destruct (IH a2 Hc Hd H) as [-> ->]. done.
Qed.

Lemma getCacheKey_date_inj (d1 d2 : string) lat lng :
  getCacheKey (Js.VStr d1) lat lng = getCacheKey (Js.VStr d2) lat lng -> d1 = d2.
Proof. unfold getCacheKey; simpl. apply append_inv_tail. Qed.

Lemma searchKey_of_term_inj (t1 t2 : string) lat lng :
  searchKey_of (Js.VStr t1) lat lng = searchKey_of (Js.VStr t2) lat lng -> t1 = t2.
Proof. unfold searchKey_of; simpl. apply append_inv_tail. Qed.

(** ** The year's dates *)

Lemma padLeft_two_digits (n : nat) :
  (n < 100)%nat -> padLeft (pretty n) 2 "0" = Iso.two_digits n.
Proof.
  intros Hn.
  assert (Hall : forallb (fun k => String.eqb (padLeft (pretty k) 2 "0")
                                     (Iso.two_digits k)) (seq 0 100) = true)
    by (vm_compute; reflexivity).
  rewrite forallb_forall in Hall. apply String.eqb_eq, Hall, in_seq. lia.
Qed.

Lemma pretty_four_digits (y : Z) :
  (1000 <= y <= 9999)%Z -> pretty y = Iso.four_digits y.
Proof.
  intros Hy.
  assert (Hall : forallb (fun k => String.eqb (pretty k) (Iso.four_digits k))
                   (seqZ 1000 9000) = true)
    by (vm_compute; reflexivity).
  rewrite forallb_forall in Hall.
  apply String.eqb_eq, Hall, list_elem_of_In, elem_of_seqZ. clear Hall. lia.
Qed.

Lemma dateStr_iso (y : Z) (m d : nat) :
  (1000 <= y <= 9999)%Z -> (m < 100)%nat -> (d < 100)%nat ->
  dateStr y m d = Iso.date y m d.
Proof.
  intros Hy Hm Hd. unfold dateStr, Iso.date, Iso.month_day.
  by rewrite pretty_four_digits, !padLeft_two_digits.
Qed.

Lemma days_of_month_le leap m : (JsDate.days_of_month leap m <= 31)%nat.
Proof.
  unfold JsDate.days_of_month.
  do 12 (destruct m as [|m]; [simpl; destruct leap; lia|]). simpl. lia.
Qed.

Lemma full_year_id (y : Z) : (100 <= y)%Z -> JsDate.full_year y = y.
Proof.
  intros Hy. unfold JsDate.full_year.
  destruct (Z.leb_spec y 99); [lia|]. by rewrite andb_false_r.
Qed.

Lemma getDatesInCurrentYear_length (y : Z) :
  List.length (getDatesInCurrentYear y)
  = (if JsDate.is_leap (JsDate.full_year y) then 366 else 365)%nat.
Proof.
  unfold getDatesInCurrentYear. cbn [seq flat_map].
  rewrite !length_app, !length_map, !length_seq.
  unfold JsDate.last_day_of_month, JsDate.month_length.
  by destruct (JsDate.is_leap (JsDate.full_year y)).
Qed.

Lemma map_of_flat_map {A B C} (g : B -> C) (h : A -> list B) (l : list A) :
  map g (flat_map h l) = flat_map (fun x => map g (h x)) l.
Proof. induction l as [|x l IH]; simpl; [done|]. by rewrite map_app, IH. Qed.

Lemma flat_map_ext_In {A B} (f g : A -> list B) (l : list A) :
  (forall x, In x l -> f x = g x) -> flat_map f l = flat_map g l.
Proof.
  induction l as [|x l IH]; simpl; [done|].
  intros H. rewrite (H x) by auto. rewrite IH by auto. done.
Qed.

Lemma getDatesInCurrentYear_iso (y : Z) :
  (1000 <= y <= 9999)%Z -> getDatesInCurrentYear y = Iso.year y.
Proof.
  intros Hy. unfold getDatesInCurrentYear, Iso.year, Iso.month_days_of.
  rewrite map_of_flat_map.
  apply flat_map_ext_In. intros m Hm%in_seq.
  unfold JsDate.last_day_of_month, JsDate.month_length.
  rewrite full_year_id by lia. rewrite map_map.
  apply map_ext_in. intros d Hd%in_seq.
  pose proof (days_of_month_le (JsDate.is_leap y) m).
  rewrite dateStr_iso by lia. reflexivity.
Qed.

Lemma ascii_compare_refl c : Ascii.compare c c = Eq.
Proof. unfold Ascii.compare. apply N.compare_refl. Qed.

Lemma compare_append_head (p a b : string) :
  String.compare (p +:+ a) (p +:+ b) = String.compare a b.
Proof.
  induction p as [|c p IH]; [done|].
  rewrite !append_cons. simpl. by rewrite ascii_compare_refl.
Qed.

Lemma string_lt_append_head (p a b : string) :
  string_lt a b -> string_lt (p +:+ a) (p +:+ b).
Proof. unfold string_lt, String.ltb. by rewrite compare_append_head. Qed.

Lemma month_days_of_sorted leap : StronglySorted string_lt (Iso.month_days_of leap).
Proof.
  destruct leap; apply (bool_decide_unpack _); vm_compute; exact I.
Qed.

Lemma Iso_year_sorted y : StronglySorted string_lt (Iso.year y).
Proof.
  unfold Iso.year.
  induction (month_days_of_sorted (JsDate.is_leap y)) as [|x l Hl IH Hx];
    simpl; constructor; [done|].
  rewrite Forall_forall in *. intros z Hz%list_elem_of_In.
  apply in_map_iff in Hz as (w & <- & Hw).
  apply string_lt_append_head, Hx, list_elem_of_In, Hw.
Qed.

Lemma Iso_year_In y x :
  In x (Iso.year y) <->
  exists m d, (1 <= m <= 12)%nat /\ (1 <= d <= JsDate.month_length y m)%nat
              /\ x = Iso.date y m d.
Proof.
  unfold Iso.year, Iso.month_days_of, JsDate.month_length.
  rewrite in_map_iff. split.
  - intros (w & <- & (m & Hm & (d & <- & Hd)%in_map_iff)%in_flat_map).
    apply in_seq in Hm, Hd. exists m, d. split; [lia|]. split; [lia|]. reflexivity.
  - intros (m & d & Hm & Hd & ->). exists (Iso.month_day m d). split; [reflexivity|].
    apply in_flat_map. exists m. split; [apply in_seq; lia|].
    apply in_map, in_seq. lia.
Qed.

Lemma Iso_date_length y m d : String.length (Iso.date y m d) = 10%nat.
Proof. reflexivity. Qed.

(** C4. For a four-digit year the enumerator yields exactly the calendar
    days of that year: every [YYYY-MM-DD] with month 1 to 12 and day 1 to
    the month's length (February by the leap rule) and nothing else, in
    strictly ascending order, from 1 January to 31 December, 366 strings in
    a leap year and 365 otherwise, each ten characters long; so 366 for
    2024, from [2024-01-01] to [2024-12-31], and 365 for 2023. *)
Theorem getDatesInCurrentYear_calendar (y : Z) :
  (1000 <= y <= 9999)%Z ->
  let ds := getDatesInCurrentYear y in
  (forall x, In x ds <->
     exists m d, (1 <= m <= 12)%nat /\ (1 <= d <= JsDate.month_length y m)%nat
                 /\ x = Iso.date y m d)
  /\ StronglySorted string_lt ds
  /\ List.length ds = (if JsDate.is_leap y then 366 else 365)%nat
  /\ head ds = Some (Iso.date y 1 1)
  /\ last ds = Some (Iso.date y 12 31)
  /\ (forall x, In x ds -> String.length x = 10%nat)
  /\ List.length (getDatesInCurrentYear 2024) = 366%nat
  /\ head (getDatesInCurrentYear 2024) = Some "2024-01-01"
  /\ last (getDatesInCurrentYear 2024) = Some "2024-12-31"
  /\ List.length (getDatesInCurrentYear 2023) = 365%nat.
Proof.
  intros Hy ds. subst ds. rewrite getDatesInCurrentYear_iso by exact Hy.
  split; [apply Iso_year_In|]. split; [apply Iso_year_sorted|].
  split; [|split; [|split; [|split]]].
  - unfold Iso.year. rewrite length_map.
    destruct (JsDate.is_leap y); vm_compute; reflexivity.
  - unfold Iso.year. destruct (JsDate.is_leap y); reflexivity.
  - unfold Iso.year. change (@map string string) with (@fmap list _ string string).
    rewrite fmap_last.
    assert (Hlast : forall leap, last (Iso.month_days_of leap) = Some "12-31")
      by (intros []; vm_compute; reflexivity).
    rewrite Hlast. reflexivity.
  - intros x (m & d & _ & _ & ->)%Iso_year_In. apply Iso_date_length.
  - repeat split; vm_compute; reflexivity.
Qed.

(** ** Sets, sampling and sorting *)

Lemma elem_of_set_add (x y : string) (l : list string) :
  x ∈ set_add y l <-> x = y \/ x ∈ l.
Proof.
  unfold set_add. destruct (existsb (String.eqb y) l) eqn:Hex.
  - apply existsb_exists in Hex as (z & Hz%list_elem_of_In & ->%String.eqb_eq).
    split; [by right|]. by intros [->|?].
  - rewrite elem_of_app, list_elem_of_singleton. tauto.
Qed.

Lemma NoDup_set_add (y : string) (l : list string) :
  NoDup l -> NoDup (set_add y l).
Proof.
  intros Hl. unfold set_add. destruct (existsb (String.eqb y) l) eqn:Hex; [done|].
  apply NoDup_app. split; [done|]. split; [|apply NoDup_singleton].
  intros x Hx ->%list_elem_of_singleton.
  assert (Hy : existsb (String.eqb y) l = true); [|congruence].
  apply existsb_exists. exists y. split; [by apply list_elem_of_In|].
  apply String.eqb_refl.
Qed.

Lemma elem_of_filter_index {A} (p : nat -> bool) (k : nat) (l : list A) (x : A) :
  x ∈ filter_index p k l <-> exists i, l !! i = Some x /\ p (k + i)%nat = true.
Proof.
  revert k. induction l as [|y l IH]; intros k; simpl.
  - split; [by intros ?%elem_of_nil|]. by intros (i & ? & _).
  - assert (Htail : (exists i, l !! i = Some x /\ p (S k + i)%nat = true) <->
                    (exists i, (y :: l) !! S i = Some x /\ p (k + S i)%nat = true)).
    { split; intros (i & Hi & Hp); exists i; split; try done;
        by replace (k + S i)%nat with (S k + i)%nat in * by lia. }
    destruct (p k) eqn:Hk.
    + rewrite elem_of_cons, IH, Htail. split.
      * intros [->|(i & Hi & Hp)]; [|by exists (S i)].
        exists 0%nat. by rewrite Nat.add_0_r.
      * intros ([|i] & Hi & Hp); [left; by injection Hi|right; by exists i].
    + rewrite IH, Htail. split.
      * intros (i & Hi & Hp). by exists (S i).
      * intros ([|i] & Hi & Hp); [|by exists i].
        rewrite Nat.add_0_r in Hp. congruence.
Qed.

Lemma elem_of_sampleDates_of (dates : list string) (d : string) :
  d ∈ sampleDates_of dates <->
  exists i, dates !! i = Some d /\ (i mod 15 = 0)%nat.
Proof.
  unfold sampleDates_of. rewrite elem_of_filter_index.
  split; intros (i & Hi & Hp); exists i; split; try done; simpl in *;
    by apply Nat.eqb_eq.
Qed.

Lemma string_le_lt (x y : string) : String.le x y -> x <> y -> string_lt x y.
Proof.
  unfold String.le, String.leb, string_lt, String.ltb. intros Hle Hne.
  destruct (String.compare x y) eqn:Hcmp; [|done|done].
  by apply String.compare_eq_iff in Hcmp.
Qed.

Lemma elem_of_array_sort (l : list string) (x : string) :
  x ∈ array_sort l <-> x ∈ l.
Proof. unfold array_sort. by rewrite merge_sort_Permutation. Qed.

Lemma array_sort_strictly_sorted (l : list string) :
  NoDup l -> StronglySorted string_lt (array_sort l).
Proof.
  intros Hl. unfold array_sort.
  assert (Hnd : NoDup (merge_sort String.le l))
    by by rewrite merge_sort_Permutation.
  assert (Hs : StronglySorted String.le (merge_sort String.le l))
    by (apply Sorted_StronglySorted; [apply _|apply Sorted_merge_sort; apply _]).
  induction Hs as [|x xs Hxs IH Hx]; [constructor|].
  apply NoDup_cons in Hnd as [Hx' Hnd]. constructor; [by apply IH|].
  rewrite Forall_forall in *. intros y Hy. apply string_le_lt; [by apply Hx|].
  by intros ->.
Qed.

Section ServerFacts.

Variable calendar : Js.value -> Js.value -> Js.value -> string + CalendarResult.
Variable sunTimer : Js.value -> Js.value -> Js.value -> string + SunTimes.

Lemma getPanchangData_hit date lat lng s cached :
  panchangCache s !! getCacheKey date lat lng = Some cached ->
  getPanchangData calendar sunTimer date lat lng s = (inr cached, s).
Proof.
  intros Hhit. unfold getPanchangData, bind, get_state. by rewrite Hhit.
Qed.

Lemma getPanchangData_miss date lat lng s :
  panchangCache s !! getCacheKey date lat lng = None ->
  getPanchangData calendar sunTimer date lat lng s =
  match computed calendar sunTimer date lat lng with
  | inr r =>
      (inr r, store_record (getCacheKey date lat lng) r
                (log_events (computing_events calendar date lat lng) s))
  | inl msg =>
      (inl ("Failed to calculate panchang: " +:+ msg),
       log_events (computing_events calendar date lat lng) s)
  end.
Proof.
  intros Hmiss.
  unfold getPanchangData, bind, get_state, try_catch. rewrite Hmiss.
  unfold call_calendar, call_sunTimer, computed, computing_events, bind, emit.
  destruct (calendar date lat lng) as [msg|result]; [reflexivity|].
  unfold throw, ret, panchangCache_set.
  destruct (sunTimer date lat lng) as [msg|sun]; simpl;
    by rewrite log_events_app.
Qed.

Lemma computing_events_head date lat lng :
  exists rest, computing_events calendar date lat lng = CalendarCall date lat lng :: rest.
Proof. unfold computing_events. eauto. Qed.

(** C1. [getPanchangData] memoizes: a hit returns the stored record and
    leaves the state, trace included, as it was, so the library is not
    called; a miss computes, stores under the key and returns, after which
    the same lookup is a hit on the identical record; when the library
    throws the error reaches the caller, the cache is as before, and the
    next call for the key calls the library again. *)
Theorem getPanchangData_memoizes date lat lng s :
  let key := getCacheKey date lat lng in
  (forall cached, panchangCache s !! key = Some cached ->
     getPanchangData calendar sunTimer date lat lng s = (inr cached, s))
  /\ (forall r, panchangCache s !! key = None ->
        computed calendar sunTimer date lat lng = inr r ->
        let s1 := store_record key r
                    (log_events (computing_events calendar date lat lng) s) in
        getPanchangData calendar sunTimer date lat lng s = (inr r, s1)
        /\ panchangCache s1 !! key = Some r
        /\ getPanchangData calendar sunTimer date lat lng s1 = (inr r, s1))
  /\ (forall msg, panchangCache s !! key = None ->
        computed calendar sunTimer date lat lng = inl msg ->
        let s1 := log_events (computing_events calendar date lat lng) s in
        let failure := inl ("Failed to calculate panchang: " +:+ msg) in
        getPanchangData calendar sunTimer date lat lng s = (failure, s1)
        /\ panchangCache s1 = panchangCache s
        /\ exists rest,
             getPanchangData calendar sunTimer date lat lng s1 =
             (failure, log_events (CalendarCall date lat lng :: rest) s1)).
Proof.
  intros key. split; [|split].
  - intros cached Hhit. by apply getPanchangData_hit.
  - intros r Hmiss Hr s1.
    assert (Hs1 : panchangCache s1 !! key = Some r)
      by (subst s1; simpl; apply lookup_insert_eq).
    split; [|split]; [|exact Hs1|by apply getPanchangData_hit].
    rewrite getPanchangData_miss by exact Hmiss. by rewrite Hr.
  - intros msg Hmiss Hmsg s1 failure. split; [|split].
    + rewrite getPanchangData_miss by exact Hmiss. by rewrite Hmsg.
    + reflexivity.
    + destruct (computing_events_head date lat lng) as [rest Hrest].
      exists rest. rewrite getPanchangData_miss by exact Hmiss.
      by rewrite Hmsg, Hrest.
Qed.

(** C7. After [DELETE /cache] both maps are empty and [GET /cache-stats]
    reports the two sizes as zero; a lookup of any key then calls the
    library afresh and returns what it computes, whatever the cache held
    before the clear. *)
Theorem clear_resets_caches s date lat lng :
  let s1 := delete_cache s in
  panchangCache s1 = ∅ /\ tithiSearchCache s1 = ∅
  /\ get_cache_stats s1
     = log_events [Response 200 (JStats 0 0 "Cache statistics")] s1
  /\ (exists rest,
        trace (snd (getPanchangData calendar sunTimer date lat lng s1))
        = trace s1 ++ CalendarCall date lat lng :: rest)
  /\ fst (getPanchangData calendar sunTimer date lat lng s1)
     = match computed calendar sunTimer date lat lng with
       | inr r => inr r
       | inl msg => inl ("Failed to calculate panchang: " +:+ msg)
       end.
Proof.
  intros s1.
  assert (Hmiss : panchangCache s1 !! getCacheKey date lat lng = None)
    by apply lookup_empty.
  split; [reflexivity|]. split; [reflexivity|]. split; [reflexivity|].
  rewrite (getPanchangData_miss _ _ _ _ Hmiss).
  destruct (computing_events_head date lat lng) as [rest Hrest].
  split.
  - exists rest. rewrite Hrest.
    by destruct (computed calendar sunTimer date lat lng).
  - by destruct (computed calendar sunTimer date lat lng).
Qed.

(** C10. [POST /cache-year] rejects a body whose [lat] or [lng] is the
    number 0: the only effect is the response 400
    [{error: "Missing lat or lng"}]; no date is computed, nothing is
    cached and no batch is scheduled. *)
Theorem post_cache_year_rejects_zero currentYear s :
  (forall lng, post_cache_year calendar sunTimer currentYear (Js.VNum 0) lng s
               = log_events [Response 400 (JError "Missing lat or lng")] s)
  /\ (forall lat, post_cache_year calendar sunTimer currentYear lat (Js.VNum 0) s
                  = log_events [Response 400 (JError "Missing lat or lng")] s).
Proof.
  split.
  - intros lng. reflexivity.
  - intros lat. unfold post_cache_year, route, try_catch.
    rewrite orb_true_r. reflexivity.
Qed.

(** *** One guarded lookup *)

Lemma record_at_eq s date lat lng :
  record_at calendar sunTimer s date lat lng =
  match panchangCache s !! getCacheKey date lat lng with
  | Some r => Some r
  | None =>
      match computed calendar sunTimer date lat lng with
      | inr r => Some r
      | inl _ => None
      end
  end.
Proof.
  unfold record_at.
  destruct (panchangCache s !! getCacheKey date lat lng) as [r|] eqn:Hlook.
  - by rewrite (getPanchangData_hit _ _ _ _ _ Hlook).
  - rewrite (getPanchangData_miss _ _ _ _ Hlook).
    by destruct (computed calendar sunTimer date lat lng).
Qed.

Lemma visit_eq prefix lat lng s date :
  visit calendar sunTimer prefix lat lng s date =
  match panchangCache s !! getCacheKey date lat lng with
  | Some _ => s
  | None =>
      match computed calendar sunTimer date lat lng with
      | inr r =>
          store_record (getCacheKey date lat lng) r
            (log_events (computing_events calendar date lat lng) s)
      | inl msg =>
          log_events
            (computing_events calendar date lat lng ++
             [ConsoleError (prefix +:+ Js.to_string date +:+ ": " +:+
                            ("Failed to calculate panchang: " +:+ msg))]) s
      end
  end.
Proof.
  unfold visit.
  destruct (panchangCache s !! getCacheKey date lat lng) as [r|] eqn:Hlook.
  - by rewrite (getPanchangData_hit _ _ _ _ _ Hlook).
  - rewrite (getPanchangData_miss _ _ _ _ Hlook).
    destruct (computed calendar sunTimer date lat lng); [|done].
    by rewrite log_events_app.
Qed.

Lemma visit_lookup_self prefix lat lng s date :
  panchangCache (visit calendar sunTimer prefix lat lng s date)
    !! getCacheKey date lat lng
  = record_at calendar sunTimer s date lat lng.
Proof.
  rewrite visit_eq, record_at_eq.
  destruct (panchangCache s !! getCacheKey date lat lng) as [r|] eqn:Hlook; [done|].
  destruct (computed calendar sunTimer date lat lng); simpl; [done|].
  apply lookup_insert_eq.
Qed.

Lemma visit_lookup_other prefix lat lng s date k :
  k <> getCacheKey date lat lng ->
  panchangCache (visit calendar sunTimer prefix lat lng s date) !! k
  = panchangCache s !! k.
Proof.
  intros Hk. rewrite visit_eq.
  destruct (panchangCache s !! getCacheKey date lat lng); [done|].
  destruct (computed calendar sunTimer date lat lng); simpl; [done|].
  by rewrite lookup_insert_ne.
Qed.

Lemma visit_tithiSearchCache prefix lat lng s date :
  tithiSearchCache (visit calendar sunTimer prefix lat lng s date)
  = tithiSearchCache s.
Proof.
  rewrite visit_eq.
  destruct (panchangCache s !! getCacheKey date lat lng); [done|].
  by destruct (computed calendar sunTimer date lat lng).
Qed.

Lemma visit_immediates prefix lat lng s date :
  immediates (visit calendar sunTimer prefix lat lng s date) = immediates s.
Proof.
  rewrite visit_eq.
  destruct (panchangCache s !! getCacheKey date lat lng); [done|].
  by destruct (computed calendar sunTimer date lat lng).
Qed.

(** A memoized record is what a lookup would have returned anyway. *)
Lemma visit_record_at prefix lat lng s (d x : string) :
  record_at calendar sunTimer
    (visit calendar sunTimer prefix lat lng s (Js.VStr x)) (Js.VStr d) lat lng
  = record_at calendar sunTimer s (Js.VStr d) lat lng.
Proof.
  destruct (decide (d = x)) as [->|Hne].
  - rewrite (record_at_eq (visit _ _ _ _ _ _ _)), visit_lookup_self.
    rewrite record_at_eq.
    destruct (panchangCache s !! getCacheKey (Js.VStr x) lat lng); [done|].
    by destruct (computed calendar sunTimer (Js.VStr x) lat lng).
  - rewrite !record_at_eq, visit_lookup_other; [done|].
    intros Heq. by apply getCacheKey_date_inj in Heq.
Qed.

(** The effects of one guarded lookup. *)
Lemma visit_trace prefix lat lng s date :
  trace (visit calendar sunTimer prefix lat lng s date) =
  trace s ++
  match panchangCache s !! getCacheKey date lat lng with
  | Some _ => []
  | None =>
      computing_events calendar date lat lng ++
      match computed calendar sunTimer date lat lng with
      | inr _ => []
      | inl msg =>
          [ConsoleError (prefix +:+ Js.to_string date +:+ ": " +:+
                         ("Failed to calculate panchang: " +:+ msg))]
      end
  end.
Proof.
  rewrite visit_eq.
  destruct (panchangCache s !! getCacheKey date lat lng); [by rewrite app_nil_r|].
  destruct (computed calendar sunTimer date lat lng); simpl; [done|].
  by rewrite app_nil_r.
Qed.

Lemma events_since_app s s' evs :
  trace s' = trace s ++ evs -> events_since s s' = evs.
Proof. intros H. unfold events_since. rewrite H. apply drop_app_length. Qed.

Lemma visit_lookup_None prefix lat lng s date k :
  panchangCache (visit calendar sunTimer prefix lat lng s date) !! k = None ->
  panchangCache s !! k = None.
Proof.
  destruct (decide (k = getCacheKey date lat lng)) as [->|Hne].
  - rewrite visit_lookup_self, record_at_eq.
    by destruct (panchangCache s !! getCacheKey date lat lng).
  - by rewrite visit_lookup_other.
Qed.

(** What one guarded lookup adds to the trace: nothing on a hit; on a miss
    one call of [calendar] for these very arguments, and the logged error
    when the computation fails. *)
Lemma visit_events prefix lat lng s date :
  exists evs,
    trace (visit calendar sunTimer prefix lat lng s date) = trace s ++ evs
    /\ Forall (fun e => is_response e = false /\ e <> SetImmediate) evs
    /\ (count_calendar_calls evs <= 1)%nat
    /\ (forall date' la ln, CalendarCall date' la ln ∈ evs ->
          date' = date /\ la = lat /\ ln = lng
          /\ panchangCache s !! getCacheKey date lat lng = None)
    /\ (panchangCache s !! getCacheKey date lat lng = None ->
          CalendarCall date lat lng ∈ evs)
    /\ (forall msg,
          panchangCache s !! getCacheKey date lat lng = None ->
          computed calendar sunTimer date lat lng = inl msg ->
          ConsoleError (prefix +:+ Js.to_string date +:+ ": " +:+
                        ("Failed to calculate panchang: " +:+ msg)) ∈ evs).
Proof.
  eexists. split; [apply visit_trace|].
  unfold computing_events, computed, count_calendar_calls.
  destruct (panchangCache s !! getCacheKey date lat lng) as [r|].
  { split; [constructor|]. split; [simpl; lia|].
    split; [intros ??? H; by apply elem_of_nil in H|]. split; [done|]. done. }
  destruct (calendar date lat lng) as [m1|result];
    [|destruct (sunTimer date lat lng) as [m2|sun]]; simpl;
    (split; [repeat constructor; done|]); (split; [lia|]);
    (split; [intros ??? H; rewrite !elem_of_cons, elem_of_nil in H;
             destruct_or!; by simplify_eq|]);
    (split; [intros _; by left|]);
    intros msg _ [= <-]; rewrite !elem_of_cons; auto.
Qed.

(** *** A run of guarded lookups over a list of dates *)

Lemma sweep_cons prefix lat lng s x ds :
  sweep calendar sunTimer prefix lat lng s (x :: ds)
  = sweep calendar sunTimer prefix lat lng
      (visit calendar sunTimer prefix lat lng s (Js.VStr x)) ds.
Proof. reflexivity. Qed.

Lemma sweep_app prefix lat lng s ds1 ds2 :
  sweep calendar sunTimer prefix lat lng s (ds1 ++ ds2)
  = sweep calendar sunTimer prefix lat lng
      (sweep calendar sunTimer prefix lat lng s ds1) ds2.
Proof. apply foldl_app. Qed.

Lemma sweep_record_at prefix lat lng ds s d :
  record_at calendar sunTimer (sweep calendar sunTimer prefix lat lng s ds)
    (Js.VStr d) lat lng
  = record_at calendar sunTimer s (Js.VStr d) lat lng.
Proof.
  revert s. induction ds as [|x ds IH]; intros s; [done|].
  by rewrite sweep_cons, IH, visit_record_at.
Qed.

Lemma sweep_tithiSearchCache prefix lat lng ds s :
  tithiSearchCache (sweep calendar sunTimer prefix lat lng s ds)
  = tithiSearchCache s.
Proof.
  revert s. induction ds as [|x ds IH]; intros s; [done|].
  by rewrite sweep_cons, IH, visit_tithiSearchCache.
Qed.

Lemma sweep_immediates prefix lat lng ds s :
  immediates (sweep calendar sunTimer prefix lat lng s ds) = immediates s.
Proof.
  revert s. induction ds as [|x ds IH]; intros s; [done|].
  by rewrite sweep_cons, IH, visit_immediates.
Qed.

Lemma sweep_lookup_other prefix lat lng ds s k :
  (forall d, d ∈ ds -> k <> getCacheKey (Js.VStr d) lat lng) ->
  panchangCache (sweep calendar sunTimer prefix lat lng s ds) !! k
  = panchangCache s !! k.
Proof.
  revert s. induction ds as [|x ds IH]; intros s Hk; [done|].
  rewrite sweep_cons, IH, visit_lookup_other; [done| |].
  - apply Hk. by left.
  - intros d Hd. apply Hk. by right.
Qed.

(** After the run, the date's key holds what a lookup in the starting
    state returns; failures leave no entry. *)
Lemma sweep_lookup prefix lat lng ds s d :
  d ∈ ds ->
  panchangCache (sweep calendar sunTimer prefix lat lng s ds)
    !! getCacheKey (Js.VStr d) lat lng
  = record_at calendar sunTimer s (Js.VStr d) lat lng.
Proof.
  revert s. induction ds as [|x ds IH]; intros s Hin; [by apply elem_of_nil in Hin|].
  rewrite sweep_cons. destruct (decide (d ∈ ds)) as [Hd|Hd].
  - by rewrite IH, visit_record_at.
  - apply elem_of_cons in Hin as [->|Hin]; [|done].
    rewrite sweep_lookup_other; [apply visit_lookup_self|].
    intros d Hin Heq. apply getCacheKey_date_inj in Heq. by subst.
Qed.

Lemma count_calendar_calls_app evs1 evs2 :
  count_calendar_calls (evs1 ++ evs2)
  = (count_calendar_calls evs1 + count_calendar_calls evs2)%nat.
Proof. unfold count_calendar_calls. by rewrite List.filter_app, length_app. Qed.

(** What the run adds to the trace: no response and no scheduling, at most
    one [calendar] call per date, exactly for the dates not cached at the
    start, and a logged error for each of those whose computation fails. *)
Lemma sweep_events prefix lat lng ds s :
  exists evs,
    trace (sweep calendar sunTimer prefix lat lng s ds) = trace s ++ evs
    /\ Forall (fun e => is_response e = false /\ e <> SetImmediate) evs
    /\ (count_calendar_calls evs <= List.length ds)%nat
    /\ (forall date la ln, CalendarCall date la ln ∈ evs ->
          exists d, date = Js.VStr d /\ la = lat /\ ln = lng /\ d ∈ ds
                    /\ panchangCache s !! getCacheKey (Js.VStr d) lat lng = None)
    /\ (forall d, d ∈ ds ->
          panchangCache s !! getCacheKey (Js.VStr d) lat lng = None ->
          CalendarCall (Js.VStr d) lat lng ∈ evs)
    /\ (forall d msg, d ∈ ds ->
          panchangCache s !! getCacheKey (Js.VStr d) lat lng = None ->
          computed calendar sunTimer (Js.VStr d) lat lng = inl msg ->
          ConsoleError (prefix +:+ d +:+ ": " +:+
                        ("Failed to calculate panchang: " +:+ msg)) ∈ evs).
Proof.
  revert s. induction ds as [|x ds IH]; intros s.
  { exists []. rewrite app_nil_r. split; [done|]. split; [constructor|].
    split; [done|]. split; [intros ??? H; by apply elem_of_nil in H|].
    split; [intros d H|intros d msg H]; by apply elem_of_nil in H. }
  destruct (visit_events prefix lat lng s (Js.VStr x))
    as (evs1 & Htr1 & Hno1 & Hcnt1 & Hfrom1 & Hto1 & Herr1).
  destruct (IH (visit calendar sunTimer prefix lat lng s (Js.VStr x)))
    as (evs2 & Htr2 & Hno2 & Hcnt2 & Hfrom2 & Hto2 & Herr2).
  assert (Hother : forall d, d <> x ->
            panchangCache (visit calendar sunTimer prefix lat lng s (Js.VStr x))
              !! getCacheKey (Js.VStr d) lat lng
            = panchangCache s !! getCacheKey (Js.VStr d) lat lng).
  { intros d Hd. apply visit_lookup_other. intros Heq.
    by apply getCacheKey_date_inj in Heq. }
  exists (evs1 ++ evs2). rewrite sweep_cons, Htr2, Htr1, app_assoc.
  split; [done|]. split; [by apply Forall_app|].
  split; [rewrite count_calendar_calls_app; simpl; lia|].
  split; [|split].
  - intros date la ln [Hin|Hin]%elem_of_app.
    + destruct (Hfrom1 _ _ _ Hin) as (-> & -> & -> & Hmiss).
      exists x. repeat split; [by left|done].
    + destruct (Hfrom2 _ _ _ Hin) as (d & -> & -> & -> & Hd & Hmiss).
      exists d. repeat split; [by right|]. by eapply visit_lookup_None.
  - intros d Hd Hmiss. apply elem_of_app.
    destruct (decide (d = x)) as [->|Hne]; [left; by apply Hto1|].
    right. apply Hto2; [|by rewrite Hother].
    by apply elem_of_cons in Hd as [?|?].
  - intros d msg Hd Hmiss Hmsg. apply elem_of_app.
    destruct (decide (d = x)) as [->|Hne]; [left; by apply Herr1|].
    right. apply Herr2; [|by rewrite Hother|done].
    by apply elem_of_cons in Hd as [?|?].
Qed.

(** *** The three loops as runs of guarded lookups *)

Lemma foldl_ext_all {A B} (f g : B -> A -> B) (l : list A) (b : B) :
  (forall a x, f a x = g a x) -> foldl f b l = foldl g b l.
Proof.
  intros H. revert b. induction l as [|x l IH]; intros b; simpl; [done|].
  by rewrite H, IH.
Qed.

Lemma for_of_sweep {B} (body : string -> B -> M B)
    (g : option PanchangData.t -> B -> B) prefix lat lng :
  (forall d a s,
     body d a s
     = (inr (g (record_at calendar sunTimer s (Js.VStr d) lat lng) a),
        visit calendar sunTimer prefix lat lng s (Js.VStr d))) ->
  forall ds acc s,
    for_of ds body acc s
    = (inr (foldl (fun a d => g (record_at calendar sunTimer s (Js.VStr d) lat lng) a)
              acc ds),
       sweep calendar sunTimer prefix lat lng s ds).
Proof.
  intros Hbody. induction ds as [|x ds IH]; intros acc s; [done|].
  simpl. unfold bind. rewrite Hbody, IH. f_equal. f_equal.
  apply foldl_ext_all. intros a d. by rewrite visit_record_at.
Qed.

Lemma for_of_sweep_any {B} (body : string -> B -> M B) prefix lat lng :
  (forall d a s,
     exists a', body d a s
                = (inr a', visit calendar sunTimer prefix lat lng s (Js.VStr d))) ->
  forall ds acc s,
    exists acc', for_of ds body acc s
                 = (inr acc', sweep calendar sunTimer prefix lat lng s ds).
Proof.
  intros Hbody. induction ds as [|x ds IH]; intros acc s; [by exists acc|].
  simpl. unfold bind. destruct (Hbody x acc s) as [a' ->]. apply IH.
Qed.

Lemma toLowerCase_empty t : Js.toLowerCase t = "" -> t = "".
Proof. by destruct t. Qed.

Lemma search_body_eq (t : string) lat lng d acc s :
  t <> "" ->
  search_body calendar sunTimer (Js.VStr t) lat lng d acc s
  = (inr (acc ++ matching t (record_at calendar sunTimer s (Js.VStr d) lat lng)),
     visit calendar sunTimer "Error processing " lat lng s (Js.VStr d)).
Proof.
  intros Ht. unfold search_body, visit, record_at, try_catch, bind.
  destruct (getPanchangData calendar sunTimer (Js.VStr d) lat lng s)
    as [[msg|r] s1]; simpl.
  - unfold console_error, emit, ret. simpl. by rewrite (app_nil_r acc).
  - destruct (String.eqb_spec (PanchangData.tithi r) "") as [Hempty|Hfull]; simpl.
    + rewrite Hempty. simpl.
      destruct (Js.toLowerCase t) eqn:Hlow; [by apply toLowerCase_empty in Hlow|].
      by rewrite (app_nil_r acc).
    + unfold ret.
      destruct (String.eqb (Js.toLowerCase (PanchangData.tithi r))
                  (Js.toLowerCase t)); simpl; [done|by rewrite (app_nil_r acc)].
Qed.

Lemma foldl_app_flat_map {A B} (f : A -> list B) (l : list A) (acc : list B) :
  foldl (fun a x => a ++ f x) acc l = acc ++ flat_map f l.
Proof.
  revert acc. induction l as [|x l IH]; intros acc; simpl;
    [by rewrite app_nil_r|]. by rewrite IH, app_assoc.
Qed.

Lemma search_loop (t : string) lat lng ds s :
  t <> "" ->
  for_of ds (search_body calendar sunTimer (Js.VStr t) lat lng) [] s
  = (inr (flat_map
            (fun d => matching t (record_at calendar sunTimer s (Js.VStr d) lat lng))
            ds),
     sweep calendar sunTimer "Error processing " lat lng s ds).
Proof.
  intros Ht.
  rewrite (for_of_sweep _ (fun o a => a ++ matching t o) "Error processing " lat lng)
    by (intros; by apply search_body_eq).
  by rewrite (foldl_app_flat_map
                (fun d => matching t (record_at calendar sunTimer s (Js.VStr d) lat lng))).
Qed.

Lemma truthy_VStr (t : string) : t <> "" -> Js.truthy (Js.VStr t) = true.
Proof. intros Ht. simpl. by destruct (String.eqb_spec t ""). Qed.

Lemma computed_date date lat lng r :
  computed calendar sunTimer date lat lng = inr r -> PanchangData.date r = date.
Proof.
  unfold computed. destruct (calendar date lat lng); [done|].
  destruct (sunTimer date lat lng); [done|]. by intros [= <-].
Qed.

(** On a miss of the search cache the route runs the scan, stores the
    result under the key of the term as given, and responds with it. *)
Lemma get_search_tithi_miss currentYear (t : string) lat lng s :
  t <> "" -> Js.truthy lat = true -> Js.truthy lng = true ->
  tithiSearchCache s !! searchKey_of (Js.VStr t) lat lng = None ->
  let ds := getDatesInCurrentYear currentYear in
  let matchingDates :=
    flat_map (fun d => matching t (record_at calendar sunTimer s (Js.VStr d) lat lng))
      ds in
  let result :=
    {| SearchResult.tithi := Js.VStr t;
       SearchResult.location := location_of lat lng;
       SearchResult.totalMatches := List.length matchingDates;
       SearchResult.dates := matchingDates |} in
  let s1 := sweep calendar sunTimer "Error processing " lat lng s ds in
  get_search_tithi calendar sunTimer currentYear (Js.VStr t) lat lng s
  = log_events [Response 200 (JSearch result)]
      {| panchangCache := panchangCache s1;
         tithiSearchCache :=
           <[searchKey_of (Js.VStr t) lat lng := result]> (tithiSearchCache s);
         immediates := immediates s1;
         trace := trace s1 |}.
Proof.
  intros Ht Hlat Hlng Hmiss ds matchingDates result s1.
  unfold get_search_tithi, route, try_catch.
  rewrite (truthy_VStr t Ht), Hlat, Hlng. cbn [negb orb].
  unfold bind at 1. unfold get_state. rewrite Hmiss.
  unfold bind at 1. rewrite (search_loop t lat lng _ s Ht).
  fold ds matchingDates result s1. unfold bind, tithiSearchCache_set, res_json, emit.
  simpl. unfold s1. by rewrite sweep_tithiSearchCache.
Qed.

Lemma in_all_ascii c : In c Letters.all_ascii.
Proof.
  unfold Letters.all_ascii. apply in_map_iff. exists (nat_of_ascii c).
  split; [apply ascii_nat_embedding|]. apply in_seq.
  pose proof (nat_ascii_bounded c). lia.
Qed.

(** Lowering both sides and comparing is the case-insensitive comparison. *)
Lemma lower_char_same_letter c c' :
  Ascii.eqb (Js.lower_char c) (Js.lower_char c') = Letters.same_letter c c'.
Proof.
  assert (Hall : forallb (fun a => forallb (fun b =>
             Bool.eqb (Ascii.eqb (Js.lower_char a) (Js.lower_char b))
               (Letters.same_letter a b)) Letters.all_ascii) Letters.all_ascii = true)
    by (vm_compute; reflexivity).
  pose proof (proj1 (forallb_forall _ _) Hall c (in_all_ascii c)) as Hc.
  pose proof (proj1 (forallb_forall _ _) Hc c' (in_all_ascii c')) as Hcc.
  by apply Bool.eqb_prop in Hcc.
Qed.

Lemma toLowerCase_equal_ignoring_case a b :
  String.eqb (Js.toLowerCase a) (Js.toLowerCase b) = Letters.equal_ignoring_case a b.
Proof.
  revert b. induction a as [|c a IH]; intros [|c' b]; try done.
  cbn [Js.toLowerCase Letters.equal_ignoring_case String.eqb].
  rewrite lower_char_same_letter, IH.
  by destruct (Letters.same_letter c c').
Qed.

Lemma ascii_tithis_checked (record : string -> option PanchangData.t) (ds : list string) :
  forallb (fun d => match record d with
                    | Some r => Letters.is_ascii (PanchangData.tithi r)
                    | None => true
                    end) ds = true ->
  forall d r, d ∈ ds -> record d = Some r ->
              Letters.is_ascii (PanchangData.tithi r) = true.
Proof.
  intros Hall d r Hd Hr. rewrite forallb_forall in Hall.
  specialize (Hall d (proj1 (list_elem_of_In _ _) Hd)). by rewrite Hr in Hall.
Qed.

Lemma matching_ignoring_case t o :
  matching t o
  = match o with
    | Some r =>
        if Letters.equal_ignoring_case (PanchangData.tithi r) t
        then [{| Match.date := PanchangData.date r;
                 Match.tithi := PanchangData.tithi r;
                 Match.paksha := PanchangData.paksha r;
                 Match.nakshatra := PanchangData.nakshatra r;
                 Match.sunrise := PanchangData.sunrise r;
                 Match.sunset := PanchangData.sunset r |}]
        else []
    | None => []
    end.
Proof.
  destruct o as [r|]; [|done]. unfold matching.
  by rewrite toLowerCase_equal_ignoring_case.
Qed.

(** C5. On a miss of the search cache, for a term and tithi names of the
    ASCII range, [GET /search-tithi] looks up every date of the year's
    enumeration in order and calls the library for each one not yet cached;
    [matchingDates] holds, in that order, one entry for each date whose
    record has a [tithi] that equals the term when capitals and small
    letters are not told apart, and no other; a date whose computation
    throws is logged and left out while the scan goes on; the response
    carries the term, the location (latitude, comma, space, longitude), the
    number of matches and the matches, and the same result is stored in
    [tithiSearchCache] under the key of the term. *)
Theorem search_scans_year currentYear (t : string) lat lng s :
  t <> "" -> Js.truthy lat = true -> Js.truthy lng = true ->
  let searchKey := t +:+ "_" +:+ Js.to_string lat +:+ "_" +:+ Js.to_string lng in
  tithiSearchCache s !! searchKey = None ->
  let ds := getDatesInCurrentYear currentYear in
  let record d := record_at calendar sunTimer s (Js.VStr d) lat lng in
  Letters.is_ascii t = true ->
  (forall d r, d ∈ ds -> record d = Some r ->
               Letters.is_ascii (PanchangData.tithi r) = true) ->
  let entry r :=
    {| Match.date := PanchangData.date r;
       Match.tithi := PanchangData.tithi r;
       Match.paksha := PanchangData.paksha r;
       Match.nakshatra := PanchangData.nakshatra r;
       Match.sunrise := PanchangData.sunrise r;
       Match.sunset := PanchangData.sunset r |} in
  let matches d :=
    match record d with
    | Some r => Letters.equal_ignoring_case (PanchangData.tithi r) t
    | None => false
    end in
  let matchingDates :=
    flat_map (fun d => match record d with
                       | Some r => if matches d then [entry r] else []
                       | None => []
                       end) ds in
  let result :=
    {| SearchResult.tithi := Js.VStr t;
       SearchResult.location := Js.to_string lat +:+ ", " +:+ Js.to_string lng;
       SearchResult.totalMatches := List.length matchingDates;
       SearchResult.dates := matchingDates |} in
  let s' := get_search_tithi calendar sunTimer currentYear (Js.VStr t) lat lng s in
  (exists evs,
     trace s' = trace s ++ evs ++ [Response 200 (JSearch result)]
     /\ Forall (fun e => is_response e = false) evs
     /\ (forall d, d ∈ ds ->
           panchangCache s !! getCacheKey (Js.VStr d) lat lng = None ->
           CalendarCall (Js.VStr d) lat lng ∈ evs)
     /\ forall d msg, d ∈ ds ->
          panchangCache s !! getCacheKey (Js.VStr d) lat lng = None ->
          computed calendar sunTimer (Js.VStr d) lat lng = inl msg ->
          ConsoleError ("Error processing " +:+ d +:+ ": " +:+
                        ("Failed to calculate panchang: " +:+ msg)) ∈ evs)
  /\ tithiSearchCache s' = <[searchKey := result]> (tithiSearchCache s)
  /\ (forall m, m ∈ matchingDates <->
        exists d r, d ∈ ds /\ record d = Some r /\ matches d = true /\ m = entry r)
  /\ ((forall d r, panchangCache s !! getCacheKey (Js.VStr d) lat lng = Some r ->
                   PanchangData.date r = Js.VStr d) ->
      map Match.date matchingDates = map Js.VStr (List.filter matches ds)).
Proof.
  intros Ht Hlat Hlng searchKey Hmiss ds record _ _ entry matches matchingDates
    result s'.
  change searchKey with (searchKey_of (Js.VStr t) lat lng) in *. clear searchKey.
  assert (Hsame : flat_map (fun d => matching t (record d)) ds = matchingDates).
  { unfold matchingDates, matches. apply flat_map_ext. intros d.
    rewrite matching_ignoring_case. by destruct (record d). }
  assert (Hrun : s' = log_events [Response 200 (JSearch result)]
                        {| panchangCache :=
                             panchangCache (sweep calendar sunTimer "Error processing "
                                              lat lng s ds);
                           tithiSearchCache :=
                             <[searchKey_of (Js.VStr t) lat lng := result]>
                               (tithiSearchCache s);
                           immediates :=
                             immediates (sweep calendar sunTimer "Error processing "
                                           lat lng s ds);
                           trace :=
                             trace (sweep calendar sunTimer "Error processing "
                                      lat lng s ds) |}).
  { unfold s'. rewrite (get_search_tithi_miss _ _ _ _ _ Ht Hlat Hlng Hmiss).
    fold ds. unfold record in Hsame. rewrite Hsame. reflexivity. }
  split; [|split; [|split]].
  - destruct (sweep_events "Error processing " lat lng ds s)
      as (evs & Htr & Hno & _ & _ & Hcalls & Herr).
    exists evs. split; [|split; [|split]].
    + rewrite Hrun. cbn [trace log_events]. by rewrite Htr, <- app_assoc.
    + eapply Forall_impl; [exact Hno|]. by intros e [? _].
    + exact Hcalls.
    + exact Herr.
  - by rewrite Hrun.
  - intros m. unfold matchingDates. rewrite list_elem_of_In, in_flat_map. split.
    + intros (d & Hd & Hm). exists d. unfold matches in *.
      destruct (record d) as [r|] eqn:Hr; [|done]. exists r.
      destruct (Letters.equal_ignoring_case (PanchangData.tithi r) t); [|done].
      destruct Hm as [<-|[]]. by rewrite list_elem_of_In.
    + intros (d & r & Hd & Hr & Heq & ->). exists d.
      split; [by apply list_elem_of_In|]. rewrite Hr, Heq. by left.
  - intros Hcoherent. unfold matchingDates. clear Hrun Hsame s' result matchingDates.
    induction ds as [|d ds IH]; [done|]. simpl. rewrite map_app, IH.
    unfold matches at 1 3. destruct (record d) as [r|] eqn:Hr; [|done].
    destruct (Letters.equal_ignoring_case (PanchangData.tithi r) t); [|done].
    simpl. f_equal. unfold record in Hr. rewrite record_at_eq in Hr.
    destruct (panchangCache s !! getCacheKey (Js.VStr d) lat lng) as [r'|] eqn:Hlook.
    + injection Hr as ->. by apply Hcoherent.
    + destruct (computed calendar sunTimer (Js.VStr d) lat lng) eqn:Hc; [done|].
      injection Hr as ->. by apply computed_date in Hc.
Qed.

(** C3, as the code has it.  The search route consults
    [tithiSearchCache] under the key made of the term exactly as given,
    its case kept: a hit under that key is returned as it is with no scan;
    terms that differ, be it only in case, have different keys; and for a
    term with an upper-case letter the entry of the lowercased term is
    neither read nor written: on a miss of its own key the route scans and
    stores a second entry. *)
Theorem search_cache_keeps_case currentYear (t : string) lat lng s :
  t <> "" -> Js.truthy lat = true -> Js.truthy lng = true ->
  searchKey_of (Js.VStr t) lat lng
  = t +:+ "_" +:+ Js.to_string lat +:+ "_" +:+ Js.to_string lng
  /\ (forall cached,
        tithiSearchCache s !! searchKey_of (Js.VStr t) lat lng = Some cached ->
        get_search_tithi calendar sunTimer currentYear (Js.VStr t) lat lng s
        = log_events [Response 200 (JSearch cached)] s)
  /\ (forall t' : string,
        t' <> t ->
        searchKey_of (Js.VStr t') lat lng <> searchKey_of (Js.VStr t) lat lng)
  /\ (Js.toLowerCase t <> t ->
      tithiSearchCache s !! searchKey_of (Js.VStr t) lat lng = None ->
      let s' := get_search_tithi calendar sunTimer currentYear (Js.VStr t) lat lng s in
      let lowered := searchKey_of (Js.VStr (Js.toLowerCase t)) lat lng in
      tithiSearchCache s' !! lowered = tithiSearchCache s !! lowered
      /\ exists result,
           tithiSearchCache s' !! searchKey_of (Js.VStr t) lat lng = Some result
           /\ SearchResult.tithi result = Js.VStr t
           /\ last (trace s') = Some (Response 200 (JSearch result))).
Proof.
  intros Ht Hlat Hlng. split; [reflexivity|]. split; [|split].
  - intros cached Hhit. unfold get_search_tithi, route, try_catch.
    rewrite (truthy_VStr t Ht), Hlat, Hlng. cbn [negb orb].
    unfold bind, get_state. by rewrite Hhit.
  - intros t' Hne Heq. by apply searchKey_of_term_inj in Heq.
  - intros Hcase Hmiss s' lowered. subst s'.
    rewrite (get_search_tithi_miss _ _ _ _ _ Ht Hlat Hlng Hmiss).
    cbn [tithiSearchCache trace log_events]. split.
    + apply lookup_insert_ne. intros Heq.
      by apply searchKey_of_term_inj in Heq.
    + eexists. split; [apply lookup_insert_eq|]. split; [reflexivity|].
      apply last_snoc.
Qed.

Lemma tithis_body_eq lat lng d acc s :
  tithis_body calendar sunTimer lat lng d acc s
  = (inr (collect_tithi (record_at calendar sunTimer s (Js.VStr d) lat lng) acc),
     visit calendar sunTimer "Error processing " lat lng s (Js.VStr d)).
Proof.
  unfold tithis_body, visit, record_at, try_catch, bind, collect_tithi.
  destruct (getPanchangData calendar sunTimer (Js.VStr d) lat lng s)
    as [[msg|r] s1]; cbn [fst]; [done|].
  by destruct (negb (String.eqb (PanchangData.tithi r) "")).
Qed.

Lemma collect_tithi_fold (record : string -> option PanchangData.t) ds acc :
  let tithis := foldl (fun a d => collect_tithi (record d) a) acc ds in
  (NoDup acc -> NoDup tithis)
  /\ forall t, t ∈ tithis <->
       t ∈ acc \/ (t <> "" /\ exists d r, d ∈ ds /\ record d = Some r
                                          /\ PanchangData.tithi r = t).
Proof.
  revert acc. induction ds as [|x ds IH]; intros acc; simpl.
  { split; [done|]. intros t. split; [by left|].
    intros [?|(_ & d & r & Hd%elem_of_nil & _)]; done. }
  destruct (IH (collect_tithi (record x) acc)) as [IHnd IHin].
  assert (Hstep : forall t, t ∈ collect_tithi (record x) acc <->
            t ∈ acc \/ (t <> "" /\ exists r, record x = Some r
                                             /\ PanchangData.tithi r = t)).
  { intros t. unfold collect_tithi. destruct (record x) as [r|];
      [|split; [by left|]; by intros [?|(_ & r & [=] & _)]].
    destruct (String.eqb_spec (PanchangData.tithi r) "") as [He|Hf]; simpl.
    - split; [by left|]. intros [?|(Hne & r' & [= <-] & Ht)]; [done|]. congruence.
    - rewrite elem_of_set_add. split.
      + intros [->|?]; [right|by left]. split; [done|]. by exists r.
      + intros [?|(_ & r' & [= <-] & Ht)]; [by right|by left]. }
  split.
  - intros Hacc. apply IHnd. unfold collect_tithi.
    destruct (record x) as [r|]; [|done].
    destruct (negb (String.eqb (PanchangData.tithi r) "")); [|done].
    by apply NoDup_set_add.
  - intros t. rewrite IHin, Hstep. split.
    + intros [[?|(Hne & r & Hr & Ht)]|(Hne & d & r & Hd & Hr & Ht)].
      * by left.
      * right. split; [done|]. exists x, r. split; [by left|done].
      * right. split; [done|]. exists d, r. split; [by right|done].
    + intros [?|(Hne & d & r & Hd & Hr & Ht)]; [by left; left|].
      apply elem_of_cons in Hd as [->|Hd].
      * left; right. split; [done|]. by exists r.
      * right. split; [done|]. by exists d, r.
Qed.

Lemma get_tithis_run currentYear lat lng s :
  Js.truthy lat = true -> Js.truthy lng = true ->
  let sampleDates := sampleDates_of (getDatesInCurrentYear currentYear) in
  let tithis :=
    foldl (fun a d => collect_tithi
                        (record_at calendar sunTimer s (Js.VStr d) lat lng) a)
      [] sampleDates in
  get_tithis calendar sunTimer currentYear lat lng s
  = log_events
      [Response 200 (JTithis (array_sort tithis) (location_of lat lng)
                       "Based on sample dates from current year")]
      (sweep calendar sunTimer "Error processing " lat lng s sampleDates).
Proof.
  intros Hlat Hlng sampleDates tithis.
  unfold get_tithis, route, try_catch. rewrite Hlat, Hlng. cbn [negb orb].
  unfold bind at 1.
  rewrite (for_of_sweep _ collect_tithi "Error processing " lat lng)
    by (intros; apply tithis_body_eq).
  reflexivity.
Qed.

(** C9. [GET /tithis] looks up exactly the dates at the indices 0, 15,
    30, ... of the year's enumeration (the library is called for those of
    them not yet cached, and for no other date), gathers the non-empty
    [tithi] of every sampled date whose lookup returns, and responds with
    these values sorted in strictly ascending order, each once; a value
    carried only by dates at other indices is not in the response. *)
Theorem tithis_samples_every_15th currentYear lat lng s :
  Js.truthy lat = true -> Js.truthy lng = true ->
  let ds := getDatesInCurrentYear currentYear in
  let sampled d := exists i, ds !! i = Some d /\ (i mod 15 = 0)%nat in
  let s' := get_tithis calendar sunTimer currentYear lat lng s in
  exists evs tithis,
    trace s' = trace s ++ evs ++
               [Response 200 (JTithis tithis (location_of lat lng)
                                "Based on sample dates from current year")]
    /\ Forall (fun e => is_response e = false) evs
    /\ (forall date la ln,
          CalendarCall date la ln ∈ evs <->
          exists d, date = Js.VStr d /\ la = lat /\ ln = lng /\ sampled d
                    /\ panchangCache s !! getCacheKey (Js.VStr d) lat lng = None)
    /\ StronglySorted string_lt tithis
    /\ (forall t, t ∈ tithis <->
          t <> "" /\ exists d r, sampled d
                                 /\ record_at calendar sunTimer s (Js.VStr d) lat lng
                                    = Some r
                                 /\ PanchangData.tithi r = t)
    /\ (forall t,
          (forall i d r, ds !! i = Some d ->
                         record_at calendar sunTimer s (Js.VStr d) lat lng = Some r ->
                         PanchangData.tithi r = t -> (i mod 15 <> 0)%nat) ->
          t ∉ tithis).
Proof.
  intros Hlat Hlng ds sampled s'.
  destruct (sweep_events "Error processing " lat lng (sampleDates_of ds) s)
    as (evs & Htr & Hno & _ & Hfrom & Hto & _).
  destruct (collect_tithi_fold
              (fun d => record_at calendar sunTimer s (Js.VStr d) lat lng)
              (sampleDates_of ds) []) as [Hnd Hin].
  assert (Hmem : forall t,
            t ∈ array_sort
                  (foldl (fun a d => collect_tithi
                            (record_at calendar sunTimer s (Js.VStr d) lat lng) a)
                     [] (sampleDates_of ds)) <->
            t <> "" /\ exists d r, sampled d
                         /\ record_at calendar sunTimer s (Js.VStr d) lat lng = Some r
                         /\ PanchangData.tithi r = t).
  { intros t. rewrite elem_of_array_sort, Hin. split.
    - intros [?%elem_of_nil|(Hne & d & r & Hd & Hr & Ht)]; [done|].
      split; [done|]. exists d, r. split; [by apply elem_of_sampleDates_of|done].
    - intros (Hne & d & r & Hd & Hr & Ht). right. split; [done|].
      exists d, r. split; [by apply elem_of_sampleDates_of|done]. }
  eexists evs, _. split; [|split; [|split; [|split; [|split]]]].
  - unfold s'. rewrite (get_tithis_run _ _ _ _ Hlat Hlng).
    cbn [trace log_events]. fold ds. by rewrite Htr, <- app_assoc.
  - eapply Forall_impl; [exact Hno|]. by intros e [? _].
  - intros date la ln. split.
    + intros Hin'. destruct (Hfrom _ _ _ Hin') as (d & -> & -> & -> & Hd & Hmiss).
      exists d. do 3 (split; [done|]).
      split; [by apply elem_of_sampleDates_of|done].
    + intros (d & -> & -> & -> & Hd & Hmiss). apply Hto; [|done].
      by apply elem_of_sampleDates_of.
  - apply array_sort_strictly_sorted, Hnd, NoDup_nil_2.
  - exact Hmem.
  - intros t Hnever [_ (d & r & (i & Hi & Hmod) & Hr & Ht)]%Hmem.
    by apply (Hnever i d r).
Qed.

(** *** The batch closure *)

Lemma processBatch_body_eq b i c s d :
  dates b !! i = Some d ->
  exists c',
    processBatch_body calendar sunTimer b i c s
    = (inr c', visit calendar sunTimer "Error caching " (lat b) (lng b) s (Js.VStr d)).
Proof.
  intros Hi. unfold processBatch_body. rewrite Hi. unfold bind at 1, get_state.
  rewrite visit_eq.
  destruct (panchangCache s !! getCacheKey (Js.VStr d) (lat b) (lng b))
    as [r|] eqn:Hlook.
  - exists c. by rewrite bool_decide_eq_true_2.
  - rewrite bool_decide_eq_false_2 by (by intros [? ?]). cbn [negb].
    unfold try_catch, bind. rewrite (getPanchangData_miss _ _ _ _ Hlook).
    destruct (computed calendar sunTimer (Js.VStr d) (lat b) (lng b)) as [msg|r].
    + exists c. unfold console_error, emit, ret. by rewrite log_events_app.
    + by exists (S c).
Qed.

Lemma for_range_sweep b n i c s :
  (n <= List.length (dates b) - i)%nat ->
  exists c',
    for_range n i (processBatch_body calendar sunTimer b) c s
    = (inr c', sweep calendar sunTimer "Error caching " (lat b) (lng b) s
                 (take n (drop i (dates b)))).
Proof.
  revert i c s. induction n as [|n IH]; intros i c s Hn; [by exists c|].
  destruct (lookup_lt_is_Some_2 (dates b) i) as [d Hd]; [lia|].
  rewrite (drop_S _ _ _ Hd). cbn [take for_range]. rewrite sweep_cons.
  destruct (processBatch_body_eq b i c s d Hd) as [c1 Hbody].
  unfold bind. rewrite Hbody. apply IH. lia.
Qed.

Lemma take_min_length {A} (l : list A) n :
  take (Nat.min n (List.length l)) l = take n l.
Proof.
  destruct (Nat.min_spec n (List.length l)) as [[_ ->]|[Hle ->]]; [done|].
  by rewrite !take_ge by lia.
Qed.

(** One call of the closure: a run of guarded lookups over the fifty
    dates of its chunk, then [setImmediate] if dates remain. *)
Lemma processBatch_run b s :
  let chunk := take batchSize (drop (currentBatch b * batchSize) (dates b)) in
  let s1 := sweep calendar sunTimer "Error caching " (lat b) (lng b) s chunk in
  exists c',
    processBatch calendar sunTimer b s
    = (inr tt,
       if decide (currentBatch b * batchSize + batchSize < List.length (dates b))%nat
       then {| panchangCache := panchangCache s1;
               tithiSearchCache := tithiSearchCache s1;
               immediates := immediates s1 ++
                 [{| dates := dates b; lat := lat b; lng := lng b;
                     currentBatch := S (currentBatch b); cachedCount := c' |}];
               trace := trace s1 ++ [SetImmediate] |}
       else s1).
Proof.
  intros chunk s1. unfold processBatch.
  set (startIdx := (currentBatch b * batchSize)%nat).
  set (endIdx := Nat.min (startIdx + batchSize) (List.length (dates b))).
  destruct (for_range_sweep b (endIdx - startIdx) startIdx (cachedCount b) s)
    as [c' Hloop]; [lia|].
  assert (Hchunk : take (endIdx - startIdx) (drop startIdx (dates b)) = chunk).
  { unfold chunk. fold startIdx. rewrite <- (take_min_length _ batchSize).
    f_equal. rewrite length_drop. lia. }
  rewrite Hchunk in Hloop. exists c'. unfold bind. rewrite Hloop. fold s1.
  destruct (Nat.ltb_spec endIdx (List.length (dates b))) as [Hlt|Hge].
  - rewrite decide_True by lia. reflexivity.
  - rewrite decide_False by lia. reflexivity.
Qed.

(** What one run of the closure does to caches, trace and queue. *)
Lemma processBatch_effects b s :
  let chunk := take batchSize (drop (currentBatch b * batchSize) (dates b)) in
  let key d := getCacheKey (Js.VStr d) (lat b) (lng b) in
  let s' := snd (processBatch calendar sunTimer b s) in
  let evs := events_since s s' in
  batchSize = 50%nat
  /\ (List.length chunk <= 50)%nat
  /\ fst (processBatch calendar sunTimer b s) = inr tt
  /\ trace s' = trace s ++ evs
  /\ (count_calendar_calls evs <= 50)%nat
  /\ Forall (fun e => is_response e = false) evs
  /\ (forall date la ln,
        CalendarCall date la ln ∈ evs <->
        exists d, date = Js.VStr d /\ la = lat b /\ ln = lng b /\ d ∈ chunk
                  /\ panchangCache s !! key d = None)
  /\ (forall d, d ∈ chunk ->
        panchangCache s' !! key d
        = record_at calendar sunTimer s (Js.VStr d) (lat b) (lng b))
  /\ (forall d msg, d ∈ chunk ->
        panchangCache s !! key d = None ->
        computed calendar sunTimer (Js.VStr d) (lat b) (lng b) = inl msg ->
        ConsoleError ("Error caching " +:+ d +:+ ": " +:+
                      ("Failed to calculate panchang: " +:+ msg)) ∈ evs)
  /\ (if decide (currentBatch b * 50 + 50 < List.length (dates b))%nat
      then last evs = Some SetImmediate
           /\ exists c,
                immediates s'
                = immediates s ++
                  [{| dates := dates b; lat := lat b; lng := lng b;
                      currentBatch := S (currentBatch b); cachedCount := c |}]
      else immediates s' = immediates s /\ SetImmediate ∉ evs).
Proof.
  intros chunk key s' evs.
  destruct (processBatch_run b s) as [c' Hrun]. fold chunk in Hrun.
  destruct (sweep_events "Error caching " (lat b) (lng b) chunk s)
    as (evs0 & Htr & Hno & Hcnt & Hfrom & Hto & Herr).
  assert (Hlen : (List.length chunk <= 50)%nat)
    by (unfold chunk; rewrite length_take; unfold batchSize; lia).
  set (more := decide (currentBatch b * batchSize + batchSize
                       < List.length (dates b))%nat) in Hrun.
  set (tail := if more then [SetImmediate] else []).
  assert (Htrace : trace s' = trace s ++ evs0 ++ tail).
  { unfold s', tail. rewrite Hrun. cbn [snd].
    destruct more; cbn [trace]; rewrite Htr, <- ?app_assoc; [done|].
    by rewrite (app_nil_r evs0). }
  assert (Hcache : panchangCache s'
            = panchangCache (sweep calendar sunTimer "Error caching "
                               (lat b) (lng b) s chunk)).
  { unfold s'. rewrite Hrun. by destruct more. }
  assert (Hevs : evs = evs0 ++ tail) by (by apply events_since_app).
  assert (Htail : tail = [] \/ tail = [SetImmediate])
    by (unfold tail; destruct more; auto).
  assert (Hcall : forall date la ln,
            CalendarCall date la ln ∈ evs0 ++ tail <-> CalendarCall date la ln ∈ evs0).
  { intros. rewrite elem_of_app. split; [|by left].
    intros [?|Hin]; [done|]. destruct Htail as [-> | ->].
    - by apply elem_of_nil in Hin.
    - by apply list_elem_of_singleton in Hin. }
  split; [reflexivity|]. split; [exact Hlen|].
  split; [by rewrite Hrun|]. split; [by rewrite Hevs|]. rewrite Hevs.
  split; [|split; [|split; [|split; [|split]]]].
  - rewrite count_calendar_calls_app.
    assert (count_calendar_calls tail = 0%nat)
      by (destruct Htail as [-> | ->]; reflexivity). lia.
  - apply Forall_app. split.
    + eapply Forall_impl; [exact Hno|]. by intros e [? _].
    + destruct Htail as [-> | ->]; repeat constructor.
  - intros date la ln. rewrite Hcall. split.
    + intros Hin. destruct (Hfrom _ _ _ Hin) as (d & -> & -> & -> & Hd & Hmiss).
      by exists d.
    + intros (d & -> & -> & -> & Hd & Hmiss). by apply Hto.
  - intros d Hd. rewrite Hcache. by apply sweep_lookup.
  - intros d msg Hd Hmiss Hmsg. apply elem_of_app. left. by apply Herr.
  - unfold s', tail. rewrite Hrun. cbn [snd]. fold more.
    change (currentBatch b * 50 + 50)%nat
      with (currentBatch b * batchSize + batchSize)%nat.
    fold more. destruct more; cbn [immediates].
    + split; [apply last_snoc|]. exists c'. by rewrite sweep_immediates.
    + split; [apply sweep_immediates|]. rewrite (app_nil_r evs0).
      intros Hin. rewrite Forall_forall in Hno. by destruct (Hno _ Hin).
Qed.

Lemma visit_cache_congr prefix la ln s1 s2 date :
  panchangCache s1 = panchangCache s2 ->
  panchangCache (visit calendar sunTimer prefix la ln s1 date)
  = panchangCache (visit calendar sunTimer prefix la ln s2 date).
Proof.
  intros Heq. rewrite !visit_eq, Heq.
  destruct (panchangCache s2 !! getCacheKey date la ln); [done|].
  destruct (computed calendar sunTimer date la ln); simpl; [done|].
  by rewrite Heq.
Qed.

Lemma sweep_cache_congr prefix la ln ds s1 s2 :
  panchangCache s1 = panchangCache s2 ->
  panchangCache (sweep calendar sunTimer prefix la ln s1 ds)
  = panchangCache (sweep calendar sunTimer prefix la ln s2 ds).
Proof.
  revert s1 s2. induction ds as [|x ds IH]; intros s1 s2 Heq; [done|].
  rewrite !sweep_cons. by apply IH, visit_cache_congr.
Qed.

Lemma run_immediates_idle n s :
  immediates s = [] -> run_immediates calendar sunTimer n s = s.
Proof.
  intros Hidle. induction n as [|n IH]; [done|].
  simpl. unfold run_immediate. by rewrite Hidle.
Qed.

(** With nothing else queued, [n] further turns of the event loop finish
    the chunks that one run of the closure leaves behind. *)
Lemma processBatch_then_drain n b s :
  immediates s = [] ->
  (List.length (dates b) <= (currentBatch b + 1 + n) * batchSize)%nat ->
  let final := run_immediates calendar sunTimer n
                 (snd (processBatch calendar sunTimer b s)) in
  immediates final = []
  /\ panchangCache final
     = panchangCache (sweep calendar sunTimer "Error caching " (lat b) (lng b) s
                        (drop (currentBatch b * batchSize) (dates b))).
Proof.
  revert b s. induction n as [|n IH]; intros b s Hidle Hlen final; subst final;
    destruct (processBatch_run b s) as [c' Hrun]; rewrite Hrun; cbn [snd];
    destruct (decide (currentBatch b * batchSize + batchSize
                      < List.length (dates b))%nat) as [Hmore|Hlast];
    try (unfold batchSize in *; lia).
  - cbn [run_immediates]. rewrite sweep_immediates, take_ge; [done|].
    rewrite length_drop. unfold batchSize in *. lia.
  - cbn [run_immediates].
    rewrite sweep_immediates, Hidle. cbn [app].
    set (b' := {| dates := dates b; lat := lat b; lng := lng b;
                  currentBatch := S (currentBatch b); cachedCount := c' |}).
    match goal with
    | |- context [run_immediate _ _ ?st] =>
        set (s0 := {| panchangCache := panchangCache st;
                      tithiSearchCache := tithiSearchCache st;
                      immediates := []; trace := trace st |});
        change (run_immediate calendar sunTimer st)
          with (snd (processBatch calendar sunTimer b' s0))
    end.
    destruct (IH b' s0) as [Hq Hc];
      [done|cbn [dates currentBatch b']; unfold batchSize in *; lia|].
    split; [exact Hq|]. rewrite Hc. cbn [dates lat lng currentBatch b'].
    rewrite <- (take_drop batchSize (drop (currentBatch b * batchSize) (dates b))).
    rewrite sweep_app, drop_drop.
    replace (currentBatch b * batchSize + batchSize)%nat
      with (S (currentBatch b) * batchSize)%nat by lia.
    by apply sweep_cache_congr.
  - rewrite run_immediates_idle by (by rewrite sweep_immediates).
    rewrite sweep_immediates, take_ge; [done|]. rewrite length_drop.
    unfold batchSize in *. lia.
Qed.

(** C8. One run of [processBatch] handles the chunk of at most 50 dates
    that starts at index [currentBatch * 50]: it calls the library for
    exactly the dates of the chunk whose key is not yet in [panchangCache]
    (so at most 50 times), leaves cached entries alone, logs the error of a
    date whose computation throws and goes on, so that afterwards every
    date of the chunk whose lookup succeeds is cached; it never throws;
    and while dates remain its last act is [setImmediate] for the next
    chunk, otherwise nothing is scheduled. *)
Theorem processBatch_chunk b s :
  let chunk := take batchSize (drop (currentBatch b * batchSize) (dates b)) in
  let key d := getCacheKey (Js.VStr d) (lat b) (lng b) in
  let s' := snd (processBatch calendar sunTimer b s) in
  let evs := events_since s s' in
  batchSize = 50%nat
  /\ (List.length chunk <= 50)%nat
  /\ fst (processBatch calendar sunTimer b s) = inr tt
  /\ trace s' = trace s ++ evs
  /\ (count_calendar_calls evs <= 50)%nat
  /\ Forall (fun e => is_response e = false) evs
  /\ (forall date la ln,
        CalendarCall date la ln ∈ evs <->
        exists d, date = Js.VStr d /\ la = lat b /\ ln = lng b /\ d ∈ chunk
                  /\ panchangCache s !! key d = None)
  /\ (forall d, d ∈ chunk ->
        panchangCache s' !! key d
        = record_at calendar sunTimer s (Js.VStr d) (lat b) (lng b))
  /\ (forall d msg, d ∈ chunk ->
        panchangCache s !! key d = None ->
        computed calendar sunTimer (Js.VStr d) (lat b) (lng b) = inl msg ->
        ConsoleError ("Error caching " +:+ d +:+ ": " +:+
                      ("Failed to calculate panchang: " +:+ msg)) ∈ evs)
  /\ (if decide (currentBatch b * 50 + 50 < List.length (dates b))%nat
      then last evs = Some SetImmediate
           /\ exists c,
                immediates s'
                = immediates s ++
                  [{| dates := dates b; lat := lat b; lng := lng b;
                      currentBatch := S (currentBatch b); cachedCount := c |}]
      else immediates s' = immediates s /\ SetImmediate ∉ evs)
  /\ (forall n,
        immediates s = [] ->
        (List.length (dates b) <= (currentBatch b + 1 + n) * 50)%nat ->
        let final := run_immediates calendar sunTimer n s' in
        immediates final = []
        /\ forall d, d ∈ drop (currentBatch b * 50) (dates b) ->
             panchangCache final !! key d
             = record_at calendar sunTimer s (Js.VStr d) (lat b) (lng b)).
Proof.
  intros chunk key s' evs.
  pose proof (processBatch_effects b s) as
    (H1 & H2 & H3 & H4 & H5 & H6 & H7 & H8 & H9 & H10).
  do 10 (split; [assumption|]).
  intros n Hidle Hlen final.
  destruct (processBatch_then_drain n b s Hidle Hlen) as [Hq Hc].
  split; [exact Hq|]. intros d Hd. unfold final, s', key. rewrite Hc.
  by apply sweep_lookup.
Qed.

(** C2, as the code has it.  [POST /cache-year] calls [processBatch]
    once before it responds: the response
    [{message, totalDates, location}], with [totalDates] the number of days
    of the year, comes after the first chunk has been processed, so the
    first 50 dates are looked up (and those not cached are computed) before
    the response exists; every later chunk is only scheduled at that time
    and runs after the response. *)
Theorem post_cache_year_first_chunk currentYear lat lng s :
  Js.truthy lat = true -> Js.truthy lng = true ->
  let ds := getDatesInCurrentYear currentYear in
  let key d := getCacheKey (Js.VStr d) lat lng in
  let b0 := {| dates := ds; lat := lat; lng := lng;
               currentBatch := 0; cachedCount := 0 |} in
  let s1 := snd (processBatch calendar sunTimer b0 s) in
  let evs := events_since s s1 in
  let response :=
    Response 200 (JCacheYear "Year caching started" (List.length ds)
                    (location_of lat lng)) in
  let s' := post_cache_year calendar sunTimer currentYear lat lng s in
  s' = log_events [response] s1
  /\ List.length ds
     = (if JsDate.is_leap (JsDate.full_year currentYear) then 366 else 365)%nat
  /\ trace s' = trace s ++ evs ++ [response]
  /\ Forall (fun e => is_response e = false) evs
  /\ (forall date la ln,
        CalendarCall date la ln ∈ evs <->
        exists d, date = Js.VStr d /\ la = lat /\ ln = lng /\ d ∈ take 50 ds
                  /\ panchangCache s !! key d = None)
  /\ (forall d, d ∈ take 50 ds ->
        panchangCache s' !! key d
        = record_at calendar sunTimer s (Js.VStr d) lat lng)
  /\ exists c,
       immediates s'
       = immediates s ++ [{| dates := ds; lat := lat; lng := lng;
                             currentBatch := 1; cachedCount := c |}].
Proof.
  intros Hlat Hlng ds key b0 s1 evs response s'.
  rename lat into la, lng into ln. subst b0.
  pose proof (getDatesInCurrentYear_length currentYear) as Hlen. fold ds in Hlen.
  pose proof (processBatch_effects
                {| dates := ds; lat := la; lng := ln;
                   currentBatch := 0; cachedCount := 0 |} s) as
    (_ & _ & Hret & Htr & _ & Hno & Hcalls & Hlook & _ & Hmore).
  cbn [dates lat lng currentBatch] in Hcalls, Hlook, Hmore.
  change (take batchSize (drop (0 * batchSize) ds)) with (take 50 ds)
    in Hcalls, Hlook.
  fold s1 in Htr, Hcalls, Hlook, Hmore. fold evs in Htr, Hno, Hcalls, Hmore.
  assert (Hs' : s' = log_events [response] s1).
  { unfold s', post_cache_year, route, try_catch. rewrite Hlat, Hlng.
    cbn [negb orb]. fold ds. unfold bind.
    rewrite (surjective_pairing (processBatch calendar sunTimer _ s)), Hret.
    reflexivity. }
  split; [exact Hs'|]. split; [exact Hlen|].
  split; [rewrite Hs'; cbn [trace log_events]; by rewrite Htr, <- app_assoc|].
  split; [exact Hno|]. split; [exact Hcalls|].
  split; [intros d Hd; rewrite Hs'; by apply Hlook|].
  rewrite Hs'. cbn [immediates log_events].
  rewrite decide_True in Hmore
    by (rewrite Hlen; destruct (JsDate.is_leap _); lia).
  by destruct Hmore as [_ Hq].
Qed.

(** C6, as the code has it.  The key is the text
    [date_lat_lng]; for latitude strings free of the separator ["_"] two
    lookups on the same date share a key exactly when both coordinate
    strings are character for character the same, whatever their numeric
    values, and caching one leaves the other's entry as it was. *)
Theorem getCacheKey_string_exact date (lat1 lng1 lat2 lng2 : string) s :
  contains_underscore lat1 = false ->
  contains_underscore lat2 = false ->
  let key1 := getCacheKey date (Js.VStr lat1) (Js.VStr lng1) in
  let key2 := getCacheKey date (Js.VStr lat2) (Js.VStr lng2) in
  key1 = Js.to_string date +:+ "_" +:+ lat1 +:+ "_" +:+ lng1
  /\ (key1 = key2 <-> lat1 = lat2 /\ lng1 = lng2)
  /\ (lat1 <> lat2 \/ lng1 <> lng2 ->
      let s1 := snd (getPanchangData calendar sunTimer date
                       (Js.VStr lat1) (Js.VStr lng1) s) in
      panchangCache s1 !! key2 = panchangCache s !! key2).
Proof.
  intros H1 H2 key1 key2.
  assert (Hiff : key1 = key2 <-> lat1 = lat2 /\ lng1 = lng2).
  { split; [|by intros [-> ->]].
    unfold key1, key2, getCacheKey; simpl. intros H.
    apply append_inv_head in H. change (String "_" ?x) with ("_" +:+ x) in H.
    apply append_inv_head in H. by apply append_underscore_inj. }
  split; [reflexivity|]. split; [exact Hiff|].
  intros Hne s1.
  assert (Hkeys : key1 <> key2) by (rewrite Hiff; intros [? ?]; destruct Hne; done).
  subst s1. fold key1.
  destruct (panchangCache s !! key1) as [cached|] eqn:Hlook.
  - by rewrite (getPanchangData_hit _ _ _ _ _ Hlook).
  - rewrite (getPanchangData_miss _ _ _ _ Hlook). fold key1.
    destruct (computed calendar sunTimer date (Js.VStr lat1) (Js.VStr lng1));
      simpl; [done|]. by rewrite lookup_insert_ne.
Qed.

End ServerFacts.

(** A first lookup of the full-moon day of January 2024 from the empty
    cache computes and stores; the second returns the same record. *)
Lemma getPanchangData_memoizes_witness :
  exists r s1,
    getPanchangData Demo.calendar Demo.sunTimer (Js.VStr "2024-01-15")
      Demo.bengaluru_lat Demo.bengaluru_lng initial = (inr r, s1)
    /\ panchangCache s1 !! getCacheKey (Js.VStr "2024-01-15")
         Demo.bengaluru_lat Demo.bengaluru_lng = Some r
    /\ getPanchangData Demo.calendar Demo.sunTimer (Js.VStr "2024-01-15")
         Demo.bengaluru_lat Demo.bengaluru_lng s1 = (inr r, s1).
Proof.
  eexists _, _.
  apply (proj1 (proj2 (getPanchangData_memoizes Demo.calendar Demo.sunTimer
                         (Js.VStr "2024-01-15") Demo.bengaluru_lat
                         Demo.bengaluru_lng initial))).
  - reflexivity.
  - reflexivity.
Defined.

(** The trailing zero of the specification's example makes a second key. *)
Lemma getCacheKey_string_exact_witness :
  getCacheKey (Js.VStr "2025-10-01") (Js.VStr "12.9716") (Js.VStr "77.5946")
  = getCacheKey (Js.VStr "2025-10-01") (Js.VStr "12.97160") (Js.VStr "77.5946")
  <-> "12.9716" = "12.97160" /\ "77.5946" = "77.5946".
Proof.
  apply (getCacheKey_string_exact Demo.calendar Demo.sunTimer
           (Js.VStr "2025-10-01") "12.9716" "77.5946" "12.97160" "77.5946" initial).
  - reflexivity.
  - reflexivity.
Defined.

(** C6 as stated fails: latitude ["1_2"] with longitude ["3"] and latitude
    ["1"] with longitude ["2_3"] differ as strings and share the key
    ["2025-10-01_1_2_3"], so the second lookup is served the record cached
    for the first. *)
Lemma getCacheKey_collision :
  let date := Js.VStr "2025-10-01" in
  "1_2" <> "1"
  /\ getCacheKey date (Js.VStr "1_2") (Js.VStr "3")
     = getCacheKey date (Js.VStr "1") (Js.VStr "2_3")
  /\ exists r s1,
       getPanchangData Demo.calendar Demo.sunTimer date
         (Js.VStr "1_2") (Js.VStr "3") initial = (inr r, s1)
       /\ getPanchangData Demo.calendar Demo.sunTimer date
            (Js.VStr "1") (Js.VStr "2_3") s1 = (inr r, s1)
       /\ PanchangData.latitude r = Js.VStr "1_2"
       /\ size (panchangCache s1) = 1%nat.
Proof.
  intros date. split; [discriminate|]. split; [reflexivity|].
  eexists _, _. split; [reflexivity|]. split; [reflexivity|].
  split; [reflexivity|]. vm_compute. reflexivity.
Qed.

(** The year 2024 meets the bound on years, and is a leap year. *)
Lemma getDatesInCurrentYear_calendar_witness :
  StronglySorted string_lt (getDatesInCurrentYear 2024)
  /\ List.length (getDatesInCurrentYear 2024)
     = (if JsDate.is_leap 2024 then 366 else 365)%nat.
Proof.
  pose proof (getDatesInCurrentYear_calendar 2024 ltac:(lia)) as H.
  split; [exact (proj1 (proj2 H))|exact (proj1 (proj2 (proj2 H)))].
Defined.

(** C2 as stated fails: from the empty cache, by the time the response to a
    warm-up of 2024 exists the library has been called 50 times and 49
    records are cached (the 31st of January has no ephemeris). *)
Lemma post_cache_year_computes_before_responding :
  let s' := post_cache_year Demo.calendar Demo.sunTimer 2024
              Demo.bengaluru_lat Demo.bengaluru_lng initial in
  responds_before_computing (trace s') = false
  /\ head (trace s')
     = Some (CalendarCall (Js.VStr "2024-01-01") Demo.bengaluru_lat Demo.bengaluru_lng)
  /\ last (trace s')
     = Some (Response 200 (JCacheYear "Year caching started" 366 "12.9716, 77.5946"))
  /\ count_calendar_calls (trace s') = 50%nat
  /\ size (panchangCache s') = 49%nat.
Proof. vm_compute. repeat split; reflexivity. Qed.

(** A warm-up of 2024 for Bengaluru responds after its first chunk. *)
Lemma post_cache_year_first_chunk_witness :
  let ds := getDatesInCurrentYear 2024 in
  let b0 := {| dates := ds; lat := Demo.bengaluru_lat; lng := Demo.bengaluru_lng;
               currentBatch := 0; cachedCount := 0 |} in
  post_cache_year Demo.calendar Demo.sunTimer 2024
    Demo.bengaluru_lat Demo.bengaluru_lng initial
  = log_events
      [Response 200 (JCacheYear "Year caching started" (List.length ds)
                       (location_of Demo.bengaluru_lat Demo.bengaluru_lng))]
      (snd (processBatch Demo.calendar Demo.sunTimer b0 initial)).
Proof.
  apply (post_cache_year_first_chunk Demo.calendar Demo.sunTimer 2024
           Demo.bengaluru_lat Demo.bengaluru_lng initial).
  - reflexivity.
  - reflexivity.
Defined.

(** C3 as stated fails: after a search for ["purnima"], a search for
    ["PURNIMA"] finds nothing under its key, scans again and leaves a second
    entry; the key it consults is not the key of the lowercased term. *)
Lemma search_key_is_case_sensitive :
  let s1 := get_search_tithi Demo.calendar Demo.sunTimer 2024 (Js.VStr "purnima")
              Demo.bengaluru_lat Demo.bengaluru_lng initial in
  let s2 := get_search_tithi Demo.calendar Demo.sunTimer 2024 (Js.VStr "PURNIMA")
              Demo.bengaluru_lat Demo.bengaluru_lng s1 in
  searchKey_of (Js.VStr "PURNIMA") Demo.bengaluru_lat Demo.bengaluru_lng
  <> searchKey_of (Js.VStr (Js.toLowerCase "PURNIMA"))
       Demo.bengaluru_lat Demo.bengaluru_lng
  /\ size (tithiSearchCache s1) = 1%nat
  /\ tithiSearchCache s1
       !! searchKey_of (Js.VStr "PURNIMA") Demo.bengaluru_lat Demo.bengaluru_lng
     = None
  /\ size (tithiSearchCache s2) = 2%nat.
Proof.
  split; [discriminate|]. vm_compute. repeat split; reflexivity.
Qed.

(** The terms ["purnima"] and ["PURNIMA"] have different keys. *)
Lemma search_cache_keeps_case_witness :
  searchKey_of (Js.VStr "purnima") Demo.bengaluru_lat Demo.bengaluru_lng
  <> searchKey_of (Js.VStr "PURNIMA") Demo.bengaluru_lat Demo.bengaluru_lng.
Proof.
  apply (proj1 (proj2 (proj2
           (search_cache_keeps_case Demo.calendar Demo.sunTimer 2024 "PURNIMA"
              Demo.bengaluru_lat Demo.bengaluru_lng initial
              ltac:(discriminate) eq_refl eq_refl)))).
  discriminate.
Defined.

(** A first search for ["PURNIMA"] in 2024 finds the twelve days whose tithi
    is ["Purnima"], in order, and stores its result. *)
Lemma search_scans_year_witness :
  exists result,
    tithiSearchCache
      (get_search_tithi Demo.calendar Demo.sunTimer 2024 (Js.VStr "PURNIMA")
         Demo.bengaluru_lat Demo.bengaluru_lng initial)
    = <["PURNIMA_12.9716_77.5946" := result]> ∅
    /\ SearchResult.location result = "12.9716, 77.5946"
    /\ SearchResult.totalMatches result = 12%nat
    /\ map Match.date (SearchResult.dates result)
       = map Js.VStr ["2024-01-15"; "2024-02-15"; "2024-03-15"; "2024-04-15";
                      "2024-05-15"; "2024-06-15"; "2024-07-15"; "2024-08-15";
                      "2024-09-15"; "2024-10-15"; "2024-11-15"; "2024-12-15"]
    /\ map Match.tithi (SearchResult.dates result) = replicate 12 "Purnima".
Proof.
  eexists. split.
  - apply (search_scans_year Demo.calendar Demo.sunTimer 2024 "PURNIMA"
             Demo.bengaluru_lat Demo.bengaluru_lng initial).
    + discriminate.
    + reflexivity.
    + reflexivity.
    + reflexivity.
    + reflexivity.
    + apply ascii_tithis_checked. vm_compute. reflexivity.
  - vm_compute. done.
Defined.

(** The twelve full moons of 2024, found by the lower-case term, in order. *)
Example search_purnima_2024 :
  let s' := get_search_tithi Demo.calendar Demo.sunTimer 2024 (Js.VStr "purnima")
              Demo.bengaluru_lat Demo.bengaluru_lng initial in
  exists result,
    last (trace s') = Some (Response 200 (JSearch result))
    /\ SearchResult.totalMatches result = 12%nat
    /\ map Match.date (SearchResult.dates result)
       = map Js.VStr
           ["2024-01-15"; "2024-02-15"; "2024-03-15"; "2024-04-15"; "2024-05-15";
            "2024-06-15"; "2024-07-15"; "2024-08-15"; "2024-09-15"; "2024-10-15";
            "2024-11-15"; "2024-12-15"].
Proof. eexists. vm_compute. repeat split; reflexivity. Qed.

(** The suggestion route on 2024. *)
Lemma tithis_samples_every_15th_witness :
  exists evs tithis,
    trace (get_tithis Demo.calendar Demo.sunTimer 2024
             Demo.bengaluru_lat Demo.bengaluru_lng initial)
    = trace initial ++ evs ++
      [Response 200 (JTithis tithis
                       (location_of Demo.bengaluru_lat Demo.bengaluru_lng)
                       "Based on sample dates from current year")]
    /\ StronglySorted string_lt tithis.
Proof.
  destruct (tithis_samples_every_15th Demo.calendar Demo.sunTimer 2024
              Demo.bengaluru_lat Demo.bengaluru_lng initial eq_refl eq_refl)
    as (evs & tithis & Htr & _ & _ & Hsorted & _).
  exists evs, tithis. split; [exact Htr|exact Hsorted].
Defined.

(** The Ekadashi of 8 January 2024, at index 7, is not sampled. *)
Example tithis_2024_miss_index_7 :
  getDatesInCurrentYear 2024 !! 7%nat = Some "2024-01-08"
  /\ PanchangData.tithi <$>
       record_at Demo.calendar Demo.sunTimer initial (Js.VStr "2024-01-08")
         Demo.bengaluru_lat Demo.bengaluru_lng
     = Some "Ekadashi"
  /\ last (trace (get_tithis Demo.calendar Demo.sunTimer 2024
                    Demo.bengaluru_lat Demo.bengaluru_lng initial))
     = Some (Response 200
               (JTithis ["Amavasya"; "Pratipada"; "Purnima"] "12.9716, 77.5946"
                  "Based on sample dates from current year")).
Proof. vm_compute. repeat split; reflexivity. Qed.

(** The first chunk of a warm-up of 2024 caches 1 January. *)
Lemma processBatch_chunk_witness :
  let b := {| dates := getDatesInCurrentYear 2024;
              lat := Demo.bengaluru_lat; lng := Demo.bengaluru_lng;
              currentBatch := 0; cachedCount := 0 |} in
  panchangCache (snd (processBatch Demo.calendar Demo.sunTimer b initial))
    !! getCacheKey (Js.VStr "2024-01-01") Demo.bengaluru_lat Demo.bengaluru_lng
  = record_at Demo.calendar Demo.sunTimer initial (Js.VStr "2024-01-01")
      Demo.bengaluru_lat Demo.bengaluru_lng.
Proof.
  intros b.
  pose proof (processBatch_chunk Demo.calendar Demo.sunTimer b initial)
    as (_ & _ & _ & _ & _ & _ & _ & Hlook & _).
  apply Hlook. vm_compute. by left.
Defined.

(** * Further properties of the server *)

(** ** [padLeft] on any string *)

Lemma length_repeat_string n (c : string) :
  String.length (Js.repeat_string n c) = (n * String.length c)%nat.
Proof.
  induction n as [|n IH]; [done|].
  cbn [Js.repeat_string]. rewrite length_append, IH. lia.
Qed.

Lemma substring_all m (b : string) :
  (String.length b <= m)%nat -> String.substring 0 m b = b.
Proof.
  revert m. induction b as [|c b IH]; intros m Hm.
  - by destruct m.
  - destruct m as [|m]; simpl in *; [lia|]. rewrite IH; [done|lia].
Qed.

Lemma substring_skip (a b : string) k m :
  String.substring (String.length a + k) m (a +:+ b) = String.substring k m b.
Proof.
  induction a as [|c a IH]; [done|].
  rewrite append_cons. simpl. exact IH.
Qed.

Lemma substring_length k m (s : string) :
  (k + m <= String.length s)%nat -> String.length (String.substring k m s) = m.
Proof.
  revert k m. induction s as [|c s IH]; intros k m Hkm; simpl in Hkm.
  - assert (k = 0 /\ m = 0)%nat as [-> ->] by lia. done.
  - destruct k as [|k]; simpl.
    + destruct m as [|m]; [done|]. simpl. rewrite IH; [done|lia].
    + apply IH. lia.
Qed.

Lemma substring_suffix k (s : string) :
  (k <= String.length s)%nat ->
  exists p, s = p +:+ String.substring k (String.length s - k) s
            /\ String.length p = k.
Proof.
  revert k. induction s as [|c s IH]; intros k Hk; simpl in Hk.
  - assert (k = 0)%nat as -> by lia. by exists "".
  - destruct k as [|k].
    + exists "". split; [|done]. rewrite append_empty.
      by rewrite substring_all by (simpl; lia).
    + destruct (IH k) as (p & Hp & Hlen); [lia|].
      exists (String c p). rewrite append_cons. simpl. split; [by f_equal|by f_equal].
Qed.

Lemma append_empty_r (a : string) : a +:+ "" = a.
Proof. induction a as [|x a IH]; [done|]. rewrite append_cons. by f_equal. Qed.

Lemma append_assoc (a b c : string) : (a +:+ b) +:+ c = a +:+ (b +:+ c).
Proof.
  induction a as [|x a IH]; [done|]. rewrite !append_cons. by f_equal.
Qed.

Lemma repeat_string_add a b (c : string) :
  Js.repeat_string (a + b) c = Js.repeat_string a c +:+ Js.repeat_string b c.
Proof.
  induction a as [|a IH]; [done|]. cbn [Nat.add Js.repeat_string].
  by rewrite IH, append_assoc.
Qed.

(** X1. [padLeft] with a one-character pad and a width of at least one:
    a non-empty string no longer than the width is padded on the left to
    exactly the width; a longer string is cut down to its last [length]
    characters; the empty string comes out one character short. *)
Theorem padLeft_pads_or_truncates (this : string) (length : nat) (character : string) :
  String.length character = 1%nat -> (1 <= length)%nat ->
  (this = "" -> padLeft this length character = Js.repeat_string (length - 1) character)
  /\ ((1 <= String.length this <= length)%nat ->
      padLeft this length character
      = Js.repeat_string (length - String.length this) character +:+ this)
  /\ ((length <= String.length this)%nat ->
      exists dropped, this = dropped +:+ padLeft this length character)
  /\ (this <> "" -> String.length (padLeft this length character) = length).
Proof.
  intros Hc Hn. unfold padLeft, Js.array_join, Js.slice_last.
  destruct length as [|n]; [lia|]. cbn [Nat.sub]. rewrite Nat.sub_0_r.
  rewrite length_append, length_repeat_string, Hc, Nat.mul_1_r.
  assert (Hpad : (1 <= String.length this <= S n)%nat ->
            String.substring (n + String.length this - S n) (S n)
              (Js.repeat_string n character +:+ this)
            = Js.repeat_string (S n - String.length this) character +:+ this).
  { intros Hlen.
    assert (Hrep : Js.repeat_string n character
              = Js.repeat_string (String.length this - 1) character
                +:+ Js.repeat_string (S n - String.length this) character)
      by (rewrite <- repeat_string_add; f_equal; lia).
    rewrite Hrep, append_assoc.
    replace (n + String.length this - S n)%nat
      with (String.length (Js.repeat_string (String.length this - 1) character) + 0)%nat
      by (rewrite length_repeat_string, Hc; lia).
    rewrite substring_skip. apply substring_all.
    rewrite length_append, length_repeat_string, Hc. lia. }
  assert (Hcut : (S n <= String.length this)%nat ->
            String.substring (n + String.length this - S n) (S n)
              (Js.repeat_string n character +:+ this)
            = String.substring (String.length this - S n) (S n) this).
  { intros Hlen.
    replace (n + String.length this - S n)%nat
      with (String.length (Js.repeat_string n character)
            + (String.length this - S n))%nat
      by (rewrite length_repeat_string, Hc; lia).
    apply substring_skip. }
  split; [|split; [|split]].
  - intros ->. simpl. rewrite Nat.add_0_r, append_empty_r.
    replace (n - S n)%nat with 0%nat by lia.
    apply substring_all. rewrite length_repeat_string, Hc. lia.
  - exact Hpad.
  - intros Hlen. rewrite (Hcut Hlen).
    destruct (substring_suffix (String.length this - S n) this) as (p & Hp & _); [lia|].
    exists p. by replace (String.length this - (String.length this - S n))%nat
      with (S n) in Hp by lia.
  - intros Hne. assert (1 <= String.length this)%nat by (destruct this; simpl; [done|lia]).
    destruct (Nat.le_gt_cases (String.length this) (S n)) as [Hle|Hgt].
    + rewrite Hpad by lia. rewrite length_append, length_repeat_string, Hc. lia.
    + rewrite Hcut by lia. apply substring_length. lia.
Qed.

Lemma padLeft_pads_or_truncates_witness :
  padLeft "7" 2 "0" = Js.repeat_string (2 - String.length "7") "0" +:+ "7".
Proof.
  apply (proj1 (proj2 (padLeft_pads_or_truncates "7" 2 "0" eq_refl ltac:(lia)))).
  simpl. lia.
Defined.

(** ** Relations kept by every step of the loops *)

Section Stepping.

Variable calendar : Js.value -> Js.value -> Js.value -> string + CalendarResult.
Variable sunTimer : Js.value -> Js.value -> Js.value -> string + SunTimes.
Variable R : state -> state -> Prop.
Hypothesis R_refl : forall s, R s s.
Hypothesis R_trans : forall s1 s2 s3, R s1 s2 -> R s2 s3 -> R s1 s3.
Hypothesis R_lookup : forall date lat lng s,
  R s (snd (getPanchangData calendar sunTimer date lat lng s)).
Hypothesis R_console : forall msg s, R s (log_events [ConsoleError msg] s).

Lemma for_of_steps {A B} (P : B -> Prop) (body : A -> B -> M B) (xs : list A) :
  (forall x a s, P a ->
     exists a', fst (body x a s) = inr a' /\ P a' /\ R s (snd (body x a s))) ->
  forall acc s, P acc ->
    exists acc', fst (for_of xs body acc s) = inr acc' /\ P acc'
                 /\ R s (snd (for_of xs body acc s)).
Proof.
  intros Hbody. induction xs as [|x xs IH]; intros acc s Hacc.
  { exists acc. by repeat split. }
  cbn [for_of]. unfold bind.
  destruct (Hbody x acc s Hacc) as (a' & Hfst & Ha' & HR).
  destruct (body x acc s) as [[e|a] s1]; cbn [fst snd] in *; [done|].
  injection Hfst as ->.
  destruct (IH a' s1 Ha') as (acc' & Hfst' & Hacc' & HR').
  exists acc'. split; [done|]. split; [done|]. by eapply R_trans.
Qed.

Lemma for_range_steps {B} (body : nat -> B -> M B) count :
  (forall i a s, exists a', fst (body i a s) = inr a' /\ R s (snd (body i a s))) ->
  forall start acc s,
    exists acc', fst (for_range count start body acc s) = inr acc'
                 /\ R s (snd (for_range count start body acc s)).
Proof.
  intros Hbody. induction count as [|count IH]; intros start acc s.
  { exists acc. by split. }
  cbn [for_range]. unfold bind.
  destruct (Hbody start acc s) as (a' & Hfst & HR).
  destruct (body start acc s) as [[e|a] s1]; cbn [fst snd] in *; [done|].
  destruct (IH (S start) a s1) as (acc' & Hfst' & HR').
  exists acc'. split; [done|]. by eapply R_trans.
Qed.

Lemma search_body_steps tithi lat lng date acc s :
  exists acc',
    fst (search_body calendar sunTimer tithi lat lng date acc s) = inr acc'
    /\ (acc' = acc
        \/ exists t r, tithi = Js.VStr t
                       /\ Js.toLowerCase (PanchangData.tithi r) = Js.toLowerCase t
                       /\ acc' = acc ++ [matchingDate_of r])
    /\ R s (snd (search_body calendar sunTimer tithi lat lng date acc s)).
Proof.
  unfold search_body, try_catch, bind.
  pose proof (R_lookup (Js.VStr date) lat lng s) as HR.
  destruct (getPanchangData calendar sunTimer (Js.VStr date) lat lng s)
    as [[msg|r] s1]; cbn [snd] in HR.
  { exists acc. split; [done|]. split; [by left|].
    eapply R_trans; [exact HR|apply R_console]. }
  destruct (negb (String.eqb (PanchangData.tithi r) "")).
  - destruct tithi as [| |b|n|t]; cbn [call_toLowerCase];
      try (exists acc; split; [done|]; split; [by left|];
           eapply R_trans; [exact HR|apply R_console]).
    unfold ret.
    destruct (String.eqb_spec (Js.toLowerCase (PanchangData.tithi r))
                (Js.toLowerCase t)) as [Heq|_].
    + eexists. split; [done|]. split; [|exact HR]. right. by exists t, r.
    + exists acc. split; [done|]. split; [by left|exact HR].
  - exists acc. split; [done|]. split; [by left|exact HR].
Qed.

Lemma tithis_body_steps lat lng date acc s :
  exists acc',
    fst (tithis_body calendar sunTimer lat lng date acc s) = inr acc'
    /\ R s (snd (tithis_body calendar sunTimer lat lng date acc s)).
Proof.
  unfold tithis_body, try_catch, bind.
  pose proof (R_lookup (Js.VStr date) lat lng s) as HR.
  destruct (getPanchangData calendar sunTimer (Js.VStr date) lat lng s)
    as [[msg|r] s1]; cbn [snd] in HR.
  { exists acc. split; [done|]. eapply R_trans; [exact HR|apply R_console]. }
  destruct (negb (String.eqb (PanchangData.tithi r) "")); eexists; by split.
Qed.

Lemma processBatch_body_steps b i c s :
  exists c',
    fst (processBatch_body calendar sunTimer b i c s) = inr c'
    /\ R s (snd (processBatch_body calendar sunTimer b i c s)).
Proof.
  unfold processBatch_body, bind, get_state. cbv beta iota zeta.
  set (date := match dates b !! i with Some d => Js.VStr d | None => Js.VUndefined end).
  match goal with |- context [negb ?x] => destruct (negb x) end.
  - unfold try_catch.
    pose proof (R_lookup date (lat b) (lng b) s) as HR.
    destruct (getPanchangData calendar sunTimer date (lat b) (lng b) s)
      as [[msg|r] s1]; cbn [snd] in HR.
    + exists c. split; [done|]. eapply R_trans; [exact HR|apply R_console].
    + exists (S c). by split.
  - exists c. by split.
Qed.

Hypothesis R_schedule : forall b s, R s (snd (setImmediate b s)).

Lemma processBatch_steps b s :
  fst (processBatch calendar sunTimer b s) = inr tt
  /\ R s (snd (processBatch calendar sunTimer b s)).
Proof.
  unfold processBatch, bind.
  match goal with
  | |- context [for_range ?n ?i ?body ?c s] =>
      destruct (for_range_steps body n (processBatch_body_steps b) i c s)
        as (c' & Hfst & HR);
      destruct (for_range n i body c s) as [[e|c''] s1]
  end; cbn [fst snd] in *; [done|].
  match goal with |- context [if ?c then _ else _] => destruct c end.
  - split; [done|]. eapply R_trans; [exact HR|apply R_schedule].
  - by split.
Qed.

End Stepping.

(** ** What a lookup leaves alone *)

Lemma getPanchangData_frame calendar sunTimer date lat lng s :
  tithiSearchCache (snd (getPanchangData calendar sunTimer date lat lng s))
  = tithiSearchCache s
  /\ immediates (snd (getPanchangData calendar sunTimer date lat lng s))
     = immediates s.
Proof.
  destruct (panchangCache s !! getCacheKey date lat lng) as [r|] eqn:Hlook.
  - by rewrite (getPanchangData_hit _ _ _ _ _ _ _ Hlook).
  - rewrite (getPanchangData_miss _ _ _ _ _ _ Hlook).
    by destruct (computed calendar sunTimer date lat lng).
Qed.

Lemma computing_events_quiet calendar date lat lng :
  Forall (fun e => is_response e = false) (computing_events calendar date lat lng).
Proof.
  unfold computing_events. destruct (calendar date lat lng); by repeat constructor.
Qed.

Lemma extends_quietly_refl s : extends_quietly s s.
Proof. exists []. by rewrite app_nil_r. Qed.

Lemma extends_quietly_trans s1 s2 s3 :
  extends_quietly s1 s2 -> extends_quietly s2 s3 -> extends_quietly s1 s3.
Proof.
  intros (evs1 & H1 & Hq1) (evs2 & H2 & Hq2). exists (evs1 ++ evs2).
  split; [by rewrite H2, H1, app_assoc|by apply Forall_app].
Qed.

Lemma extends_quietly_log evs s :
  Forall (fun e => is_response e = false) evs -> extends_quietly s (log_events evs s).
Proof. intros Hq. by exists evs. Qed.

Lemma getPanchangData_quiet calendar sunTimer date lat lng s :
  extends_quietly s (snd (getPanchangData calendar sunTimer date lat lng s)).
Proof.
  destruct (panchangCache s !! getCacheKey date lat lng) as [r|] eqn:Hlook.
  - rewrite (getPanchangData_hit _ _ _ _ _ _ _ Hlook). apply extends_quietly_refl.
  - rewrite (getPanchangData_miss _ _ _ _ _ _ Hlook).
    exists (computing_events calendar date lat lng).
    split; [|apply computing_events_quiet].
    by destruct (computed calendar sunTimer date lat lng).
Qed.

Lemma same_search_cache_refl s : same_search_cache s s.
Proof. reflexivity. Qed.

Lemma same_search_cache_trans s1 s2 s3 :
  same_search_cache s1 s2 -> same_search_cache s2 s3 -> same_search_cache s1 s3.
Proof. unfold same_search_cache. congruence. Qed.

Lemma same_queue_refl s : same_queue s s.
Proof. reflexivity. Qed.

Lemma same_queue_trans s1 s2 s3 :
  same_queue s1 s2 -> same_queue s2 s3 -> same_queue s1 s3.
Proof. unfold same_queue. congruence. Qed.

Lemma getPanchangData_same_search_cache calendar sunTimer date lat lng s :
  same_search_cache s (snd (getPanchangData calendar sunTimer date lat lng s)).
Proof. apply getPanchangData_frame. Qed.

Lemma getPanchangData_same_queue calendar sunTimer date lat lng s :
  same_queue s (snd (getPanchangData calendar sunTimer date lat lng s)).
Proof. apply getPanchangData_frame. Qed.

(** The scan of the search route leaves [tithiSearchCache] alone. *)
Lemma search_loop_frame calendar sunTimer tithi lat lng ds acc s :
  tithiSearchCache (snd (for_of ds (search_body calendar sunTimer tithi lat lng) acc s))
  = tithiSearchCache s.
Proof.
  edestruct (for_of_steps same_search_cache same_search_cache_refl
               same_search_cache_trans (fun _ => True)
               (search_body calendar sunTimer tithi lat lng) ds)
    as (_ & _ & _ & H); [|done|exact H].
  intros x a s0 _.
  edestruct (search_body_steps calendar sunTimer same_search_cache)
    as (a' & Hfst & _ & HR);
    [apply same_search_cache_trans|apply getPanchangData_same_search_cache| |].
  { intros; reflexivity. }
  exists a'. split; [exact Hfst|]. split; [done|exact HR].
Qed.

(** ** Relations kept by every request but [DELETE /cache] *)

Section Routes.

Variable calendar : Js.value -> Js.value -> Js.value -> string + CalendarResult.
Variable sunTimer : Js.value -> Js.value -> Js.value -> string + SunTimes.
Variable R : state -> state -> Prop.
Hypothesis R_refl : forall s, R s s.
Hypothesis R_trans : forall s1 s2 s3, R s1 s2 -> R s2 s3 -> R s1 s3.
Hypothesis R_lookup : forall date lat lng s,
  R s (snd (getPanchangData calendar sunTimer date lat lng s)).
Hypothesis R_console : forall msg s, R s (log_events [ConsoleError msg] s).
Hypothesis R_schedule : forall b s, R s (snd (setImmediate b s)).
Hypothesis R_respond : forall status b s, R s (log_events [Response status b] s).
Hypothesis R_dequeue : forall s rest,
  R s {| panchangCache := panchangCache s;
         tithiSearchCache := tithiSearchCache s;
         immediates := rest;
         trace := trace s |}.
Hypothesis R_store : forall tithi lat lng (ms : list Match.t) s,
  tithiSearchCache s !! searchKey_of tithi lat lng = None ->
  (forall t m, tithi = Js.VStr t -> m ∈ ms ->
               Js.toLowerCase (Match.tithi m) = Js.toLowerCase t) ->
  R s (snd (tithiSearchCache_set (searchKey_of tithi lat lng)
              {| SearchResult.tithi := tithi;
                 SearchResult.location := location_of lat lng;
                 SearchResult.totalMatches := List.length ms;
                 SearchResult.dates := ms |} s)).

Lemma get_panchang_steps date lat lng s :
  R s (get_panchang calendar sunTimer date lat lng s).
Proof.
  unfold get_panchang, route, try_catch.
  destruct (negb (Js.truthy date) || negb (Js.truthy lat) || negb (Js.truthy lng));
    [exact (R_respond _ _ _)|].
  unfold bind. pose proof (R_lookup date lat lng s) as HR.
  destruct (getPanchangData calendar sunTimer date lat lng s) as [[e|r] s1];
    cbn [snd] in HR; (eapply R_trans; [exact HR|]).
  - eapply R_trans; [apply R_console|exact (R_respond _ _ _)].
  - exact (R_respond _ _ _).
Qed.

Lemma post_cache_year_steps currentYear lat lng s :
  R s (post_cache_year calendar sunTimer currentYear lat lng s).
Proof.
  unfold post_cache_year, route, try_catch.
  destruct (negb (Js.truthy lat) || negb (Js.truthy lng));
    [exact (R_respond _ _ _)|].
  unfold bind.
  match goal with
  | |- context [processBatch _ _ ?b s] =>
      destruct (processBatch_steps calendar sunTimer R R_refl R_trans R_lookup
                  R_console R_schedule b s) as [Hfst HR];
      destruct (processBatch calendar sunTimer b s) as [[e|u] s1]
  end; cbn [fst snd] in *; [done|].
  eapply R_trans; [exact HR|exact (R_respond _ _ _)].
Qed.

Lemma post_cache_year_no_body_steps s : R s (post_cache_year_no_body s).
Proof.
  unfold post_cache_year_no_body, route, try_catch, throw, bind.
  eapply R_trans; [apply R_console|exact (R_respond _ _ _)].
Qed.

Lemma get_search_tithi_steps currentYear tithi lat lng s :
  R s (get_search_tithi calendar sunTimer currentYear tithi lat lng s).
Proof.
  unfold get_search_tithi, route, try_catch.
  destruct (negb (Js.truthy tithi) || negb (Js.truthy lat) || negb (Js.truthy lng));
    [exact (R_respond _ _ _)|].
  unfold bind at 1. unfold get_state.
  destruct (tithiSearchCache s !! searchKey_of tithi lat lng) as [cached|] eqn:Hkey;
    [exact (R_respond _ _ _)|].
  unfold bind at 1.
  pose proof (search_loop_frame calendar sunTimer tithi lat lng
                (getDatesInCurrentYear currentYear) [] s) as Hframe.
  edestruct (for_of_steps R R_refl R_trans
               (fun acc : list Match.t =>
                  forall t m, tithi = Js.VStr t -> m ∈ acc ->
                              Js.toLowerCase (Match.tithi m) = Js.toLowerCase t)
               (search_body calendar sunTimer tithi lat lng)
               (getDatesInCurrentYear currentYear))
    with (acc := @nil Match.t) (s := s) as (ms & Hfst & Hms & HR).
  { intros x a s0 Ha.
    destruct (search_body_steps calendar sunTimer R R_trans R_lookup R_console
                tithi lat lng x a s0) as (a' & Hfst & Hcase & HR).
    exists a'. split; [exact Hfst|]. split; [|exact HR].
    destruct Hcase as [->|(t & r & -> & Hlow & ->)]; [exact Ha|].
    intros t' m [= <-] [Hm|Hm]%elem_of_app; [by apply Ha|].
    apply list_elem_of_singleton in Hm as ->. exact Hlow. }
  { intros t m _ Hm. by apply elem_of_nil in Hm. }
  destruct (for_of (getDatesInCurrentYear currentYear)
              (search_body calendar sunTimer tithi lat lng) [] s) as [[e|ms'] s1];
    cbn [fst snd] in *; [done|]. injection Hfst as ->.
  eapply R_trans; [exact HR|].
  eapply R_trans; [apply (R_store tithi lat lng ms s1); [by rewrite Hframe|exact Hms]|].
  exact (R_respond _ _ _).
Qed.

Lemma get_tithis_steps currentYear lat lng s :
  R s (get_tithis calendar sunTimer currentYear lat lng s).
Proof.
  unfold get_tithis, route, try_catch.
  destruct (negb (Js.truthy lat) || negb (Js.truthy lng));
    [exact (R_respond _ _ _)|].
  unfold bind.
  edestruct (for_of_steps R R_refl R_trans (fun _ : list string => True)
               (tithis_body calendar sunTimer lat lng)
               (sampleDates_of (getDatesInCurrentYear currentYear)))
    with (acc := @nil string) (s := s) as (ts & Hfst & _ & HR); [|done|].
  { intros x a s0 _.
    destruct (tithis_body_steps calendar sunTimer R R_trans R_lookup R_console
                lat lng x a s0) as (a' & Hfst & HR).
    by exists a'. }
  destruct (for_of (sampleDates_of (getDatesInCurrentYear currentYear))
              (tithis_body calendar sunTimer lat lng) [] s) as [[e|ts'] s1];
    cbn [fst snd] in *; [done|].
  eapply R_trans; [exact HR|exact (R_respond _ _ _)].
Qed.

Lemma run_immediate_steps s : R s (run_immediate calendar sunTimer s).
Proof.
  unfold run_immediate. destruct (immediates s) as [|b rest]; [apply R_refl|].
  eapply R_trans; [apply (R_dequeue s rest)|].
  apply (processBatch_steps calendar sunTimer R R_refl R_trans R_lookup
           R_console R_schedule).
Qed.

Lemma handle_steps req s :
  is_delete req = false -> R s (handle calendar sunTimer req s).
Proof.
  destruct req; intros Hreq; cbn [handle]; try discriminate.
  - apply get_panchang_steps.
  - apply post_cache_year_steps.
  - apply post_cache_year_no_body_steps.
  - apply get_search_tithi_steps.
  - apply get_tithis_steps.
  - exact (R_respond _ _ _).
  - apply run_immediate_steps.
Qed.

End Routes.

(** ** The caches only grow *)

Lemma caches_grow_refl s : caches_grow s s.
Proof. by split. Qed.

Lemma caches_grow_trans s1 s2 s3 :
  caches_grow s1 s2 -> caches_grow s2 s3 -> caches_grow s1 s3.
Proof. intros [H1 H2] [H3 H4]. split; intros k r Hk; auto. Qed.

Lemma getPanchangData_grows calendar sunTimer date lat lng s :
  caches_grow s (snd (getPanchangData calendar sunTimer date lat lng s)).
Proof.
  destruct (panchangCache s !! getCacheKey date lat lng) as [r|] eqn:Hlook.
  - rewrite (getPanchangData_hit _ _ _ _ _ _ _ Hlook). apply caches_grow_refl.
  - rewrite (getPanchangData_miss _ _ _ _ _ _ Hlook).
    destruct (computed calendar sunTimer date lat lng) as [msg|r]; [by split|].
    split; [|done]. intros k r' Hk. cbn [snd panchangCache store_record log_events].
    rewrite lookup_insert_ne; [done|]. intros <-. congruence.
Qed.

Lemma serve_snoc calendar sunTimer reqs req s :
  serve calendar sunTimer (reqs ++ [req]) s
  = handle calendar sunTimer req (serve calendar sunTimer reqs s).
Proof. unfold serve. by rewrite foldl_app. Qed.

Lemma handle_grows calendar sunTimer req s :
  is_delete req = false -> caches_grow s (handle calendar sunTimer req s).
Proof.
  apply (handle_steps calendar sunTimer caches_grow caches_grow_refl
           caches_grow_trans).
  - apply getPanchangData_grows.
  - by split.
  - by split.
  - by split.
  - by split.
  - intros tithi lat lng ms s0 Hkey _. split; [done|].
    intros k r Hk. cbn [snd tithiSearchCache_set tithiSearchCache].
    rewrite lookup_insert_ne; [done|]. intros <-. congruence.
Qed.

Lemma serve_grows calendar sunTimer reqs s :
  forallb (fun req => negb (is_delete req)) reqs = true ->
  caches_grow s (serve calendar sunTimer reqs s).
Proof.
  intros Hreqs.
  induction reqs as [|req reqs IH] using rev_ind; [apply caches_grow_refl|].
  rewrite forallb_app in Hreqs. apply andb_prop in Hreqs as [Hreqs Hreq].
  rewrite serve_snoc. eapply caches_grow_trans; [by apply IH|].
  apply handle_grows. simpl in Hreq. by destruct (is_delete req).
Qed.

(** X5. No request other than [DELETE /cache], and no queue callback,
    removes or replaces an entry of [panchangCache] or [tithiSearchCache]:
    what is cached before a run of such requests is cached, unchanged, after
    it; [DELETE /cache] leaves both maps empty. *)
Theorem caches_only_grow calendar sunTimer reqs s :
  forallb (fun req => negb (is_delete req)) reqs = true ->
  caches_grow s (serve calendar sunTimer reqs s)
  /\ panchangCache (handle calendar sunTimer DeleteCache
                      (serve calendar sunTimer reqs s)) = ∅
  /\ tithiSearchCache (handle calendar sunTimer DeleteCache
                         (serve calendar sunTimer reqs s)) = ∅.
Proof.
  intros Hreqs. split; [by apply serve_grows|by split].
Qed.

(** ** What every reachable state satisfies *)

Lemma computed_echo calendar sunTimer date lat lng r :
  computed calendar sunTimer date lat lng = inr r ->
  PanchangData.date r = date /\ PanchangData.latitude r = lat
  /\ PanchangData.longitude r = lng.
Proof.
  unfold computed. destruct (calendar date lat lng); [done|].
  destruct (sunTimer date lat lng); [done|]. by intros [= <-].
Qed.

Lemma getPanchangData_coherent calendar sunTimer date lat lng s :
  coherent calendar sunTimer s ->
  coherent calendar sunTimer (snd (getPanchangData calendar sunTimer date lat lng s)).
Proof.
  intros Hs.
  destruct (panchangCache s !! getCacheKey date lat lng) as [r|] eqn:Hlook.
  - by rewrite (getPanchangData_hit _ _ _ _ _ _ _ Hlook).
  - rewrite (getPanchangData_miss _ _ _ _ _ _ Hlook).
    destruct (computed calendar sunTimer date lat lng) as [msg|r] eqn:Hc; [exact Hs|].
    intros k r'. cbn [snd panchangCache store_record log_events].
    destruct (decide (k = getCacheKey date lat lng)) as [->|Hne].
    + rewrite lookup_insert_eq. intros [= <-].
      destruct (computed_echo _ _ _ _ _ _ Hc) as (-> & -> & ->). by split.
    + rewrite lookup_insert_ne by done. apply Hs.
Qed.

Lemma handle_invariant calendar sunTimer req s :
  coherent calendar sunTimer s /\ search_results_sound s ->
  coherent calendar sunTimer (handle calendar sunTimer req s)
  /\ search_results_sound (handle calendar sunTimer req s).
Proof.
  destruct (is_delete req) eqn:Hreq.
  { destruct req; try discriminate. intros _. split; intros k r Hk; simpl in Hk;
      by rewrite lookup_empty in Hk. }
  intros Hinv.
  refine (handle_steps calendar sunTimer
            (fun s s' => coherent calendar sunTimer s /\ search_results_sound s ->
                         coherent calendar sunTimer s' /\ search_results_sound s')
            _ _ _ _ _ _ _ _ req s Hreq Hinv); clear; try done.
  - intros s1 s2 s3. tauto.
  - intros date lat lng s [Hc Hs]. split; [by apply getPanchangData_coherent|].
    unfold search_results_sound.
    by rewrite (proj1 (getPanchangData_frame calendar sunTimer date lat lng s)).
  - intros tithi lat lng ms s _ Hms [Hc Hs]. split; [exact Hc|].
    intros k r. cbn [snd tithiSearchCache_set tithiSearchCache].
    destruct (decide (k = searchKey_of tithi lat lng)) as [->|Hne].
    + rewrite lookup_insert_eq. intros [= <-]. split; [done|]. exact Hms.
    + rewrite lookup_insert_ne by done. apply Hs.
Qed.

Lemma serve_sound calendar sunTimer reqs :
  coherent calendar sunTimer (serve calendar sunTimer reqs initial)
  /\ search_results_sound (serve calendar sunTimer reqs initial).
Proof.
  induction reqs as [|req reqs IH] using rev_ind.
  - split; intros k r Hk; simpl in Hk; by rewrite lookup_empty in Hk.
  - rewrite serve_snoc. by apply handle_invariant.
Qed.

(** X6. In every state the server reaches from start-up, whatever the
    requests and queue turns: each cached record is the library's result for
    the date and coordinates it echoes and sits under their key, so a lookup
    that returns gives a genuine result of the library; and each cached
    search result counts its matches rightly and, for a string term, holds
    only entries whose tithi equals the term up to letter case. *)
Theorem reachable_states_sound calendar sunTimer reqs :
  let s := serve calendar sunTimer reqs initial in
  coherent calendar sunTimer s
  /\ search_results_sound s
  /\ forall date lat lng r,
       record_at calendar sunTimer s date lat lng = Some r ->
       computed calendar sunTimer (PanchangData.date r) (PanchangData.latitude r)
         (PanchangData.longitude r) = inr r.
Proof.
  intros s.
  destruct (serve_sound calendar sunTimer reqs) as [Hc Hs]. fold s in Hc, Hs. split; [exact Hc|]. split; [exact Hs|].
  intros date lat lng r. rewrite record_at_eq.
  destruct (panchangCache s !! getCacheKey date lat lng) as [r'|] eqn:Hlook.
  - intros [= <-]. by apply (Hc _ _ Hlook).
  - destruct (computed calendar sunTimer date lat lng) as [msg|r'] eqn:Hcomp; [done|].
    intros [= <-]. by destruct (computed_echo _ _ _ _ _ _ Hcomp) as (-> & -> & ->).
Qed.

(** ** Responses *)

Lemma negb_orb3 a b c : negb a || negb b || negb c = negb (a && b && c).
Proof. by destruct a, b, c. Qed.

Lemma negb_orb2 a b : negb a || negb b = negb (a && b).
Proof. by destruct a, b. Qed.

Lemma falsy_values v :
  Js.truthy v = false <->
  v = Js.VUndefined \/ v = Js.VNull \/ v = Js.VBool false \/ v = Js.VNum 0
  \/ v = Js.VStr "".
Proof.
  split.
  - destruct v as [| |[]|n|t]; simpl; intros H; try discriminate; auto.
    + apply negb_false_iff, Z.eqb_eq in H. subst. auto 10.
    + apply negb_false_iff, String.eqb_eq in H. subst. auto 10.
  - intros [-> | [-> | [-> | [-> | ->]]]]; reflexivity.
Qed.

Lemma responds_once_log status b s s1 :
  extends_quietly s s1 -> responds_once status b s (log_events [Response status b] s1).
Proof.
  intros (evs & Htr & Hq). exists evs. split; [|exact Hq].
  cbn [trace log_events]. by rewrite Htr, <- app_assoc.
Qed.

(** With no parsed body the warm-up route logs the [TypeError] and
    answers 500; nothing else happens. *)
Lemma post_cache_year_no_body_run s :
  post_cache_year_no_body s
  = log_events
      [ConsoleError
         ("Error: "
          +:+ "Cannot destructure property 'lat' of 'req.body' as it is undefined.");
       Response 500 (JError "Internal server error")] s.
Proof.
  unfold post_cache_year_no_body, route, try_catch, throw, bind, console_error,
    res_json, emit.
  cbn [snd]. by rewrite log_events_app.
Qed.

Section Responses.

Variable calendar : Js.value -> Js.value -> Js.value -> string + CalendarResult.
Variable sunTimer : Js.value -> Js.value -> Js.value -> string + SunTimes.

Lemma get_panchang_rejects date lat lng s :
  Js.truthy date && Js.truthy lat && Js.truthy lng = false ->
  get_panchang calendar sunTimer date lat lng s
  = log_events [Response 400 (JError "Missing date, lat or lng")] s.
Proof.
  intros H. unfold get_panchang, route, try_catch. by rewrite negb_orb3, H.
Qed.

Lemma post_cache_year_rejects currentYear lat lng s :
  Js.truthy lat && Js.truthy lng = false ->
  post_cache_year calendar sunTimer currentYear lat lng s
  = log_events [Response 400 (JError "Missing lat or lng")] s.
Proof.
  intros H. unfold post_cache_year, route, try_catch. by rewrite negb_orb2, H.
Qed.

Lemma get_search_tithi_rejects currentYear tithi lat lng s :
  Js.truthy tithi && Js.truthy lat && Js.truthy lng = false ->
  get_search_tithi calendar sunTimer currentYear tithi lat lng s
  = log_events [Response 400 (JError "Missing tithi, lat or lng")] s.
Proof.
  intros H. unfold get_search_tithi, route, try_catch. by rewrite negb_orb3, H.
Qed.

Lemma get_tithis_rejects currentYear lat lng s :
  Js.truthy lat && Js.truthy lng = false ->
  get_tithis calendar sunTimer currentYear lat lng s
  = log_events [Response 400 (JError "Missing lat or lng")] s.
Proof.
  intros H. unfold get_tithis, route, try_catch. by rewrite negb_orb2, H.
Qed.

(** A served lookup answers with the record; a failed one is logged and
    answered with the generic error, the cache being as before. *)
Lemma get_panchang_answers date lat lng s :
  Js.truthy date && Js.truthy lat && Js.truthy lng = true ->
  let s' := get_panchang calendar sunTimer date lat lng s in
  match record_at calendar sunTimer s date lat lng with
  | Some r =>
      responds_once 200 (JPanchang r) s s'
      /\ panchangCache s' !! getCacheKey date lat lng = Some r
  | None =>
      responds_once 500 (JError "Internal server error") s s'
      /\ panchangCache s' = panchangCache s
      /\ exists msg,
           computed calendar sunTimer date lat lng = inl msg
           /\ ConsoleError ("Error: " +:+ ("Failed to calculate panchang: " +:+ msg))
              ∈ events_since s s'
  end.
Proof.
  intros H s'. subst s'. unfold get_panchang, route, try_catch.
  rewrite negb_orb3, H. cbn [negb]. unfold bind. rewrite record_at_eq.
  destruct (panchangCache s !! getCacheKey date lat lng) as [r|] eqn:Hlook.
  { rewrite (getPanchangData_hit _ _ _ _ _ _ _ Hlook). split; [|exact Hlook].
    apply responds_once_log, extends_quietly_refl. }
  rewrite (getPanchangData_miss _ _ _ _ _ _ Hlook).
  destruct (computed calendar sunTimer date lat lng) as [msg|r].
  - split; [|split; [done|]].
    + exists (computing_events calendar date lat lng ++
              [ConsoleError ("Error: " +:+ ("Failed to calculate panchang: " +:+ msg))]).
      split; [cbn; by rewrite <- !app_assoc|].
      apply Forall_app. split; [apply computing_events_quiet|by repeat constructor].
    + exists msg. split; [done|].
      erewrite events_since_app; [|cbn; by rewrite <- !app_assoc].
      rewrite !elem_of_app, list_elem_of_singleton. auto.
  - split; [|cbn; apply lookup_insert_eq].
    apply responds_once_log. exists (computing_events calendar date lat lng).
    split; [done|apply computing_events_quiet].
Qed.

Lemma processBatch_quiet b s :
  fst (processBatch calendar sunTimer b s) = inr tt
  /\ extends_quietly s (snd (processBatch calendar sunTimer b s)).
Proof.
  apply (processBatch_steps calendar sunTimer extends_quietly
           extends_quietly_refl extends_quietly_trans).
  - apply getPanchangData_quiet.
  - intros. apply extends_quietly_log. by repeat constructor.
  - intros. exists [SetImmediate]. split; [done|by repeat constructor].
Qed.

Lemma post_cache_year_answers currentYear lat lng s :
  Js.truthy lat && Js.truthy lng = true ->
  responds_once 200
    (JCacheYear "Year caching started"
       (List.length (getDatesInCurrentYear currentYear)) (location_of lat lng))
    s (post_cache_year calendar sunTimer currentYear lat lng s).
Proof.
  intros H. unfold post_cache_year, route, try_catch.
  rewrite negb_orb2, H. cbn [negb]. unfold bind.
  match goal with
  | |- context [processBatch _ _ ?b s] =>
      destruct (processBatch_quiet b s) as [Hfst Hq];
      destruct (processBatch calendar sunTimer b s) as [[e|u] s1]
  end; cbn [fst snd] in *; [done|].
  by apply responds_once_log.
Qed.

Lemma get_search_tithi_answers currentYear tithi lat lng s :
  Js.truthy tithi && Js.truthy lat && Js.truthy lng = true ->
  exists r,
    responds_once 200 (JSearch r) s
      (get_search_tithi calendar sunTimer currentYear tithi lat lng s).
Proof.
  intros H. unfold get_search_tithi, route, try_catch.
  rewrite negb_orb3, H. cbn [negb]. unfold bind at 1. unfold get_state.
  destruct (tithiSearchCache s !! searchKey_of tithi lat lng) as [cached|].
  { exists cached. apply responds_once_log, extends_quietly_refl. }
  unfold bind at 1.
  edestruct (for_of_steps extends_quietly extends_quietly_refl extends_quietly_trans
               (fun _ : list Match.t => True)
               (search_body calendar sunTimer tithi lat lng)
               (getDatesInCurrentYear currentYear))
    with (acc := @nil Match.t) (s := s) as (ms & Hfst & _ & Hq); [|done|].
  { intros x a s0 _.
    destruct (search_body_steps calendar sunTimer extends_quietly
                extends_quietly_trans (getPanchangData_quiet calendar sunTimer))
      with (tithi := tithi) (lat := lat) (lng := lng) (date := x) (acc := a) (s := s0)
      as (a' & Hfst & _ & HR).
    { intros. apply extends_quietly_log. by repeat constructor. }
    by exists a'. }
  destruct (for_of (getDatesInCurrentYear currentYear)
              (search_body calendar sunTimer tithi lat lng) [] s) as [[e|ms'] s1];
    cbn [fst snd] in *; [done|].
  eexists. apply responds_once_log.
  destruct Hq as (evs & Htr & Hevs). by exists evs.
Qed.

Lemma get_tithis_answers currentYear lat lng s :
  Js.truthy lat && Js.truthy lng = true ->
  exists tithis,
    responds_once 200
      (JTithis tithis (location_of lat lng) "Based on sample dates from current year")
      s (get_tithis calendar sunTimer currentYear lat lng s).
Proof.
  intros H. unfold get_tithis, route, try_catch.
  rewrite negb_orb2, H. cbn [negb]. unfold bind.
  edestruct (for_of_steps extends_quietly extends_quietly_refl extends_quietly_trans
               (fun _ : list string => True)
               (tithis_body calendar sunTimer lat lng)
               (sampleDates_of (getDatesInCurrentYear currentYear)))
    with (acc := @nil string) (s := s) as (ts & Hfst & _ & Hq); [|done|].
  { intros x a s0 _.
    destruct (tithis_body_steps calendar sunTimer extends_quietly
                extends_quietly_trans (getPanchangData_quiet calendar sunTimer))
      with (lat := lat) (lng := lng) (date := x) (acc := a) (s := s0)
      as (a' & Hfst & HR).
    { intros. apply extends_quietly_log. by repeat constructor. }
    by exists a'. }
  destruct (for_of (sampleDates_of (getDatesInCurrentYear currentYear))
              (tithis_body calendar sunTimer lat lng) [] s) as [[e|ts'] s1];
    cbn [fst snd] in *; [done|].
  eexists. by apply responds_once_log.
Qed.

Lemma run_immediate_quiet s : extends_quietly s (run_immediate calendar sunTimer s).
Proof.
  unfold run_immediate. destruct (immediates s) as [|b rest];
    [apply extends_quietly_refl|].
  eapply extends_quietly_trans; [|apply processBatch_quiet].
  exists []. split; [by rewrite app_nil_r|constructor].
Qed.

(** X2. Every request is answered exactly once, and the response is the
    last thing its handler does; a callback run from the [setImmediate]
    queue writes no response. *)
Theorem every_request_answered_once req s :
  match req with
  | Immediate => extends_quietly s (handle calendar sunTimer req s)
  | _ => exists status b, responds_once status b s (handle calendar sunTimer req s)
  end.
Proof.
  destruct req as [date lat lng|y lat lng| |y tithi lat lng|y lat lng| | |];
    cbn [handle].
  - destruct (Js.truthy date && Js.truthy lat && Js.truthy lng) eqn:H.
    + pose proof (get_panchang_answers date lat lng s H) as Hans.
      destruct (record_at calendar sunTimer s date lat lng);
        destruct Hans as [Hans _]; eauto.
    + rewrite (get_panchang_rejects _ _ _ _ H). eexists _, _.
      apply responds_once_log, extends_quietly_refl.
  - destruct (Js.truthy lat && Js.truthy lng) eqn:H.
    + eexists _, _. by apply post_cache_year_answers.
    + rewrite (post_cache_year_rejects _ _ _ _ H). eexists _, _.
      apply responds_once_log, extends_quietly_refl.
  - rewrite post_cache_year_no_body_run. eexists _, _, [ConsoleError _].
    split; [reflexivity|by repeat constructor].
  - destruct (Js.truthy tithi && Js.truthy lat && Js.truthy lng) eqn:H.
    + destruct (get_search_tithi_answers y tithi lat lng s H) as [r Hr]. eauto.
    + rewrite (get_search_tithi_rejects _ _ _ _ _ H). eexists _, _.
      apply responds_once_log, extends_quietly_refl.
  - destruct (Js.truthy lat && Js.truthy lng) eqn:H.
    + destruct (get_tithis_answers y lat lng s H) as [ts Hts]. eauto.
    + rewrite (get_tithis_rejects _ _ _ _ H). eexists _, _.
      apply responds_once_log, extends_quietly_refl.
  - eexists _, _. apply responds_once_log, extends_quietly_refl.
  - eexists _, _. unfold delete_cache, caches_clear, bind, res_json, emit. cbn [snd].
    apply responds_once_log. exists []. split; [by rewrite app_nil_r|constructor].
  - apply run_immediate_quiet.
Qed.

(** X3. A request with a required parameter that is missing, [null],
    [false], the number 0 or the empty string is answered 400 with the
    route's message and has no other effect: caches, queue and trace are
    otherwise as before, and the library is not called.  For
    [POST /cache-year] that holds when the body was parsed; when it was
    not, [req.body] is [undefined], the destructuring throws, and the
    route logs the error and answers 500, again with no other effect. *)
Theorem missing_parameters_rejected s :
  (forall v, Js.truthy v = false <->
             v = Js.VUndefined \/ v = Js.VNull \/ v = Js.VBool false
             \/ v = Js.VNum 0 \/ v = Js.VStr "")
  /\ (forall date lat lng,
        Js.truthy date && Js.truthy lat && Js.truthy lng = false ->
        get_panchang calendar sunTimer date lat lng s
        = log_events [Response 400 (JError "Missing date, lat or lng")] s)
  /\ (forall currentYear lat lng,
        Js.truthy lat && Js.truthy lng = false ->
        post_cache_year_of_body calendar sunTimer currentYear (Some (lat, lng)) s
        = log_events [Response 400 (JError "Missing lat or lng")] s)
  /\ (forall currentYear,
        exists message,
          post_cache_year_of_body calendar sunTimer currentYear None s
          = log_events [ConsoleError ("Error: " +:+ message);
                        Response 500 (JError "Internal server error")] s)
  /\ (forall currentYear tithi lat lng,
        Js.truthy tithi && Js.truthy lat && Js.truthy lng = false ->
        get_search_tithi calendar sunTimer currentYear tithi lat lng s
        = log_events [Response 400 (JError "Missing tithi, lat or lng")] s)
  /\ (forall currentYear lat lng,
        Js.truthy lat && Js.truthy lng = false ->
        get_tithis calendar sunTimer currentYear lat lng s
        = log_events [Response 400 (JError "Missing lat or lng")] s).
Proof.
  split; [apply falsy_values|].
  split; [intros; by apply get_panchang_rejects|].
  split; [intros; by apply post_cache_year_rejects|].
  split; [intros; eexists; apply post_cache_year_no_body_run|].
  split; [intros; by apply get_search_tithi_rejects|].
  intros; by apply get_tithis_rejects.
Qed.

(** X4. With all its parameters truthy, [GET /panchang] answers 200 with
    the record a lookup returns, which is cached afterwards, or, when the
    computation throws, logs the error, answers 500 with the generic message
    and caches nothing; the warm-up, search and suggestion routes answer 200
    whatever the library does. *)
Theorem accepted_requests_status s :
  (forall date lat lng,
     Js.truthy date && Js.truthy lat && Js.truthy lng = true ->
     let s' := get_panchang calendar sunTimer date lat lng s in
     match record_at calendar sunTimer s date lat lng with
     | Some r =>
         responds_once 200 (JPanchang r) s s'
         /\ panchangCache s' !! getCacheKey date lat lng = Some r
     | None =>
         responds_once 500 (JError "Internal server error") s s'
         /\ panchangCache s' = panchangCache s
         /\ exists msg,
              computed calendar sunTimer date lat lng = inl msg
              /\ ConsoleError ("Error: " +:+ ("Failed to calculate panchang: " +:+ msg))
                 ∈ events_since s s'
     end)
  /\ (forall currentYear lat lng,
        Js.truthy lat && Js.truthy lng = true ->
        responds_once 200
          (JCacheYear "Year caching started"
             (List.length (getDatesInCurrentYear currentYear)) (location_of lat lng))
          s (post_cache_year calendar sunTimer currentYear lat lng s))
  /\ (forall currentYear tithi lat lng,
        Js.truthy tithi && Js.truthy lat && Js.truthy lng = true ->
        exists r,
          responds_once 200 (JSearch r) s
            (get_search_tithi calendar sunTimer currentYear tithi lat lng s))
  /\ (forall currentYear lat lng,
        Js.truthy lat && Js.truthy lng = true ->
        exists tithis,
          responds_once 200
            (JTithis tithis (location_of lat lng)
               "Based on sample dates from current year")
            s (get_tithis calendar sunTimer currentYear lat lng s)).
Proof.
  split; [intros; by apply get_panchang_answers|].
  split; [intros; by apply post_cache_year_answers|].
  split; [intros; by apply get_search_tithi_answers|].
  intros; by apply get_tithis_answers.
Qed.

End Responses.

(** ** Repeated requests *)

Section Repeats.

Variable calendar : Js.value -> Js.value -> Js.value -> string + CalendarResult.
Variable sunTimer : Js.value -> Js.value -> Js.value -> string + SunTimes.

Lemma record_at_congr s1 s2 date lat lng :
  panchangCache s1 = panchangCache s2 ->
  record_at calendar sunTimer s1 date lat lng
  = record_at calendar sunTimer s2 date lat lng.
Proof. intros H. by rewrite !record_at_eq, H. Qed.

Lemma get_panchang_hit date lat lng s cached :
  Js.truthy date && Js.truthy lat && Js.truthy lng = true ->
  panchangCache s !! getCacheKey date lat lng = Some cached ->
  get_panchang calendar sunTimer date lat lng s
  = log_events [Response 200 (JPanchang cached)] s.
Proof.
  intros H Hhit. unfold get_panchang, route, try_catch.
  rewrite negb_orb3, H. cbn [negb]. unfold bind.
  by rewrite (getPanchangData_hit _ _ _ _ _ _ _ Hhit).
Qed.

Lemma get_search_tithi_hit currentYear tithi lat lng s cached :
  Js.truthy tithi && Js.truthy lat && Js.truthy lng = true ->
  tithiSearchCache s !! searchKey_of tithi lat lng = Some cached ->
  get_search_tithi calendar sunTimer currentYear tithi lat lng s
  = log_events [Response 200 (JSearch cached)] s.
Proof.
  intros H Hhit. unfold get_search_tithi, route, try_catch.
  rewrite negb_orb3, H. cbn [negb]. unfold bind, get_state. by rewrite Hhit.
Qed.

(** X7. Once [GET /panchang] has answered 200 with a record, every later
    identical request is answered with that same record, with no call of the
    library and no change of state but the response, whatever requests other
    than [DELETE /cache] and queue turns come in between. *)
Theorem served_record_is_reused date lat lng s r reqs :
  Js.truthy date && Js.truthy lat && Js.truthy lng = true ->
  record_at calendar sunTimer s date lat lng = Some r ->
  forallb (fun req => negb (is_delete req)) reqs = true ->
  let s1 := get_panchang calendar sunTimer date lat lng s in
  let s2 := serve calendar sunTimer reqs s1 in
  responds_once 200 (JPanchang r) s s1
  /\ get_panchang calendar sunTimer date lat lng s2
     = log_events [Response 200 (JPanchang r)] s2.
Proof.
  intros H Hr Hreqs s1 s2.
  pose proof (get_panchang_answers calendar sunTimer date lat lng s H) as Hans.
  rewrite Hr in Hans. destruct Hans as [Hresp Hcached]. split; [exact Hresp|].
  apply get_panchang_hit; [exact H|].
  by apply (serve_grows calendar sunTimer reqs s1 Hreqs).
Qed.

(** X8. A search result, once computed, is returned as it is to every later
    request with the same term and coordinates, with no scan, whatever
    requests other than [DELETE /cache] come in between and whatever the
    year then is: the key of [tithiSearchCache] holds no year. *)
Theorem search_result_is_reused year year' (t : string) lat lng s reqs :
  t <> "" -> Js.truthy lat = true -> Js.truthy lng = true ->
  tithiSearchCache s !! searchKey_of (Js.VStr t) lat lng = None ->
  forallb (fun req => negb (is_delete req)) reqs = true ->
  let s1 := get_search_tithi calendar sunTimer year (Js.VStr t) lat lng s in
  let s2 := serve calendar sunTimer reqs s1 in
  exists result,
    last (trace s1) = Some (Response 200 (JSearch result))
    /\ get_search_tithi calendar sunTimer year' (Js.VStr t) lat lng s2
       = log_events [Response 200 (JSearch result)] s2.
Proof.
  intros Ht Hlat Hlng Hmiss Hreqs s1 s2. eexists. split.
  - unfold s1. rewrite (get_search_tithi_miss _ _ _ _ _ _ _ Ht Hlat Hlng Hmiss).
    cbn [trace log_events]. apply last_snoc.
  - apply get_search_tithi_hit; [by rewrite (truthy_VStr t Ht), Hlat, Hlng|].
    apply (serve_grows calendar sunTimer reqs s1 Hreqs). unfold s1.
    rewrite (get_search_tithi_miss _ _ _ _ _ _ _ Ht Hlat Hlng Hmiss).
    cbn [tithiSearchCache log_events]. apply lookup_insert_eq.
Qed.

Lemma matching_lower t t' record :
  Js.toLowerCase t = Js.toLowerCase t' -> matching t record = matching t' record.
Proof. intros H. unfold matching. by rewrite H. Qed.

(** X9. Two searches in the same year whose terms are equal up to letter
    case find the same matches: the second, run after the first, stores a
    result with the same list and count, and calls the library only for dates
    whose lookup failed during the first. *)
Theorem search_ignores_case year (t t' : string) lat lng s :
  t <> "" -> t' <> "" -> t <> t' ->
  Js.toLowerCase t = Js.toLowerCase t' ->
  Js.truthy lat = true -> Js.truthy lng = true ->
  tithiSearchCache s !! searchKey_of (Js.VStr t) lat lng = None ->
  tithiSearchCache s !! searchKey_of (Js.VStr t') lat lng = None ->
  let s1 := get_search_tithi calendar sunTimer year (Js.VStr t) lat lng s in
  let s2 := get_search_tithi calendar sunTimer year (Js.VStr t') lat lng s1 in
  exists r r',
    tithiSearchCache s2 !! searchKey_of (Js.VStr t) lat lng = Some r
    /\ tithiSearchCache s2 !! searchKey_of (Js.VStr t') lat lng = Some r'
    /\ last (trace s2) = Some (Response 200 (JSearch r'))
    /\ SearchResult.dates r' = SearchResult.dates r
    /\ SearchResult.totalMatches r' = SearchResult.totalMatches r
    /\ forall d, CalendarCall (Js.VStr d) lat lng ∈ events_since s1 s2 ->
                 record_at calendar sunTimer s (Js.VStr d) lat lng = None.
Proof.
  intros Ht Ht' Hne Hlow Hlat Hlng Hmiss Hmiss' s1 s2.
  assert (Hkeys : searchKey_of (Js.VStr t) lat lng <> searchKey_of (Js.VStr t') lat lng)
    by (intros Heq; by apply searchKey_of_term_inj in Heq).
  pose proof (get_search_tithi_miss calendar sunTimer year t lat lng s
                Ht Hlat Hlng Hmiss) as Hs1.
  cbv zeta in Hs1. fold s1 in Hs1.
  set (ds := getDatesInCurrentYear year) in *.
  assert (Hmiss1 : tithiSearchCache s1 !! searchKey_of (Js.VStr t') lat lng = None).
  { rewrite Hs1. cbn [tithiSearchCache log_events]. by rewrite lookup_insert_ne. }
  assert (Hcache1 : panchangCache s1
            = panchangCache (sweep calendar sunTimer "Error processing " lat lng s ds))
    by (by rewrite Hs1).
  pose proof (get_search_tithi_miss calendar sunTimer year t' lat lng s1
                Ht' Hlat Hlng Hmiss1) as Hs2.
  cbv zeta in Hs2. fold s2 ds in Hs2.
  assert (Hsame : flat_map (fun d => matching t'
                      (record_at calendar sunTimer s1 (Js.VStr d) lat lng)) ds
                  = flat_map (fun d => matching t
                      (record_at calendar sunTimer s (Js.VStr d) lat lng)) ds).
  { apply flat_map_ext. intros d.
    rewrite (record_at_congr s1 _ _ _ _ Hcache1), sweep_record_at.
    by apply matching_lower. }
  eexists _, _. split; [|split; [|split; [|split; [|split]]]].
  - rewrite Hs2. cbn [tithiSearchCache log_events].
    rewrite lookup_insert_ne by done. rewrite Hs1.
    cbn [tithiSearchCache log_events]. apply lookup_insert_eq.
  - rewrite Hs2. cbn [tithiSearchCache log_events]. apply lookup_insert_eq.
  - rewrite Hs2. cbn [trace log_events]. apply last_snoc.
  - cbn [SearchResult.dates]. exact Hsame.
  - cbn [SearchResult.totalMatches]. by rewrite Hsame.
  - intros d Hd.
    destruct (sweep_events calendar sunTimer "Error processing " lat lng ds s1)
      as (evs & Htr & _ & _ & Hfrom & _).
    assert (Hevs : events_since s1 s2 = evs ++ [Response 200 (JSearch
              {| SearchResult.tithi := Js.VStr t';
                 SearchResult.location := location_of lat lng;
                 SearchResult.totalMatches := List.length
                   (flat_map (fun d => matching t'
                      (record_at calendar sunTimer s1 (Js.VStr d) lat lng)) ds);
                 SearchResult.dates :=
                   flat_map (fun d => matching t'
                      (record_at calendar sunTimer s1 (Js.VStr d) lat lng)) ds |})]).
    { apply events_since_app. rewrite Hs2. cbn [trace log_events].
      by rewrite Htr, <- app_assoc. }
    rewrite Hevs in Hd. apply elem_of_app in Hd as [Hd|Hd];
      [|by apply list_elem_of_singleton in Hd].
    destruct (Hfrom _ _ _ Hd) as (d' & [= <-] & _ & _ & Hin & Hnone).
    rewrite Hcache1, (sweep_lookup calendar sunTimer _ _ _ _ _ _ Hin) in Hnone.
    exact Hnone.
Qed.

(** X10. [GET /tithis] asked twice in a row for the same year and
    coordinates answers twice with the same list; the second time the
    library is called only for sampled dates whose lookup failed the first
    time. *)
Theorem tithis_repeat_same_answer year lat lng s :
  Js.truthy lat = true -> Js.truthy lng = true ->
  let s1 := get_tithis calendar sunTimer year lat lng s in
  let s2 := get_tithis calendar sunTimer year lat lng s1 in
  last (trace s2) = last (trace s1)
  /\ forall d, CalendarCall (Js.VStr d) lat lng ∈ events_since s1 s2 ->
               record_at calendar sunTimer s (Js.VStr d) lat lng = None.
Proof.
  intros Hlat Hlng s1 s2.
  pose proof (get_tithis_run calendar sunTimer year lat lng s Hlat Hlng) as Hs1.
  pose proof (get_tithis_run calendar sunTimer year lat lng s1 Hlat Hlng) as Hs2.
  cbv zeta in Hs1, Hs2. fold s1 in Hs1, Hs2. fold s2 in Hs2.
  set (sample := sampleDates_of (getDatesInCurrentYear year)) in *.
  assert (Hcache1 : panchangCache s1
            = panchangCache (sweep calendar sunTimer "Error processing " lat lng s sample))
    by (by rewrite Hs1).
  assert (Hsame : foldl (fun a d => collect_tithi
                     (record_at calendar sunTimer s1 (Js.VStr d) lat lng) a) [] sample
                  = foldl (fun a d => collect_tithi
                     (record_at calendar sunTimer s (Js.VStr d) lat lng) a) [] sample).
  { apply foldl_ext_all. intros a d.
    by rewrite (record_at_congr s1 _ _ _ _ Hcache1), sweep_record_at. }
  split.
  - rewrite Hs2. cbn [trace log_events]. rewrite last_snoc, Hsame, Hs1.
    cbn [trace log_events]. by rewrite last_snoc.
  - intros d Hd.
    destruct (sweep_events calendar sunTimer "Error processing " lat lng sample s1)
      as (evs & Htr & _ & _ & Hfrom & _).
    erewrite events_since_app in Hd;
      [|rewrite Hs2; cbn [trace log_events]; by rewrite Htr, <- app_assoc].
    apply elem_of_app in Hd as [Hd|Hd]; [|by apply list_elem_of_singleton in Hd].
    destruct (Hfrom _ _ _ Hd) as (d' & [= <-] & _ & _ & Hin & Hnone).
    rewrite Hcache1, (sweep_lookup calendar sunTimer _ _ _ _ _ _ Hin) in Hnone.
    exact Hnone.
Qed.

End Repeats.

(** ** The year's dates, for every year *)

Lemma getDatesInCurrentYear_prefixed (y : Z) :
  getDatesInCurrentYear y
  = map (String.append (pretty y +:+ "-"))
      (Iso.month_days_of (JsDate.is_leap (JsDate.full_year y))).
Proof.
  unfold getDatesInCurrentYear, Iso.month_days_of. rewrite map_of_flat_map.
  apply flat_map_ext_In. intros m Hm%in_seq.
  unfold JsDate.last_day_of_month, JsDate.month_length. rewrite map_map.
  apply map_ext_in. intros d Hd%in_seq.
  pose proof (days_of_month_le (JsDate.is_leap (JsDate.full_year y)) m).
  unfold dateStr, Iso.month_day. rewrite !padLeft_two_digits by lia.
  by rewrite append_assoc.
Qed.

Lemma getDatesInCurrentYear_NoDup (y : Z) : NoDup (getDatesInCurrentYear y).
Proof.
  rewrite getDatesInCurrentYear_prefixed.
  change (@map string string) with (@fmap list _ string string).
  apply NoDup_fmap_2; [apply _|].
  destruct (JsDate.is_leap (JsDate.full_year y));
    apply (bool_decide_unpack _); vm_compute; exact I.
Qed.

Section WarmUp.

Variable calendar : Js.value -> Js.value -> Js.value -> string + CalendarResult.
Variable sunTimer : Js.value -> Js.value -> Js.value -> string + SunTimes.

Lemma post_cache_year_run currentYear lat lng s :
  Js.truthy lat = true -> Js.truthy lng = true ->
  post_cache_year calendar sunTimer currentYear lat lng s
  = log_events
      [Response 200 (JCacheYear "Year caching started"
                       (List.length (getDatesInCurrentYear currentYear))
                       (location_of lat lng))]
      (snd (processBatch calendar sunTimer
              {| dates := getDatesInCurrentYear currentYear; lat := lat; lng := lng;
                 currentBatch := 0; cachedCount := 0 |} s)).
Proof.
  intros Hlat Hlng. unfold post_cache_year, route, try_catch.
  rewrite Hlat, Hlng. cbn [negb orb]. unfold bind.
  match goal with
  | |- context [processBatch _ _ ?b s] =>
      destruct (processBatch_quiet calendar sunTimer b s) as [Hfst _];
      destruct (processBatch calendar sunTimer b s) as [[e|u] s1]
  end; cbn [fst snd] in *; [done|reflexivity].
Qed.

Lemma run_immediates_drain n b s :
  immediates s = [b] ->
  (currentBatch b * batchSize < List.length (dates b))%nat ->
  (List.length (dates b) <= (currentBatch b + n) * batchSize)%nat ->
  immediates (run_immediates calendar sunTimer n s) = []
  /\ panchangCache (run_immediates calendar sunTimer n s)
     = panchangCache (sweep calendar sunTimer "Error caching " (lat b) (lng b) s
                        (drop (currentBatch b * batchSize) (dates b))).
Proof.
  intros Hq Hpending Hlen. destruct n as [|n]; [lia|].
  cbn [run_immediates]. unfold run_immediate. rewrite Hq.
  set (s0 := {| panchangCache := panchangCache s;
                tithiSearchCache := tithiSearchCache s;
                immediates := []; trace := trace s |}).
  destruct (processBatch_then_drain calendar sunTimer n b s0) as [Hidle Hc];
    [done|lia|].
  split; [exact Hidle|]. rewrite Hc. by apply sweep_cache_congr.
Qed.

(** With nothing else queued, seven turns of the event loop after the
    warm-up request finish the year. *)
Lemma warm_up_cache currentYear la ln s :
  Js.truthy la = true -> Js.truthy ln = true -> immediates s = [] ->
  let final := run_immediates calendar sunTimer 7
                 (post_cache_year calendar sunTimer currentYear la ln s) in
  immediates final = []
  /\ panchangCache final
     = panchangCache (sweep calendar sunTimer "Error caching " la ln s
                        (getDatesInCurrentYear currentYear)).
Proof.
  intros Hlat Hlng Hidle final. subst final.
  rewrite (post_cache_year_run _ _ _ _ Hlat Hlng).
  set (ds := getDatesInCurrentYear currentYear).
  assert (Hlen : (List.length ds = 365 \/ List.length ds = 366)%nat).
  { unfold ds. rewrite getDatesInCurrentYear_length.
    destruct (JsDate.is_leap _); auto. }
  set (b0 := {| dates := ds; lat := la; lng := ln;
                currentBatch := 0; cachedCount := 0 |}).
  destruct (processBatch_run calendar sunTimer b0 s) as [c Hrun].
  cbn [dates lat lng currentBatch b0] in Hrun.
  rewrite decide_True in Hrun by (unfold batchSize; lia).
  change (drop (0 * batchSize) ds) with ds in Hrun.
  rewrite sweep_immediates, Hidle in Hrun. cbn [app] in Hrun.
  rewrite Hrun. cbn [snd].
  match goal with
  | |- context [run_immediates _ _ 7 ?st] => set (s1 := st)
  end.
  destruct (run_immediates_drain 7
              {| dates := ds; lat := la; lng := ln;
                 currentBatch := 1; cachedCount := c |} s1) as [Hq Hc];
    [done|cbn [dates currentBatch]; unfold batchSize; lia
     |cbn [dates currentBatch]; unfold batchSize; lia|].
  split; [exact Hq|]. rewrite Hc. cbn [dates lat lng currentBatch].
  replace (1 * batchSize)%nat with batchSize by lia.
  transitivity (panchangCache
                  (sweep calendar sunTimer "Error caching " la ln s
                     (take batchSize ds ++ drop batchSize ds)));
    [|by rewrite take_drop].
  rewrite sweep_app. by apply sweep_cache_congr.
Qed.

Ltac same_search_cache_side :=
  first [ exact same_search_cache_refl
        | exact same_search_cache_trans
        | exact (getPanchangData_same_search_cache calendar sunTimer)
        | intros; reflexivity ].

Lemma warm_up_search_cache currentYear la ln s :
  tithiSearchCache (run_immediates calendar sunTimer 7
                      (post_cache_year calendar sunTimer currentYear la ln s))
  = tithiSearchCache s.
Proof.
  assert (Hturns : forall n s0,
            same_search_cache s0 (run_immediates calendar sunTimer n s0)).
  { induction n as [|n IH]; intros s0; [reflexivity|].
    cbn [run_immediates]. eapply same_search_cache_trans; [|apply IH].
    apply (run_immediate_steps calendar sunTimer same_search_cache);
      same_search_cache_side. }
  eapply same_search_cache_trans; [|apply Hturns].
  apply (post_cache_year_steps calendar sunTimer same_search_cache);
    same_search_cache_side.
Qed.

Lemma sweep_all_cached prefix la ln ds s :
  (forall d, d ∈ ds -> is_Some (panchangCache s !! getCacheKey (Js.VStr d) la ln)) ->
  sweep calendar sunTimer prefix la ln s ds = s.
Proof.
  induction ds as [|x ds IH]; intros Hall; [done|].
  rewrite sweep_cons, visit_eq.
  destruct (Hall x ltac:(by left)) as [r ->]. apply IH.
  intros d Hd. apply Hall. by right.
Qed.

(** X11. A warm-up for a location none of whose dates is cached, followed
    by seven turns of the event loop with nothing else queued, empties the
    queue and enlarges [panchangCache] by exactly one entry for each date of
    the year whose computation succeeds, which is what [GET /cache-stats]
    then reports; with no failing date that is the number of days of the
    year. *)
Theorem warm_up_fills_cache currentYear la ln s :
  Js.truthy la = true -> Js.truthy ln = true -> immediates s = [] ->
  let ds := getDatesInCurrentYear currentYear in
  (forall d, d ∈ ds -> panchangCache s !! getCacheKey (Js.VStr d) la ln = None) ->
  let final := run_immediates calendar sunTimer 7
                 (post_cache_year calendar sunTimer currentYear la ln s) in
  let succeeded :=
    filter (fun d => is_Some (record_at calendar sunTimer s (Js.VStr d) la ln)) ds in
  immediates final = []
  /\ size (panchangCache final)
     = (size (panchangCache s) + List.length succeeded)%nat
  /\ get_cache_stats final
     = log_events
         [Response 200 (JStats (size (panchangCache s) + List.length succeeded)
                          (size (tithiSearchCache s)) "Cache statistics")] final
  /\ ((forall d, d ∈ ds -> is_Some (record_at calendar sunTimer s (Js.VStr d) la ln)) ->
      List.length succeeded
      = if JsDate.is_leap (JsDate.full_year currentYear) then 366%nat else 365%nat).
Proof.
  intros Hlat Hlng Hidle ds Hcold final succeeded.
  destruct (warm_up_cache currentYear la ln s Hlat Hlng Hidle) as [Hq Hc].
  fold final ds in Hq, Hc.
  set (keys := (fun d => getCacheKey (Js.VStr d) la ln) <$> succeeded).
  assert (Hdom : dom (panchangCache final)
                 = dom (panchangCache s) ∪ list_to_set (C := gset string) keys).
  { apply set_eq. intros k.
    rewrite elem_of_union, !elem_of_dom, elem_of_list_to_set, Hc.
    unfold keys. rewrite list_elem_of_fmap.
    assert (Hcase : (exists d, d ∈ ds /\ k = getCacheKey (Js.VStr d) la ln)
                    \/ ~ (exists d, d ∈ ds /\ k = getCacheKey (Js.VStr d) la ln)).
    { destruct (decide (k ∈ (fun d => getCacheKey (Js.VStr d) la ln) <$> ds))
        as [Hin|Hout]; [left|right].
      - apply list_elem_of_fmap in Hin as (d & -> & Hd). eauto.
      - intros (d & Hd & ->). apply Hout, list_elem_of_fmap. eauto. }
    destruct Hcase as [(d & Hd & ->)|Hnot].
    - rewrite (sweep_lookup calendar sunTimer _ _ _ _ _ _ Hd), (Hcold d Hd). split.
      + intros Hsome. right. exists d. split; [done|].
        by apply list_elem_of_filter.
      + intros [[? [=]]|(d' & Hkey & Hd')]. apply getCacheKey_date_inj in Hkey as <-.
        by apply list_elem_of_filter in Hd' as [? _].
    - rewrite sweep_lookup_other by (intros d Hd ->; apply Hnot; eauto). split.
      + by left.
      + intros [?|(d & -> & Hd)]; [done|]. exfalso. apply Hnot. exists d.
        split; [|done]. by apply list_elem_of_filter in Hd as [_ ?]. }
  assert (Hsize : size (panchangCache final)
                  = (size (panchangCache s) + List.length succeeded)%nat).
  { rewrite <- !size_dom, Hdom, size_union.
    - rewrite size_list_to_set; [by unfold keys; rewrite length_fmap|].
      unfold keys. apply NoDup_fmap_2.
      + intros d1 d2 Heq. by apply getCacheKey_date_inj in Heq.
      + apply NoDup_filter, getDatesInCurrentYear_NoDup.
    - intros k Hk%elem_of_dom Hin%elem_of_list_to_set.
      unfold keys in Hin. apply list_elem_of_fmap in Hin as (d & -> & Hd).
      apply list_elem_of_filter in Hd as [_ Hd]. rewrite (Hcold d Hd) in Hk.
      by destruct Hk. }
  split; [exact Hq|]. split; [exact Hsize|]. split.
  - pose proof (warm_up_search_cache currentYear la ln s) as Hsearch.
    fold final in Hsearch.
    unfold get_cache_stats, res_json, emit. cbn [snd]. by rewrite Hsize, Hsearch.
  - intros Hall. unfold succeeded.
    rewrite <- (getDatesInCurrentYear_length currentYear). fold ds.
    f_equal. clear -Hall. induction ds as [|x l IH]; [done|].
    rewrite filter_cons_True by (apply Hall; by left).
    f_equal. apply IH. intros d Hd. apply Hall. by right.
Qed.

(** X12. A first search of the year after a completed warm-up of the same
    location calls the library only for dates whose computation failed
    during the warm-up; if none failed its only effect besides the new entry
    of [tithiSearchCache] is the response. *)
Theorem search_after_warm_up currentYear (t : string) la ln s :
  t <> "" -> Js.truthy la = true -> Js.truthy ln = true -> immediates s = [] ->
  tithiSearchCache s !! searchKey_of (Js.VStr t) la ln = None ->
  let ds := getDatesInCurrentYear currentYear in
  let final := run_immediates calendar sunTimer 7
                 (post_cache_year calendar sunTimer currentYear la ln s) in
  let s' := get_search_tithi calendar sunTimer currentYear (Js.VStr t) la ln final in
  (forall d, CalendarCall (Js.VStr d) la ln ∈ events_since final s' ->
             record_at calendar sunTimer s (Js.VStr d) la ln = None)
  /\ ((forall d, d ∈ ds -> is_Some (record_at calendar sunTimer s (Js.VStr d) la ln)) ->
      exists result,
        events_since final s' = [Response 200 (JSearch result)]
        /\ panchangCache s' = panchangCache final
        /\ SearchResult.dates result
           = flat_map (fun d => matching t
                         (record_at calendar sunTimer s (Js.VStr d) la ln)) ds).
Proof.
  intros Ht Hlat Hlng Hidle Hmiss ds final s'.
  destruct (warm_up_cache currentYear la ln s Hlat Hlng Hidle) as [_ Hc].
  fold final ds in Hc.
  assert (Hmiss' : tithiSearchCache final !! searchKey_of (Js.VStr t) la ln = None)
    by (unfold final; by rewrite warm_up_search_cache).
  pose proof (get_search_tithi_miss calendar sunTimer currentYear t la ln final
                Ht Hlat Hlng Hmiss') as Hs'.
  cbv zeta in Hs'. fold ds s' in Hs'.
  assert (Hlook : forall d, d ∈ ds ->
            panchangCache final !! getCacheKey (Js.VStr d) la ln
            = record_at calendar sunTimer s (Js.VStr d) la ln)
    by (intros d Hd; rewrite Hc; by apply sweep_lookup).
  split.
  - intros d Hd.
    destruct (sweep_events calendar sunTimer "Error processing " la ln ds final)
      as (evs & Htr & _ & _ & Hfrom & _).
    erewrite events_since_app in Hd;
      [|rewrite Hs'; cbn [trace log_events]; by rewrite Htr, <- app_assoc].
    apply elem_of_app in Hd as [Hd|Hd]; [|by apply list_elem_of_singleton in Hd].
    destruct (Hfrom _ _ _ Hd) as (d' & [= <-] & _ & _ & Hin & Hnone).
    by rewrite (Hlook _ Hin) in Hnone.
  - intros Hall.
    assert (Hwarm : sweep calendar sunTimer "Error processing " la ln final ds = final).
    { apply sweep_all_cached. intros d Hd. rewrite (Hlook d Hd). by apply Hall. }
    rewrite Hwarm in Hs'. eexists. split; [|split].
    + apply events_since_app. rewrite Hs'. reflexivity.
    + by rewrite Hs'.
    + cbn [SearchResult.dates]. apply flat_map_ext. intros d.
      f_equal. rewrite (record_at_congr calendar sunTimer final _ _ _ _ Hc).
      apply sweep_record_at.
Qed.

End WarmUp.

(** ** The server without caches, and what each route leaves alone *)

Lemma responds_once_last status b s s' :
  responds_once status b s s' -> last (trace s') = Some (Response status b).
Proof. intros (evs & -> & _). by rewrite app_assoc, last_snoc. Qed.

Section Transparency.

Variable calendar : Js.value -> Js.value -> Js.value -> string + CalendarResult.
Variable sunTimer : Js.value -> Js.value -> Js.value -> string + SunTimes.

Lemma get_panchang_uncached_run date lat lng s :
  Js.truthy date && Js.truthy lat && Js.truthy lng = true ->
  get_panchang_uncached calendar sunTimer date lat lng s
  = match computed calendar sunTimer date lat lng with
    | inr r =>
        log_events (computing_events calendar date lat lng
                    ++ [Response 200 (JPanchang r)]) s
    | inl msg =>
        log_events (computing_events calendar date lat lng
                    ++ [ConsoleError ("Error: " +:+ msg);
                        Response 500 (JError "Internal server error")]) s
    end.
Proof.
  intros H. unfold get_panchang_uncached, route, try_catch.
  rewrite negb_orb3, H. cbn [negb].
  unfold bind, call_calendar, call_sunTimer, computed, computing_events,
    res_json, console_error, emit, throw, ret, bind.
  destruct (calendar date lat lng) as [msg|result]; cbn [snd];
    [by rewrite !log_events_app|].
  destruct (sunTimer date lat lng) as [msg|sun]; cbn [snd];
    by rewrite !log_events_app.
Qed.

(** X13. In a state the server reaches, [GET /panchang] of the caching
    server answers exactly as the route of the server without caches would,
    provided the entry under the request's key, if there is one, echoes the
    request's own date and coordinates; the server without caches calls the
    library on every accepted request and keeps nothing. *)
Theorem caching_is_transparent reqs date lat lng :
  let s := serve calendar sunTimer reqs initial in
  (forall r, panchangCache s !! getCacheKey date lat lng = Some r ->
             PanchangData.date r = date /\ PanchangData.latitude r = lat
             /\ PanchangData.longitude r = lng) ->
  last (trace (get_panchang calendar sunTimer date lat lng s))
  = last (trace (get_panchang_uncached calendar sunTimer date lat lng s))
  /\ panchangCache (get_panchang_uncached calendar sunTimer date lat lng s)
     = panchangCache s
  /\ (Js.truthy date && Js.truthy lat && Js.truthy lng = true ->
      CalendarCall date lat lng
      ∈ events_since s (get_panchang_uncached calendar sunTimer date lat lng s)).
Proof.
  intros s Hecho.
  destruct (serve_sound calendar sunTimer reqs) as [Hcoh _]. fold s in Hcoh.
  destruct (Js.truthy date && Js.truthy lat && Js.truthy lng) eqn:Hvalid.
  - rewrite (get_panchang_uncached_run _ _ _ _ Hvalid).
    pose proof (get_panchang_answers calendar sunTimer date lat lng s Hvalid) as Hans.
    cbv zeta in Hans. rewrite record_at_eq in Hans.
    assert (Hcall : CalendarCall date lat lng ∈ computing_events calendar date lat lng)
      by (unfold computing_events; by left).
    destruct (panchangCache s !! getCacheKey date lat lng) as [r|] eqn:Hlook.
    + destruct Hans as [Hans _]. rewrite (responds_once_last _ _ _ _ Hans).
      destruct (Hecho r eq_refl) as (Hd & Hla & Hln).
      destruct (Hcoh _ _ Hlook) as [_ Hcomp]. rewrite Hd, Hla, Hln in Hcomp.
      rewrite Hcomp. cbn [trace panchangCache log_events].
      split; [by rewrite !app_assoc, last_snoc|]. split; [done|]. intros _.
      erewrite events_since_app; [|reflexivity]. apply elem_of_app. by left.
    + destruct (computed calendar sunTimer date lat lng) as [msg|r];
        destruct Hans as [Hans _]; rewrite (responds_once_last _ _ _ _ Hans);
        cbn [trace panchangCache log_events].
      * split; [|split; [done|]].
        -- change [ConsoleError ("Error: " +:+ msg);
                   Response 500 (JError "Internal server error")]
             with ([ConsoleError ("Error: " +:+ msg)]
                   ++ [Response 500 (JError "Internal server error")]).
           by rewrite !app_assoc, last_snoc.
        -- intros _. erewrite events_since_app; [|reflexivity].
           apply elem_of_app. by left.
      * split; [by rewrite !app_assoc, last_snoc|]. split; [done|]. intros _.
        erewrite events_since_app; [|reflexivity]. apply elem_of_app. by left.
  - rewrite (get_panchang_rejects _ _ _ _ _ _ Hvalid).
    unfold get_panchang_uncached, route, try_catch. rewrite negb_orb3, Hvalid.
    split; [done|]. split; [done|]. discriminate.
Qed.

Ltac same_search_cache_side :=
  first [ exact same_search_cache_refl
        | exact same_search_cache_trans
        | exact (getPanchangData_same_search_cache calendar sunTimer)
        | intros; reflexivity ].

Ltac same_queue_side :=
  first [ exact same_queue_refl
        | exact same_queue_trans
        | exact (getPanchangData_same_queue calendar sunTimer)
        | intros; reflexivity ].

Lemma get_search_tithi_other_keys currentYear tithi lat lng s k :
  k <> searchKey_of tithi lat lng ->
  tithiSearchCache (get_search_tithi calendar sunTimer currentYear tithi lat lng s) !! k
  = tithiSearchCache s !! k.
Proof.
  intros Hk. unfold get_search_tithi, route, try_catch.
  destruct (negb (Js.truthy tithi) || negb (Js.truthy lat) || negb (Js.truthy lng));
    [done|].
  unfold bind at 1. unfold get_state.
  destruct (tithiSearchCache s !! searchKey_of tithi lat lng); [done|].
  unfold bind at 1.
  pose proof (search_loop_frame calendar sunTimer tithi lat lng
                (getDatesInCurrentYear currentYear) [] s) as Hframe.
  destruct (for_of (getDatesInCurrentYear currentYear)
              (search_body calendar sunTimer tithi lat lng) [] s) as [[e|ms] s1];
    cbn [snd] in Hframe.
  - cbn. by rewrite Hframe.
  - cbn. rewrite lookup_insert_ne by done. by rewrite Hframe.
Qed.

(** X14. Only the search route writes [tithiSearchCache], and only under
    the key of its own term and coordinates; only the warm-up route and the
    callbacks it schedules put anything on the [setImmediate] queue or take
    anything off it. *)
Theorem routes_leave_alone req s :
  match req with
  | GetSearchTithi currentYear tithi lat lng =>
      forall k, k <> searchKey_of tithi lat lng ->
                tithiSearchCache (handle calendar sunTimer req s) !! k
                = tithiSearchCache s !! k
  | DeleteCache => True
  | _ => same_search_cache s (handle calendar sunTimer req s)
  end
  /\ match req with
     | PostCacheYear _ _ _ | Immediate => True
     | _ => same_queue s (handle calendar sunTimer req s)
     end.
Proof.
  destruct req as [date lat lng|y lat lng| |y tithi lat lng|y lat lng| | |];
    cbn [handle]; (split; [|try exact I]); try reflexivity.
  - apply (get_panchang_steps calendar sunTimer same_search_cache);
      same_search_cache_side.
  - apply (get_panchang_steps calendar sunTimer same_queue); same_queue_side.
  - apply (post_cache_year_steps calendar sunTimer same_search_cache);
      same_search_cache_side.
  - intros k Hk. by apply get_search_tithi_other_keys.
  - apply (get_search_tithi_steps calendar sunTimer same_queue); same_queue_side.
  - apply (get_tithis_steps calendar sunTimer same_search_cache);
      same_search_cache_side.
  - apply (get_tithis_steps calendar sunTimer same_queue); same_queue_side.
  - apply (run_immediate_steps calendar sunTimer same_search_cache);
      same_search_cache_side.
Qed.

End Transparency.

Section ClearDuringWarmUp.

Variable calendar : Js.value -> Js.value -> Js.value -> string + CalendarResult.
Variable sunTimer : Js.value -> Js.value -> Js.value -> string + SunTimes.

Lemma serve_app reqs1 reqs2 s :
  serve calendar sunTimer (reqs1 ++ reqs2) s
  = serve calendar sunTimer reqs2 (serve calendar sunTimer reqs1 s).
Proof. apply foldl_app. Qed.

Lemma serve_immediates n s :
  serve calendar sunTimer (replicate n Immediate) s
  = run_immediates calendar sunTimer n s.
Proof.
  revert s. induction n as [|n IH]; intros s; [done|].
  cbn [replicate run_immediates]. rewrite <- IH. reflexivity.
Qed.

Lemma post_cache_year_queue currentYear la ln s :
  Js.truthy la = true -> Js.truthy ln = true -> immediates s = [] ->
  exists c,
    immediates (post_cache_year calendar sunTimer currentYear la ln s)
    = [{| dates := getDatesInCurrentYear currentYear; lat := la; lng := ln;
          currentBatch := 1; cachedCount := c |}].
Proof.
  intros Hlat Hlng Hidle. rewrite (post_cache_year_run _ _ _ _ _ _ Hlat Hlng).
  set (ds := getDatesInCurrentYear currentYear).
  assert (Hlen : (List.length ds = 365 \/ List.length ds = 366)%nat).
  { unfold ds. rewrite getDatesInCurrentYear_length.
    destruct (JsDate.is_leap _); auto. }
  destruct (processBatch_run calendar sunTimer
              {| dates := ds; lat := la; lng := ln;
                 currentBatch := 0; cachedCount := 0 |} s) as [c Hrun].
  cbn [dates lat lng currentBatch] in Hrun.
  rewrite decide_True in Hrun by (unfold batchSize; lia).
  rewrite sweep_immediates, Hidle in Hrun. exists c. by rewrite Hrun.
Qed.

Lemma run_immediates_same_search_cache n s :
  tithiSearchCache (run_immediates calendar sunTimer n s) = tithiSearchCache s.
Proof.
  revert s. induction n as [|n IH]; intros s; [done|].
  cbn [run_immediates]. rewrite IH.
  apply (run_immediate_steps calendar sunTimer same_search_cache);
    first [ exact same_search_cache_refl
          | exact same_search_cache_trans
          | exact (getPanchangData_same_search_cache calendar sunTimer)
          | intros; reflexivity ].
Qed.

(** X15. [DELETE /cache] does not cancel a warm-up.  A clear that arrives
    right after the warm-up's response, with nothing else queued, leaves the
    scheduled callback in place: seven turns of the event loop later the
    queue is empty, each date from index 50 on is cached if and only if its
    computation succeeds, and none of the first 50 dates is cached. *)
Theorem clear_does_not_cancel_warm_up currentYear la ln s :
  Js.truthy la = true -> Js.truthy ln = true -> immediates s = [] ->
  let ds := getDatesInCurrentYear currentYear in
  let final :=
    serve calendar sunTimer
      ([PostCacheYear currentYear la ln; DeleteCache] ++ replicate 7 Immediate) s in
  immediates final = []
  /\ tithiSearchCache final = ∅
  /\ (forall d, d ∈ drop 50 ds ->
        panchangCache final !! getCacheKey (Js.VStr d) la ln
        = match computed calendar sunTimer (Js.VStr d) la ln with
          | inr r => Some r
          | inl _ => None
          end)
  /\ (forall d, d ∈ take 50 ds ->
        panchangCache final !! getCacheKey (Js.VStr d) la ln = None).
Proof.
  intros Hlat Hlng Hidle ds final.
  destruct (post_cache_year_queue currentYear la ln s Hlat Hlng Hidle) as [c Hq].
  fold ds in Hq.
  set (s1 := post_cache_year calendar sunTimer currentYear la ln s) in *.
  set (s2 := delete_cache s1).
  assert (Hfinal : final = run_immediates calendar sunTimer 7 s2).
  { unfold final. rewrite serve_app, serve_immediates. reflexivity. }
  assert (Hlen : (List.length ds = 365 \/ List.length ds = 366)%nat).
  { unfold ds. rewrite getDatesInCurrentYear_length.
    destruct (JsDate.is_leap _); auto. }
  destruct (run_immediates_drain calendar sunTimer 7
              {| dates := ds; lat := la; lng := ln;
                 currentBatch := 1; cachedCount := c |} s2) as [Hempty Hc];
    [exact Hq|cbn [dates currentBatch]; unfold batchSize; lia
     |cbn [dates currentBatch]; unfold batchSize; lia|].
  cbn [dates lat lng currentBatch] in Hc.
  change (1 * batchSize)%nat with 50%nat in Hc.
  assert (Hs2 : panchangCache s2 = ∅) by reflexivity.
  rewrite Hfinal. split; [exact Hempty|].
  split; [by rewrite run_immediates_same_search_cache|].
  split.
  - intros d Hd. rewrite Hc, (sweep_lookup calendar sunTimer _ _ _ _ _ _ Hd).
    by rewrite record_at_eq, Hs2, lookup_empty.
  - intros d Hd. rewrite Hc, sweep_lookup_other; [by rewrite Hs2, lookup_empty|].
    intros d' Hd' Heq. apply getCacheKey_date_inj in Heq as <-.
    pose proof (getDatesInCurrentYear_NoDup currentYear) as Hnd. fold ds in Hnd.
    rewrite <- (take_drop 50 ds) in Hnd. apply NoDup_app in Hnd as (_ & Hdisj & _).
    by apply (Hdisj d).
Qed.

End ClearDuringWarmUp.

(** The leap years of [new Date(currentYear, month, 0)], written out. *)
Lemma is_leap_full_year (currentYear : Z) :
  let y := if bool_decide (0 <= currentYear <= 99)%Z
           then (1900 + currentYear)%Z else currentYear in
  JsDate.is_leap (JsDate.full_year currentYear)
  = bool_decide (y mod 4 = 0 /\ (y mod 100 <> 0 \/ y mod 400 = 0))%Z.
Proof.
  intros y.
  assert (Hy : JsDate.full_year currentYear = y).
  { unfold JsDate.full_year, y. case_bool_decide as H.
    - destruct H as [H1 H2]. apply Z.leb_le in H1, H2. by rewrite H1, H2.
    - destruct (Z.leb_spec 0 currentYear), (Z.leb_spec currentYear 99);
        simpl; try done. lia. }
  rewrite Hy. clear Hy. clearbody y. unfold JsDate.is_leap.
  destruct (Z.eqb_spec (y mod 4) 0), (Z.eqb_spec (y mod 100) 0),
    (Z.eqb_spec (y mod 400) 0); case_bool_decide as H; simpl; try done;
    exfalso; try (apply H; clear H); Z.div_mod_to_equations; lia.
Qed.

Lemma leap_day_listed (leap : bool) :
  "02-29" ∈ Iso.month_days_of leap <-> leap = true.
Proof.
  destruct leap; split; try done.
  - intros _. apply (bool_decide_unpack _). vm_compute. exact I.
  - intros H. exfalso. revert H. apply (bool_decide_unpack _). vm_compute. exact I.
Qed.

Lemma month_days_of_ends (leap : bool) :
  head (Iso.month_days_of leap) = Some "01-01"
  /\ last (Iso.month_days_of leap) = Some "12-31".
Proof. destruct leap; split; vm_compute; reflexivity. Qed.

Lemma head_map {A B} (f : A -> B) (l : list A) : head (map f l) = f <$> head l.
Proof. by destruct l. Qed.

Lemma last_map {A B} (f : A -> B) (l : list A) : last (map f l) = f <$> last l.
Proof. apply (fmap_last f l). Qed.

(** X16. For every year whose months all lie within the range of [Date],
    from -271820 to 275759 and so also outside 1000 to 9999, the enumeration
    lists the days of the year in calendar order, each as the year's decimal
    numeral, a dash and a zero-padded [MM-DD], from [01-01] to [12-31]: 366
    pairwise distinct strings, the 29th of February among them, in a leap
    year, and 365 without it otherwise.  The leap year is that of the
    [Date] constructor, which reads the years 0 to 99 as 1900 to 1999: a
    year divisible by 4 and not by 100, or divisible by 400, after that
    reading. *)
Theorem getDatesInCurrentYear_any_year (currentYear : Z) :
  (-271820 <= currentYear <= 275759)%Z ->
  let ds := getDatesInCurrentYear currentYear in
  let y := if bool_decide (0 <= currentYear <= 99)%Z
           then (1900 + currentYear)%Z else currentYear in
  let leap := bool_decide (y mod 4 = 0 /\ (y mod 100 <> 0 \/ y mod 400 = 0))%Z in
  ds = map (fun md => pretty currentYear +:+ "-" +:+ md) (Iso.month_days_of leap)
  /\ NoDup ds
  /\ List.length ds = (if leap then 366 else 365)%nat
  /\ head ds = Some (pretty currentYear +:+ "-01-01")
  /\ last ds = Some (pretty currentYear +:+ "-12-31")
  /\ (pretty currentYear +:+ "-02-29" ∈ ds <-> leap = true)
  /\ StronglySorted string_lt (Iso.month_days_of leap).
Proof.
  intros _ ds y leap.
  pose proof (is_leap_full_year currentYear) as Hleap. cbv zeta in Hleap.
  fold y in Hleap. fold leap in Hleap.
  assert (Hds : ds = map (fun md => pretty currentYear +:+ "-" +:+ md)
                       (Iso.month_days_of leap)).
  { unfold ds. rewrite getDatesInCurrentYear_prefixed, Hleap.
    apply map_ext. intros md. apply append_assoc. }
  split; [exact Hds|]. split; [apply getDatesInCurrentYear_NoDup|].
  split; [unfold ds; by rewrite getDatesInCurrentYear_length, Hleap|].
  split; [by rewrite Hds, head_map, (proj1 (month_days_of_ends leap))|].
  split; [by rewrite Hds, last_map, (proj2 (month_days_of_ends leap))|].
  split; [|apply month_days_of_sorted].
  rewrite <- leap_day_listed, Hds. split.
  - intros Hin. apply list_elem_of_In, in_map_iff in Hin as (md & Heq & Hmd).
    apply append_inv_head in Heq.
    change ("-" +:+ md = "-" +:+ "02-29") in Heq. apply append_inv_head in Heq.
    subst md. by apply list_elem_of_In.
  - intros Hin. apply list_elem_of_In, in_map_iff. exists "02-29".
    split; [reflexivity|]. by apply list_elem_of_In.
Qed.

(** A record cached by a first lookup is still there, unchanged, after a
    search, a warm-up, a turn of the queue and a statistics request. *)
Lemma caches_only_grow_witness :
  let s0 := get_panchang Demo.calendar Demo.sunTimer (Js.VStr "2024-01-15")
              Demo.bengaluru_lat Demo.bengaluru_lng initial in
  let reqs := [GetSearchTithi 2024 (Js.VStr "purnima")
                 Demo.bengaluru_lat Demo.bengaluru_lng;
               PostCacheYear 2024 Demo.bengaluru_lat Demo.bengaluru_lng;
               Immediate; GetCacheStats] in
  let k := getCacheKey (Js.VStr "2024-01-15") Demo.bengaluru_lat Demo.bengaluru_lng in
  exists r,
    panchangCache s0 !! k = Some r
    /\ PanchangData.tithi r = "Purnima"
    /\ panchangCache (serve Demo.calendar Demo.sunTimer reqs s0) !! k = Some r.
Proof.
  eexists. split; [vm_compute; reflexivity|]. split; [reflexivity|].
  apply (proj1 (proj1 (caches_only_grow Demo.calendar Demo.sunTimer
                         [GetSearchTithi 2024 (Js.VStr "purnima")
                            Demo.bengaluru_lat Demo.bengaluru_lng;
                          PostCacheYear 2024 Demo.bengaluru_lat Demo.bengaluru_lng;
                          Immediate; GetCacheStats]
                         (get_panchang Demo.calendar Demo.sunTimer
                            (Js.VStr "2024-01-15")
                            Demo.bengaluru_lat Demo.bengaluru_lng initial)
                         eq_refl))).
  vm_compute. reflexivity.
Defined.

(** A warm-up request whose parsed body has no [lat]. *)
Lemma missing_parameters_rejected_witness :
  post_cache_year_of_body Demo.calendar Demo.sunTimer 2024
    (Some (Js.VUndefined, Demo.bengaluru_lng)) initial
  = log_events [Response 400 (JError "Missing lat or lng")] initial.
Proof.
  apply (proj1 (proj2 (proj2
           (missing_parameters_rejected Demo.calendar Demo.sunTimer initial)))).
  reflexivity.
Defined.

(** The warm-up of 2024 is accepted. *)
Lemma accepted_requests_status_witness :
  responds_once 200
    (JCacheYear "Year caching started" (List.length (getDatesInCurrentYear 2024))
       (location_of Demo.bengaluru_lat Demo.bengaluru_lng))
    initial
    (post_cache_year Demo.calendar Demo.sunTimer 2024
       Demo.bengaluru_lat Demo.bengaluru_lng initial).
Proof.
  apply (proj1 (proj2 (accepted_requests_status Demo.calendar Demo.sunTimer initial))).
  reflexivity.
Defined.

(** The full moon of January 2024, asked again after a statistics request. *)
Lemma served_record_is_reused_witness :
  exists r,
    let s1 := get_panchang Demo.calendar Demo.sunTimer (Js.VStr "2024-01-15")
                Demo.bengaluru_lat Demo.bengaluru_lng initial in
    let s2 := serve Demo.calendar Demo.sunTimer [GetCacheStats] s1 in
    get_panchang Demo.calendar Demo.sunTimer (Js.VStr "2024-01-15")
      Demo.bengaluru_lat Demo.bengaluru_lng s2
    = log_events [Response 200 (JPanchang r)] s2.
Proof.
  eexists.
  apply (served_record_is_reused Demo.calendar Demo.sunTimer (Js.VStr "2024-01-15")
           Demo.bengaluru_lat Demo.bengaluru_lng initial _ [GetCacheStats]).
  - reflexivity.
  - reflexivity.
  - reflexivity.
Defined.

(** A search of 2024 asked again in 2025. *)
Lemma search_result_is_reused_witness :
  let s1 := get_search_tithi Demo.calendar Demo.sunTimer 2024 (Js.VStr "purnima")
              Demo.bengaluru_lat Demo.bengaluru_lng initial in
  exists result,
    last (trace s1) = Some (Response 200 (JSearch result))
    /\ get_search_tithi Demo.calendar Demo.sunTimer 2025 (Js.VStr "purnima")
         Demo.bengaluru_lat Demo.bengaluru_lng s1
       = log_events [Response 200 (JSearch result)] s1.
Proof.
  apply (search_result_is_reused Demo.calendar Demo.sunTimer 2024 2025 "purnima"
           Demo.bengaluru_lat Demo.bengaluru_lng initial []).
  - discriminate.
  - reflexivity.
  - reflexivity.
  - reflexivity.
  - reflexivity.
Defined.

(** ["purnima"] and then ["PURNIMA"]. *)
Lemma search_ignores_case_witness :
  let s1 := get_search_tithi Demo.calendar Demo.sunTimer 2024 (Js.VStr "purnima")
              Demo.bengaluru_lat Demo.bengaluru_lng initial in
  let s2 := get_search_tithi Demo.calendar Demo.sunTimer 2024 (Js.VStr "PURNIMA")
              Demo.bengaluru_lat Demo.bengaluru_lng s1 in
  exists r r',
    tithiSearchCache s2
      !! searchKey_of (Js.VStr "purnima") Demo.bengaluru_lat Demo.bengaluru_lng = Some r
    /\ tithiSearchCache s2
         !! searchKey_of (Js.VStr "PURNIMA") Demo.bengaluru_lat Demo.bengaluru_lng
       = Some r'
    /\ SearchResult.dates r' = SearchResult.dates r.
Proof.
  destruct (search_ignores_case Demo.calendar Demo.sunTimer 2024 "purnima" "PURNIMA"
              Demo.bengaluru_lat Demo.bengaluru_lng initial
              ltac:(discriminate) ltac:(discriminate) ltac:(discriminate)
              eq_refl eq_refl eq_refl eq_refl eq_refl)
    as (r & r' & H1 & H2 & _ & H3 & _).
  exists r, r'. split; [exact H1|]. split; [exact H2|exact H3].
Defined.

(** The suggestions for 2024, asked twice. *)
Lemma tithis_repeat_same_answer_witness :
  let s1 := get_tithis Demo.calendar Demo.sunTimer 2024
              Demo.bengaluru_lat Demo.bengaluru_lng initial in
  let s2 := get_tithis Demo.calendar Demo.sunTimer 2024
              Demo.bengaluru_lat Demo.bengaluru_lng s1 in
  last (trace s2) = last (trace s1).
Proof.
  apply (tithis_repeat_same_answer Demo.calendar Demo.sunTimer 2024
           Demo.bengaluru_lat Demo.bengaluru_lng initial eq_refl eq_refl).
Defined.

(** The warm-up of 2024 from the empty cache. *)
Lemma warm_up_fills_cache_witness :
  immediates (run_immediates Demo.calendar Demo.sunTimer 7
                (post_cache_year Demo.calendar Demo.sunTimer 2024
                   Demo.bengaluru_lat Demo.bengaluru_lng initial)) = [].
Proof.
  apply (warm_up_fills_cache Demo.calendar Demo.sunTimer 2024
           Demo.bengaluru_lat Demo.bengaluru_lng initial eq_refl eq_refl eq_refl).
  intros d _. reflexivity.
Defined.

(** The 366 days of 2024 less the seven 31sts without ephemeris. *)
Example warm_up_2024_stats :
  let final := run_immediates Demo.calendar Demo.sunTimer 7
                 (post_cache_year Demo.calendar Demo.sunTimer 2024
                    Demo.bengaluru_lat Demo.bengaluru_lng initial) in
  last (trace (get_cache_stats final))
  = Some (Response 200 (JStats 359 0 "Cache statistics")).
Proof. vm_compute. reflexivity. Qed.

(** A search after the warm-up of 2024: 31 January had no ephemeris. *)
Lemma search_after_warm_up_witness :
  record_at Demo.calendar Demo.sunTimer initial (Js.VStr "2024-01-31")
    Demo.bengaluru_lat Demo.bengaluru_lng = None.
Proof.
  apply (proj1 (search_after_warm_up Demo.calendar Demo.sunTimer 2024 "purnima"
                  Demo.bengaluru_lat Demo.bengaluru_lng initial
                  ltac:(discriminate) eq_refl eq_refl eq_refl eq_refl)).
  vm_compute. apply list_elem_of_here.
Defined.

(** A date that is already cached: the caching route answers from the
    cache what the route without caches computes anew. *)
Lemma caching_is_transparent_witness :
  let s := serve Demo.calendar Demo.sunTimer
             [GetPanchang (Js.VStr "2024-01-15")
                Demo.bengaluru_lat Demo.bengaluru_lng] initial in
  is_Some (panchangCache s
             !! getCacheKey (Js.VStr "2024-01-15")
                  Demo.bengaluru_lat Demo.bengaluru_lng)
  /\ last (trace (get_panchang Demo.calendar Demo.sunTimer (Js.VStr "2024-01-15")
                    Demo.bengaluru_lat Demo.bengaluru_lng s))
     = last (trace (get_panchang_uncached Demo.calendar Demo.sunTimer
                      (Js.VStr "2024-01-15")
                      Demo.bengaluru_lat Demo.bengaluru_lng s)).
Proof.
  split; [vm_compute; eauto|].
  apply (caching_is_transparent Demo.calendar Demo.sunTimer
           [GetPanchang (Js.VStr "2024-01-15") Demo.bengaluru_lat Demo.bengaluru_lng]
           (Js.VStr "2024-01-15") Demo.bengaluru_lat Demo.bengaluru_lng).
  intros r H. vm_compute in H. injection H as <-. by repeat split.
Defined.

(** A clear right after the response to the warm-up of 2024. *)
Lemma clear_does_not_cancel_warm_up_witness :
  immediates
    (serve Demo.calendar Demo.sunTimer
       ([PostCacheYear 2024 Demo.bengaluru_lat Demo.bengaluru_lng; DeleteCache]
        ++ replicate 7 Immediate) initial) = [].
Proof.
  apply (clear_does_not_cancel_warm_up Demo.calendar Demo.sunTimer 2024
           Demo.bengaluru_lat Demo.bengaluru_lng initial eq_refl eq_refl eq_refl).
Defined.

(** Year 0 is read as 1900, which is no leap year. *)
Lemma getDatesInCurrentYear_any_year_witness :
  List.length (getDatesInCurrentYear 0) = 365%nat.
Proof.
  apply (proj1 (proj2 (proj2 (getDatesInCurrentYear_any_year 0 ltac:(lia))))).
Defined.
